(** * LPRF transceiver driver (lprf.c): a shallow embedding and its properties

    The driver polls a SPI radio chip that has no interrupt line.  This file
    embeds the calculation helpers, the frame codec and the polling state
    machine of [lprf.c] and proves the properties the design document states
    about them.  A second part embeds the callbacks of the IEEE 802.15.4
    stack, the character device and the chip detection of [lprf_rx.c], and
    proves further properties that the code itself shows.

    Conventions.
    - C integers are values of [Z]; every conversion to a fixed width is
      written out with [u8], [u32] (unsigned wrap) or [s32] (two's complement
      wrap, the kernel is built with wrapping signed arithmetic).
    - An array is a [list Z] holding its whole storage; an access outside the
      storage is undefined in C and makes the embedded function return [None].
    - Code that talks to the kernel (SPI, timers, socket buffers) appends to a
      trace of events; return codes chosen by the kernel are read from an
      oracle kept in the state. *)

From Stdlib Require Import ZArith Lia Bool List.
From stdpp Require Import base option list.
Import ListNotations.
Open Scope Z_scope.

(** ** Fixed-width C arithmetic *)

Definition u8 (x : Z) : Z := x mod 256.
Definition u32 (x : Z) : Z := x mod 4294967296.
Definition s32 (x : Z) : Z := (x + 2147483648) mod 4294967296 - 2147483648.

(** [~x] on a promoted [uint8_t], stored back into a [uint8_t]. *)
Definition not8 (x : Z) : Z := u8 (Z.lnot x).

(** Linux error numbers (asm-generic/errno-base.h). *)
Definition ENOMEM : Z := 12.
Definition EFAULT : Z := 14.
Definition EBUSY : Z := 16.
Definition EINVAL : Z := 22.

Definition is_byte (b : Z) : Prop := 0 <= b < 256.
Definition is_int (x : Z) : Prop := -2147483648 <= x < 2147483648.

(** ** Calculations (lprf.c, section "Calculations") *)

(** [reverse_bit_order]: the C function updates [*byte] in place three times;
    here the byte is passed and returned by value. *)
Definition reverse_bit_order (byte : Z) : Z :=
  let byte := u8 (Z.lor (Z.shiftr (Z.land byte 0xaa) 1)
                        (Z.shiftl (Z.land byte 0x55) 1)) in
  let byte := u8 (Z.lor (Z.shiftr (Z.land byte 0xcc) 2)
                        (Z.shiftl (Z.land byte 0x33) 2)) in
  u8 (Z.lor (Z.shiftr byte 4) (Z.shiftl byte 4)).

Definition calc_vco_tune (channel_number : Z) : Z :=
  match channel_number with
  | 11 => 237 | 12 => 235 | 13 => 234 | 14 => 232
  | 15 => 231 | 16 => 223 | 17 => 222 | 18 => 220
  | 19 => 213 | 20 => 212 | 21 => 210 | 22 => 209
  | 23 => 207 | 24 => 206 | 25 => 206 | 26 => 204
  | _ => 0
  end.

(** [calculate_rf_center_freq]: the sum is computed in [int], stored in a
    [uint32_t] and multiplied by [1000000U] in 32-bit unsigned arithmetic. *)
Definition calculate_rf_center_freq (channel_number : Z) : Z :=
  if (11 <=? channel_number) && (channel_number <=? 26) then
    let f_rf_MHz := u32 (s32 (2405 + s32 (5 * s32 (channel_number - 11)))) in
    u32 (f_rf_MHz * 1000000)
  else 0.

(** [lprf_calculate_pll_values]: the two result pointers are modelled by
    passing the current contents of [*int_val] and [*frac_val] and returning
    the new ones next to the return code.  Every operation on [uint32_t]
    wraps at 2^32. *)
Definition pll_f_lo (rf_frequency if_frequency : Z) : Z :=
  u32 (u32 (u32 (rf_frequency - if_frequency) / 3) * 2).

Definition lprf_calculate_pll_values
    (rf_frequency if_frequency int_val frac_val : Z) : Z * Z * Z :=
  let frac_correction := 0 in
  if 2000000000 <? rf_frequency then
    let f_lo := pll_f_lo rf_frequency if_frequency in
    let int_val := s32 (f_lo / 16000000) in
    let frac_val :=
      s32 (u32 (u32 (u32 ((f_lo mod 16000000) * 228) / 3479)
                + u32 frac_correction)) in
    (0, int_val, frac_val)
  else (- EINVAL, int_val, frac_val).

(** ** Frame codec, receive side (lprf.c, section "States") *)

(** Array accesses.  [rd] and [wr] are [data[i]] and [data[i] = v]; outside
    the storage they are undefined behaviour, modelled by [None]. *)
Definition rd (buf : list Z) (i : Z) : option Z :=
  if i <? 0 then None else buf !! Z.to_nat i.

Definition wr (buf : list Z) (i v : Z) : option (list Z) :=
  if (0 <=? i) && (i <? Z.of_nat (length buf))
  then Some (<[Z.to_nat i := v]> buf) else None.

(** The loop of [number_of_equal_bits]: [counter += combined & 1;
    combined >>= 1], repeated [number_of_bits] times. *)
Fixpoint equal_bits_loop (n : nat) (combined counter : Z) : Z :=
  match n with
  | O => counter
  | S n' => equal_bits_loop n' (Z.shiftr combined 1)
                            (counter + Z.land combined 1)
  end.

Definition number_of_equal_bits (x1 x2 number_of_bits : Z) : Z :=
  let combined := u32 (Z.lnot (Z.lxor x1 x2)) in
  equal_bits_loop (Z.to_nat number_of_bits) combined 0.

(** [((hi << 8) | lo) >> shift], computed in [int] on promoted bytes. *)
Definition window (hi lo shift : Z) : Z :=
  Z.shiftr (Z.lor (Z.shiftl hi 8) lo) shift.

(** The copy loop of [find_SFD_and_shift_data], run in place:
    [data[i] = ((data[i + start] << 8) | data[i + start + 1]) >> shift]
    for [n] iterations starting at index [i]. *)
Fixpoint shift_loop (n : nat) (i data_start_position shift : Z)
    (data : list Z) : option (list Z) :=
  match n with
  | O => Some data
  | S n' =>
      hi ← rd data (i + data_start_position);
      lo ← rd data (i + data_start_position + 1);
      data' ← wr data i (u8 (window hi lo shift));
      shift_loop n' (i + 1) data_start_position shift data'
  end.

(** [find_SFD_and_shift_data].  The result is the return value together with
    the contents of [data] and of [*data_length] after the call. *)
Definition find_SFD_and_shift_data
    (data : list Z) (data_length : Z) (sfd preamble_length : Z)
    : option (Z * list Z * Z) :=
  let sfd_start_postion := s32 (preamble_length - 1) in
  let data_start_position := s32 (sfd_start_postion + 1) in
  let shift := 8 in
  if data_length <? s32 (sfd_start_postion + 2) then
    Some (- EFAULT, data, data_length)
  else
    d0 ← rd data sfd_start_postion;
    d1 ← rd data (s32 (sfd_start_postion + 1));
    let no_shift := number_of_equal_bits sfd d0 8 in
    let one_bit_shift := number_of_equal_bits sfd (window d0 d1 7) 8 in
    let two_bit_shift := number_of_equal_bits sfd (window d0 d1 6) 8 in
    if (no_shift <? 7) && (one_bit_shift <? 7) && (two_bit_shift <? 7) then
      Some (0, data, data_length)
    else
      let shift :=
        if 7 <=? one_bit_shift then shift - 1
        else if 7 <=? two_bit_shift then shift - 2
        else shift in
      data' ← shift_loop
                (Z.to_nat (s32 (s32 (data_length - sfd_start_postion) - 1)))
                0 data_start_position shift data;
      Some (shift, data', s32 (data_length - s32 (sfd_start_postion + 1))).

(** [preprocess_received_data]: reverse and invert the first [length] bytes. *)
Fixpoint preprocess_loop (n : nat) (i : Z) (data : list Z)
    : option (list Z) :=
  match n with
  | O => Some data
  | S n' =>
      b ← rd data i;
      data1 ← wr data i (reverse_bit_order b);
      b1 ← rd data1 i;
      data2 ← wr data1 i (not8 b1);
      preprocess_loop n' (i + 1) data2
  end.

Definition preprocess_received_data (data : list Z) (length : Z)
    : option (list Z) :=
  preprocess_loop (Z.to_nat length) 0 data.

(** The number of positions below [n] at which [x] and [y] carry the same
    bit: what the design document calls the count of bits equal to the
    expected delimiter. *)
Fixpoint count_equal_bits (x y : Z) (n : nat) : Z :=
  match n with
  | O => 0
  | S n' =>
      count_equal_bits x y n'
      + (if Bool.eqb (Z.testbit x (Z.of_nat n')) (Z.testbit y (Z.of_nat n'))
         then 1 else 0)
  end.

(** The shift chosen once a candidate reaches 7 equal bits, as the chain of
    [if]s of [find_SFD_and_shift_data] computes it. *)
Definition chosen_shift (one_bit_shift two_bit_shift : Z) : Z :=
  if 7 <=? one_bit_shift then 7
  else if 7 <=? two_bit_shift then 6
  else 8.

(** All byte values, for checks by enumeration. *)
Definition all_bytes : list Z := map Z.of_nat (seq 0 256).


(** ** Declarations that are not part of the sources *)

(** A sub-register macro [SR_...] expands to the three arguments
    [addr, mask, shift]. *)
Definition subreg : Type := Z * Z * Z.

(** The constants and macros of [lprf_registers.h].  The header is included
    by [lprf.c] but is not among the source files, so the model is
    parameterised by what it declares. *)
Class lprf_registers_h := {
  REGW : Z;
  FRMW : Z;
  FRMR : Z;
  RG_GLOBAL_RESETB : Z;
  RG_SM_MAIN : Z;
  SR_DEM_RESETB : subreg;
  SR_SM_COMMAND : subreg;
  STATE_CMD_NONE : Z;
  STATE_CMD_SLEEP : Z;
  STATE_CMD_TX : Z;
  STATE_CMD_RX : Z;
  SYNC_HEADER : list Z;
  PHY_HEADER_LENGTH : Z;
  RETRY_INTERVAL : Z;
  SR_RX_CHAN_INT : subreg;
  SR_RX_CHAN_FRAC_H : subreg;
  SR_RX_CHAN_FRAC_M : subreg;
  SR_RX_CHAN_FRAC_L : subreg;
  SR_TX_CHAN_INT : subreg;
  SR_TX_CHAN_FRAC_H : subreg;
  SR_TX_CHAN_FRAC_M : subreg;
  SR_TX_CHAN_FRAC_L : subreg;
  SR_PLL_VCO_TUNE : subreg;
  BIT24_H_BYTE : Z -> Z;
  BIT24_M_BYTE : Z -> Z;
  BIT24_L_BYTE : Z -> Z
}.

(** What [lprf.c] uses of the kernel header [linux/ieee802154.h]. *)
Class linux_ieee802154_h := {
  ieee802154_is_valid_psdu_len : Z -> bool;
  IEEE802154_MTU : Z
}.

(** ** Constants of lprf.h *)

Definition FIFO_PACKET_SIZE : Z := 256.
Definition MAX_SPI_BUFFER_SIZE : Z := FIFO_PACKET_SIZE + 2.

(** [ktime_set(0, ns)]: intervals are kept in nanoseconds. *)
Definition RX_POLLING_INTERVAL : Z := 5000000.
Definition RX_RX_INTERVAL : Z := 500000.
Definition TX_RX_INTERVAL : Z := 5000000.

Definition PHY_SM_STATUS (phy_status : Z) : Z :=
  Z.shiftr (Z.land phy_status 0xe0) 5.
Definition PHY_SM_ENABLE (phy_status : Z) : Z :=
  Z.shiftr (Z.land phy_status 0x10) 4.
Definition PHY_FIFO_EMPTY (phy_status : Z) : Z :=
  Z.shiftr (Z.land phy_status 0x08) 3.
Definition PHY_FIFO_FULL (phy_status : Z) : Z :=
  Z.shiftr (Z.land phy_status 0x04) 2.

Definition PHY_SM_DEEPSLEEP : Z := 0x01.
Definition PHY_SM_SLEEP : Z := 0x02.
Definition PHY_SM_BUSY : Z := 0x03.
Definition PHY_SM_TX_RDY : Z := 0x04.
Definition PHY_SM_SENDING : Z := 0x05.
Definition PHY_SM_RX_RDY : Z := 0x06.
Definition PHY_SM_RECEIVING : Z := 0x07.

(** ** The driver state and the kernel interface *)

(** The functions that are stored in [spi_message.complete]. *)
Inductive callback : Type :=
| lprf_phy_status_complete_cb
| lprf_async_error_recover_callback_cb
| lprf_async_error_recover_cb
| lprf_tx_change_complete_cb
| lprf_frame_write_complete_cb
| lprf_rx_change_complete_cb
| lprf_read_frame_complete_cb
| lprf_rx_resets_cb.

Inductive wait_queue : Type :=
| wait_for_rx_data
| wait_for_tx_ready.

(** Calls into the kernel.  [spi_async_state_change bytes complete ret] is a
    dispatch of the state-change message: [bytes] are the first
    [spi_transfer.len] bytes of [tx_buf], [complete] the completion callback
    and [ret] what [spi_async] returned. *)
Inductive event : Type :=
| spi_async_phy_status (ret : Z)
| spi_async_state_change (bytes : list Z) (complete : option callback)
                         (ret : Z)
| hrtimer_start (interval : Z)
| hrtimer_cancel
| dev_err (rc : Z)
| kfree_skb (skb : option (list Z))
| ieee802154_xmit_complete (skb : option (list Z))
| wake_up (q : wait_queue)
| kfifo_in (data : list Z)
| ieee802154_rx_irqsafe (skb : list Z) (lqi : Z).

Record lprf_local := mk_lprf_local {
  (** [lprf->rx_polling_active] (atomic_t) *)
  rx_polling_active : Z;
  (** [lprf->phy_status.is_active] (atomic_t): the poll guard *)
  phy_status_is_active : Z;
  (** [lprf->phy_status.rx_buf[0]] *)
  phy_status_rx_buf : Z;
  (** [lprf->state_change.rx_buf] *)
  rx_buf : list Z;
  (** [lprf->state_change.tx_buf] *)
  tx_buf : list Z;
  (** [lprf->state_change.spi_transfer.len] *)
  spi_transfer_len : Z;
  (** [lprf->state_change.spi_message.complete] *)
  spi_message_complete : option callback;
  (** [lprf->state_change.to_state] *)
  to_state : Z;
  (** [lprf->state_change.transition_in_progress] (atomic_t): the transition guard *)
  transition_in_progress : Z;
  (** [lprf->state_change.tx_complete] *)
  tx_complete : bool;
  (** [lprf->state_change.sm_main_value] *)
  sm_main_value : Z;
  (** [lprf->state_change.dem_main_value] *)
  dem_main_value : Z;
  (** [lprf->tx_skb]: [None] is the null pointer, otherwise the [len] data bytes of the socket buffer *)
  tx_skb : option (list Z);
  (** [lprf->free_skb] *)
  free_skb : bool;
  (** the [static int reset_counter] of [lprf_rx_resets] *)
  reset_counter : Z;
  (** [lprf_char_driver_interface.is_ready] (atomic_t) *)
  char_driver_is_ready : Z;
  (** oracle: return codes of the coming calls of [spi_async]; once the list is used up every call returns 0 *)
  spi_async_rets : list Z;
  (** oracle: whether [dev_alloc_skb] succeeds *)
  dev_alloc_skb_ok : bool;
  (** the calls into the kernel made so far, oldest first *)
  trace : list event
}.

(** Field updates. *)
Definition set_rx_polling_active (v : Z) (s : lprf_local) : lprf_local :=
  mk_lprf_local v (phy_status_is_active s) (phy_status_rx_buf s) (rx_buf s)
    (tx_buf s) (spi_transfer_len s) (spi_message_complete s) (to_state s)
    (transition_in_progress s) (tx_complete s) (sm_main_value s)
    (dem_main_value s) (tx_skb s) (free_skb s) (reset_counter s)
    (char_driver_is_ready s) (spi_async_rets s) (dev_alloc_skb_ok s)
    (trace s).

Definition set_phy_status_is_active (v : Z) (s : lprf_local) : lprf_local :=
  mk_lprf_local (rx_polling_active s) v (phy_status_rx_buf s) (rx_buf s)
    (tx_buf s) (spi_transfer_len s) (spi_message_complete s) (to_state s)
    (transition_in_progress s) (tx_complete s) (sm_main_value s)
    (dem_main_value s) (tx_skb s) (free_skb s) (reset_counter s)
    (char_driver_is_ready s) (spi_async_rets s) (dev_alloc_skb_ok s)
    (trace s).

Definition set_phy_status_rx_buf (v : Z) (s : lprf_local) : lprf_local :=
  mk_lprf_local (rx_polling_active s) (phy_status_is_active s) v (rx_buf s)
    (tx_buf s) (spi_transfer_len s) (spi_message_complete s) (to_state s)
    (transition_in_progress s) (tx_complete s) (sm_main_value s)
    (dem_main_value s) (tx_skb s) (free_skb s) (reset_counter s)
    (char_driver_is_ready s) (spi_async_rets s) (dev_alloc_skb_ok s)
    (trace s).

Definition set_rx_buf (v : list Z) (s : lprf_local) : lprf_local :=
  mk_lprf_local (rx_polling_active s) (phy_status_is_active s)
    (phy_status_rx_buf s) v (tx_buf s) (spi_transfer_len s)
    (spi_message_complete s) (to_state s) (transition_in_progress s)
    (tx_complete s) (sm_main_value s) (dem_main_value s) (tx_skb s)
    (free_skb s) (reset_counter s) (char_driver_is_ready s)
    (spi_async_rets s) (dev_alloc_skb_ok s) (trace s).

Definition set_tx_buf (v : list Z) (s : lprf_local) : lprf_local :=
  mk_lprf_local (rx_polling_active s) (phy_status_is_active s)
    (phy_status_rx_buf s) (rx_buf s) v (spi_transfer_len s)
    (spi_message_complete s) (to_state s) (transition_in_progress s)
    (tx_complete s) (sm_main_value s) (dem_main_value s) (tx_skb s)
    (free_skb s) (reset_counter s) (char_driver_is_ready s)
    (spi_async_rets s) (dev_alloc_skb_ok s) (trace s).

Definition set_spi_transfer_len (v : Z) (s : lprf_local) : lprf_local :=
  mk_lprf_local (rx_polling_active s) (phy_status_is_active s)
    (phy_status_rx_buf s) (rx_buf s) (tx_buf s) v (spi_message_complete s)
    (to_state s) (transition_in_progress s) (tx_complete s)
    (sm_main_value s) (dem_main_value s) (tx_skb s) (free_skb s)
    (reset_counter s) (char_driver_is_ready s) (spi_async_rets s)
    (dev_alloc_skb_ok s) (trace s).

Definition set_spi_message_complete (v : option callback) (s : lprf_local) : lprf_local :=
  mk_lprf_local (rx_polling_active s) (phy_status_is_active s)
    (phy_status_rx_buf s) (rx_buf s) (tx_buf s) (spi_transfer_len s) v
    (to_state s) (transition_in_progress s) (tx_complete s)
    (sm_main_value s) (dem_main_value s) (tx_skb s) (free_skb s)
    (reset_counter s) (char_driver_is_ready s) (spi_async_rets s)
    (dev_alloc_skb_ok s) (trace s).

Definition set_to_state (v : Z) (s : lprf_local) : lprf_local :=
  mk_lprf_local (rx_polling_active s) (phy_status_is_active s)
    (phy_status_rx_buf s) (rx_buf s) (tx_buf s) (spi_transfer_len s)
    (spi_message_complete s) v (transition_in_progress s) (tx_complete s)
    (sm_main_value s) (dem_main_value s) (tx_skb s) (free_skb s)
    (reset_counter s) (char_driver_is_ready s) (spi_async_rets s)
    (dev_alloc_skb_ok s) (trace s).

Definition set_transition_in_progress (v : Z) (s : lprf_local) : lprf_local :=
  mk_lprf_local (rx_polling_active s) (phy_status_is_active s)
    (phy_status_rx_buf s) (rx_buf s) (tx_buf s) (spi_transfer_len s)
    (spi_message_complete s) (to_state s) v (tx_complete s)
    (sm_main_value s) (dem_main_value s) (tx_skb s) (free_skb s)
    (reset_counter s) (char_driver_is_ready s) (spi_async_rets s)
    (dev_alloc_skb_ok s) (trace s).

Definition set_tx_complete (v : bool) (s : lprf_local) : lprf_local :=
  mk_lprf_local (rx_polling_active s) (phy_status_is_active s)
    (phy_status_rx_buf s) (rx_buf s) (tx_buf s) (spi_transfer_len s)
    (spi_message_complete s) (to_state s) (transition_in_progress s) v
    (sm_main_value s) (dem_main_value s) (tx_skb s) (free_skb s)
    (reset_counter s) (char_driver_is_ready s) (spi_async_rets s)
    (dev_alloc_skb_ok s) (trace s).

Definition set_tx_skb (v : option (list Z)) (s : lprf_local) : lprf_local :=
  mk_lprf_local (rx_polling_active s) (phy_status_is_active s)
    (phy_status_rx_buf s) (rx_buf s) (tx_buf s) (spi_transfer_len s)
    (spi_message_complete s) (to_state s) (transition_in_progress s)
    (tx_complete s) (sm_main_value s) (dem_main_value s) v (free_skb s)
    (reset_counter s) (char_driver_is_ready s) (spi_async_rets s)
    (dev_alloc_skb_ok s) (trace s).

Definition set_free_skb (v : bool) (s : lprf_local) : lprf_local :=
  mk_lprf_local (rx_polling_active s) (phy_status_is_active s)
    (phy_status_rx_buf s) (rx_buf s) (tx_buf s) (spi_transfer_len s)
    (spi_message_complete s) (to_state s) (transition_in_progress s)
    (tx_complete s) (sm_main_value s) (dem_main_value s) (tx_skb s) v
    (reset_counter s) (char_driver_is_ready s) (spi_async_rets s)
    (dev_alloc_skb_ok s) (trace s).

Definition set_reset_counter (v : Z) (s : lprf_local) : lprf_local :=
  mk_lprf_local (rx_polling_active s) (phy_status_is_active s)
    (phy_status_rx_buf s) (rx_buf s) (tx_buf s) (spi_transfer_len s)
    (spi_message_complete s) (to_state s) (transition_in_progress s)
    (tx_complete s) (sm_main_value s) (dem_main_value s) (tx_skb s)
    (free_skb s) v (char_driver_is_ready s) (spi_async_rets s)
    (dev_alloc_skb_ok s) (trace s).

Definition set_spi_async_rets (v : list Z) (s : lprf_local) : lprf_local :=
  mk_lprf_local (rx_polling_active s) (phy_status_is_active s)
    (phy_status_rx_buf s) (rx_buf s) (tx_buf s) (spi_transfer_len s)
    (spi_message_complete s) (to_state s) (transition_in_progress s)
    (tx_complete s) (sm_main_value s) (dem_main_value s) (tx_skb s)
    (free_skb s) (reset_counter s) (char_driver_is_ready s) v
    (dev_alloc_skb_ok s) (trace s).

Definition set_trace (v : list event) (s : lprf_local) : lprf_local :=
  mk_lprf_local (rx_polling_active s) (phy_status_is_active s)
    (phy_status_rx_buf s) (rx_buf s) (tx_buf s) (spi_transfer_len s)
    (spi_message_complete s) (to_state s) (transition_in_progress s)
    (tx_complete s) (sm_main_value s) (dem_main_value s) (tx_skb s)
    (free_skb s) (reset_counter s) (char_driver_is_ready s)
    (spi_async_rets s) (dev_alloc_skb_ok s) v.
Definition emit (e : event) (s : lprf_local) : lprf_local :=
  set_trace (trace s ++ [e]) s.

(** [atomic_inc_return], [atomic_dec] on an [atomic_t] (a wrapping [int]). *)
Definition atomic_inc (v : Z) : Z := s32 (v + 1).
Definition atomic_dec (v : Z) : Z := s32 (v - 1).

(** [memcpy(buf + off, bs, sizeof bs)] and the bytes read by
    [memcpy(dst, buf + off, n)]. *)
Definition write_range (buf : list Z) (off : Z) (bs : list Z)
    : option (list Z) :=
  if (0 <=? off) && (off + Z.of_nat (length bs) <=? Z.of_nat (length buf))
  then Some (take (Z.to_nat off) buf ++ bs
             ++ drop (Z.to_nat off + length bs) buf)
  else None.

Definition read_range (buf : list Z) (off n : Z) : option (list Z) :=
  if (0 <=? off) && (0 <=? n) && (off + n <=? Z.of_nat (length buf))
  then Some (take (Z.to_nat n) (drop (Z.to_nat off) buf))
  else None.

(** [spi_async] on the state-change message: the dispatch is recorded and the
    kernel's return code is taken from the oracle. *)
Definition spi_async_state_change_message (s : lprf_local)
    : Z * lprf_local :=
  let ret := hd 0 (spi_async_rets s) in
  let s := set_spi_async_rets (tl (spi_async_rets s)) s in
  (ret, emit (spi_async_state_change
                (take (Z.to_nat (spi_transfer_len s)) (tx_buf s))
                (spi_message_complete s) ret) s).

Section Model.
Context `{lprf_registers_h} `{linux_ieee802154_h}.

(** *** Polling timer *)

Definition lprf_start_polling_timer (s : lprf_local) (interval : Z)
    : lprf_local :=
  if negb (rx_polling_active s =? 0) then emit (hrtimer_start interval) s
  else s.

Definition lprf_stop_polling (s : lprf_local) : lprf_local :=
  emit hrtimer_cancel (set_rx_polling_active 0 s).

(** *** Asynchronous register writes and error recovery

    [lprf_async_write_register] calls [lprf_async_error] when [spi_async]
    fails, and [lprf_async_error] calls [lprf_async_write_register] again.
    The mutual recursion is written as one recursion over the oracle of
    return codes: each failing dispatch uses up one code, and a dispatch
    after the last code succeeds.  [tx_buf_regw] is the buffer set-up at the
    head of [lprf_async_write_register]. *)
Definition tx_buf_regw (s : lprf_local) (address value : Z)
    (complete : callback) : lprf_local :=
  let s := set_tx_buf (<[0%nat := u8 REGW]> (tx_buf s)) s in
  let s := set_tx_buf (<[1%nat := u8 address]> (tx_buf s)) s in
  let s := set_tx_buf (<[2%nat := u8 value]> (tx_buf s)) s in
  let s := set_spi_transfer_len 3 s in
  set_spi_message_complete (Some complete) s.

Fixpoint lprf_async_write_register_from (rets : list Z) (s : lprf_local)
    (address value : Z) (complete : callback) : lprf_local :=
  let m := spi_async_state_change_message
             (tx_buf_regw s address value complete) in
  let ret := fst m in
  let s := snd m in
  match rets with
  | [] => s
  | _ :: rets' =>
      if ret =? 0 then s
      else
        (* lprf_async_error(state_change->lprf, state_change, ret) *)
        lprf_async_write_register_from rets'
          (lprf_stop_polling (emit (dev_err ret) s))
          RG_GLOBAL_RESETB 0 lprf_async_error_recover_cb
  end.

Definition lprf_async_write_register (s : lprf_local) (address value : Z)
    (complete : callback) : lprf_local :=
  lprf_async_write_register_from (spi_async_rets s) s address value complete.

Definition lprf_async_error (s : lprf_local) (rc : Z) : lprf_local :=
  let s := emit (dev_err rc) s in
  let s := lprf_stop_polling s in
  lprf_async_write_register s RG_GLOBAL_RESETB 0 lprf_async_error_recover_cb.

(** [lprf_async_write_subreg]: all arguments are [uint8_t];
    [reg_val = (cached_val & ~mask) | (data << shift)]. *)
Definition subreg_reg_val (cached_val mask shift data : Z) : Z :=
  u8 (Z.lor (Z.land (u8 cached_val) (Z.lnot (u8 mask)))
            (Z.shiftl (u8 data) (u8 shift))).

Definition lprf_async_write_subreg (s : lprf_local) (cached_val : Z)
    (sr : subreg) (data : Z) (complete : callback) : lprf_local :=
  let '(addr, mask, shift) := sr in
  let reg_val := subreg_reg_val cached_val mask shift data in
  lprf_async_write_register s (u8 addr) reg_val complete.

(** *** Status poll *)

Definition lprf_phy_status_async (s : lprf_local) : Z * lprf_local :=
  let s := set_phy_status_is_active (atomic_inc (phy_status_is_active s)) s in
  if negb (phy_status_is_active s =? 1) then
    let s :=
      set_phy_status_is_active (atomic_dec (phy_status_is_active s)) s in
    (- EBUSY, s)
  else
    let ret := hd 0 (spi_async_rets s) in
    let s := set_spi_async_rets (tl (spi_async_rets s)) s in
    let s := emit (spi_async_phy_status ret) s in
    let s := if negb (ret =? 0) then lprf_async_error s ret else s in
    (0, s).

Definition lprf_async_error_recover_callback (s : lprf_local) : lprf_local :=
  let s := set_rx_polling_active 1 s in
  snd (lprf_phy_status_async s).

Definition lprf_async_error_recover (s : lprf_local) : lprf_local :=
  lprf_async_write_register s RG_GLOBAL_RESETB 0xff
    lprf_async_error_recover_callback_cb.

(** *** Transmit path *)

Definition lprf_tx_complete (s : lprf_local) : lprf_local :=
  let skb_temp := tx_skb s in
  let s := set_tx_skb None s in
  let s := if free_skb s then emit (kfree_skb skb_temp) s
           else emit (ieee802154_xmit_complete skb_temp) s in
  let s := set_free_skb false s in
  let s := set_tx_complete false s in
  emit (wake_up wait_for_tx_ready) s.

Definition lprf_tx_change_complete (s : lprf_local) : lprf_local :=
  let s := set_tx_complete true s in
  let s :=
    set_transition_in_progress (atomic_dec (transition_in_progress s)) s in
  lprf_start_polling_timer s TX_RX_INTERVAL.

Definition __lprf_frame_write_complete (s : lprf_local) : lprf_local :=
  lprf_async_write_subreg s (sm_main_value s) SR_SM_COMMAND STATE_CMD_TX
    lprf_tx_change_complete_cb.

(** The loop [for (i = 0; i < frame_length; ++i)
    reverse_bit_order(&tx_buf[shr_index + i])]. *)
Fixpoint reverse_loop (n : nat) (i : Z) (buf : list Z) : option (list Z) :=
  match n with
  | O => Some buf
  | S n' =>
      b ← rd buf i;
      buf' ← wr buf i (reverse_bit_order b);
      reverse_loop n' (i + 1) buf'
  end.

(** [lprf_start_frame_write].  [None] stands for undefined behaviour: a null
    [tx_skb] or a frame that does not fit into [tx_buf]. *)
Definition lprf_start_frame_write (s : lprf_local) : option lprf_local :=
  skb ← tx_skb s;
  let payload_length := Z.of_nat (length skb) in
  let sizeof_SYNC_HEADER := Z.of_nat (length SYNC_HEADER) in
  let frame_length :=
    s32 (sizeof_SYNC_HEADER + PHY_HEADER_LENGTH + payload_length) in
  let shr_index := 2 in
  let phr_index := s32 (shr_index + sizeof_SYNC_HEADER) in
  let payload_index := s32 (phr_index + PHY_HEADER_LENGTH) in
  buf ← wr (tx_buf s) 0 (u8 FRMW);
  buf ← wr buf 1 (u8 frame_length);
  buf ← write_range buf shr_index SYNC_HEADER;
  buf ← wr buf phr_index (u8 payload_length);
  buf ← write_range buf payload_index skb;
  buf ← reverse_loop (Z.to_nat frame_length) shr_index buf;
  let s := set_tx_buf buf s in
  let s := set_spi_message_complete (Some lprf_frame_write_complete_cb) s in
  let s := set_spi_transfer_len (s32 (frame_length + 2)) s in
  let '(ret, s) := spi_async_state_change_message s in
  Some s.

(** *** Receive path *)

Definition lprf_rx_change_complete (s : lprf_local) : lprf_local :=
  let s :=
    set_transition_in_progress (atomic_dec (transition_in_progress s)) s in
  lprf_start_polling_timer s RX_RX_INTERVAL.

(** The part of [lprf_receive_ieee802154_data] that follows the delimiter
    search.  The result is the return value, the buffer and, when a frame is
    handed to [ieee802154_rx_irqsafe], its bytes. *)
Definition receive_frame (alloc_ok : bool) (buffer : list Z)
    (buffer_length : Z) : option (Z * list Z * option (list Z)) :=
  frame_length ← rd buffer 0;
  let frame_length :=
    if ieee802154_is_valid_psdu_len (u8 frame_length) then frame_length
    else IEEE802154_MTU in
  if buffer_length <? frame_length then Some (- EINVAL, buffer, None)
  else if negb alloc_ok then Some (- ENOMEM, buffer, None)
  else
    skb ← read_range buffer 1 frame_length;
    Some (0, buffer, Some skb).

Definition lprf_receive_ieee802154_data (alloc_ok : bool) (buffer : list Z)
    (buffer_length : Z) : option (Z * list Z * option (list Z)) :=
  '(found, buffer, buffer_length) ←
    find_SFD_and_shift_data buffer buffer_length 0xe5 4;
  if found =? 0 then Some (- EINVAL, buffer, None)
  else receive_frame alloc_ok buffer buffer_length.

Definition write_data_to_char_driver (s : lprf_local) (data : list Z)
    : lprf_local :=
  if char_driver_is_ready s =? 0 then s else emit (kfifo_in data) s.

(** [__lprf_read_frame_complete]: [data_buf] is [rx_buf + 2]. *)
Definition __lprf_read_frame_complete (s : lprf_local)
    : option lprf_local :=
  let data_buf := drop 2 (rx_buf s) in
  phy_status ← rd (rx_buf s) 0;
  length ← rd (rx_buf s) 1;
  data_buf ← preprocess_received_data data_buf length;
  data ← read_range data_buf 0 length;
  let s := set_rx_buf (take 2 (rx_buf s) ++ data_buf) s in
  let s := write_data_to_char_driver s data in
  let s := emit (wake_up wait_for_rx_data) s in
  '(rc, data_buf, delivered) ←
    lprf_receive_ieee802154_data (dev_alloc_skb_ok s) data_buf length;
  let s := set_rx_buf (take 2 (rx_buf s) ++ data_buf) s in
  let s := match delivered with
           | Some skb => emit (ieee802154_rx_irqsafe skb 0) s
           | None => s
           end in
  let s :=
    set_transition_in_progress (atomic_dec (transition_in_progress s)) s in
  Some (snd (lprf_phy_status_async s)).

Definition read_lprf_fifo (s : lprf_local) : lprf_local :=
  let s := set_spi_message_complete (Some lprf_read_frame_complete_cb) s in
  let s := set_spi_transfer_len MAX_SPI_BUFFER_SIZE s in
  let s := set_tx_buf (replicate (Z.to_nat MAX_SPI_BUFFER_SIZE) 0) s in
  let s := set_tx_buf (<[0%nat := u8 FRMR]> (tx_buf s)) s in
  let '(ret, s) := spi_async_state_change_message s in
  if negb (ret =? 0) then lprf_async_error s ret else s.

(** *** The reset sequence *)

(** [lprf_rx_resets].  [None] only arises from [lprf_start_frame_write]. *)
Definition lprf_rx_resets (s : lprf_local) : option lprf_local :=
  match reset_counter s with
  | 0 =>
      let s := lprf_async_write_register s RG_SM_MAIN 0x05
                 lprf_rx_resets_cb in
      Some (set_reset_counter (s32 (reset_counter s + 1)) s)
  | 1 =>
      let s := lprf_async_write_register s RG_SM_MAIN 0x0F
                 lprf_rx_resets_cb in
      Some (set_reset_counter (s32 (reset_counter s + 1)) s)
  | 2 =>
      let s := lprf_async_write_subreg s (dem_main_value s) SR_DEM_RESETB 0
                 lprf_rx_resets_cb in
      Some (set_reset_counter (s32 (reset_counter s + 1)) s)
  | 3 =>
      let s := lprf_async_write_subreg s (dem_main_value s) SR_DEM_RESETB 1
                 lprf_rx_resets_cb in
      Some (set_reset_counter (s32 (reset_counter s + 1)) s)
  | 4 =>
      if to_state s =? STATE_CMD_TX then
        s ← lprf_start_frame_write s;
        Some (set_reset_counter 0 s)
      else
        let s := lprf_async_write_subreg s (sm_main_value s) SR_SM_COMMAND
                   STATE_CMD_RX lprf_rx_resets_cb in
        Some (set_reset_counter (s32 (reset_counter s + 1)) s)
  | 5 =>
      let s := lprf_async_write_subreg s (sm_main_value s) SR_SM_COMMAND
                 STATE_CMD_NONE lprf_rx_change_complete_cb in
      Some (set_reset_counter 0 s)
  | _ => Some s
  end.

(** [lprf_async_state_change]: [state] is a [uint8_t]; the [switch] compares
    it with the case labels. *)
Definition lprf_async_state_change (s : lprf_local) (state : Z)
    : option lprf_local :=
  let state := u8 state in
  let s := set_to_state state s in
  if state =? STATE_CMD_RX then lprf_rx_resets s
  else if state =? STATE_CMD_TX then
    Some (lprf_async_write_subreg s (sm_main_value s) SR_SM_COMMAND
            STATE_CMD_SLEEP lprf_rx_resets_cb)
  else Some s.

(** *** The decision function *)

Definition lprf_evaluate_phy_status (s : lprf_local) (phy_status : Z)
    : option lprf_local :=
  let phy_status := u8 phy_status in
  (* try lock following section. If already locked: return. *)
  let s :=
    set_transition_in_progress (atomic_inc (transition_in_progress s)) s in
  if negb (transition_in_progress s =? 1) then
    Some (set_transition_in_progress
            (atomic_dec (transition_in_progress s)) s)
  else
    let s :=
      if negb (PHY_SM_STATUS phy_status =? PHY_SM_SENDING) && tx_complete s
      then lprf_tx_complete s else s in
    if (PHY_SM_STATUS phy_status =? PHY_SM_SLEEP)
       && (PHY_FIFO_EMPTY phy_status =? 0)
    then Some (read_lprf_fifo s)
    else if bool_decide (is_Some (tx_skb s))
            && negb (PHY_FIFO_EMPTY phy_status =? 0)
    then lprf_async_state_change s STATE_CMD_TX
    else if (PHY_SM_STATUS phy_status =? PHY_SM_SLEEP)
            && negb (PHY_FIFO_EMPTY phy_status =? 0)
    then lprf_async_state_change s STATE_CMD_RX
    else
      (* unlock critical section *)
      let s :=
        set_transition_in_progress
          (atomic_dec (transition_in_progress s)) s in
      if PHY_SM_STATUS phy_status =? PHY_SM_RECEIVING then
        if negb (PHY_FIFO_EMPTY phy_status =? 0)
        then Some (lprf_start_polling_timer s RX_POLLING_INTERVAL)
        else Some (lprf_start_polling_timer s RETRY_INTERVAL)
      else Some (lprf_start_polling_timer s RETRY_INTERVAL).

Definition lprf_phy_status_complete (s : lprf_local) : option lprf_local :=
  let status := phy_status_rx_buf s in
  let s :=
    set_phy_status_is_active (atomic_dec (phy_status_is_active s)) s in
  lprf_evaluate_phy_status s status.

(** [lprf_start_poll], the timer callback. *)
Definition lprf_start_poll (s : lprf_local) : lprf_local :=
  snd (lprf_phy_status_async s).

(** *** Completion of SPI transfers

    The kernel calls the function stored in the message once the transfer is
    done; [run_callback] is that call through the function pointer. *)
Definition run_callback (cb : callback) (s : lprf_local)
    : option lprf_local :=
  match cb with
  | lprf_phy_status_complete_cb => lprf_phy_status_complete s
  | lprf_async_error_recover_callback_cb =>
      Some (lprf_async_error_recover_callback s)
  | lprf_async_error_recover_cb => Some (lprf_async_error_recover s)
  | lprf_tx_change_complete_cb => Some (lprf_tx_change_complete s)
  | lprf_frame_write_complete_cb => Some (__lprf_frame_write_complete s)
  | lprf_rx_change_complete_cb => Some (lprf_rx_change_complete s)
  | lprf_read_frame_complete_cb => __lprf_read_frame_complete s
  | lprf_rx_resets_cb => lprf_rx_resets s
  end.

(** Completion of the pending state-change message. *)
Definition state_change_complete (s : lprf_local) : option lprf_local :=
  cb ← spi_message_complete s;
  run_callback cb s.

(** *** Channel configuration (synchronous register access) *)

(** A call of [regmap_update_bits] and what it returned. *)
Inductive regmap_event : Type :=
| regmap_update_bits (addr mask val : Z) (ret : Z).

(** The state threaded through the synchronous writes: the oracle of the
    coming return codes of [regmap_update_bits] and the calls made. *)
Definition regmap_state : Type := list Z * list regmap_event.

(** [lprf_write_subreg]: the arguments are [unsigned int]; the call made is
    [regmap_update_bits(regmap, addr, mask, data << shift)]. *)
Definition subreg_update (sr : subreg) (data ret : Z) : regmap_event :=
  let '(addr, mask, shift) := sr in
  regmap_update_bits (u32 addr) (u32 mask)
    (u32 (Z.shiftl (u32 data) (u32 shift))) ret.

Definition lprf_write_subreg (st : regmap_state) (sr : subreg) (data : Z)
    : Z * regmap_state :=
  let '(rets, calls) := st in
  let ret := hd 0 rets in
  (ret, (tl rets, calls ++ [subreg_update sr data ret])).

(** Modelled from the spec: the macro [RETURN_ON_ERROR] is defined in
    lprf_registers.h, which is missing from the sources.  The design document
    says of the writes of [set_channel] that "any individual write failure
    aborts the remaining writes and surfaces the error"; as the sibling macro
    [HANDLE_SPI_ERROR] of lprf.h does, the macro keeps the result of the call
    in the local variable [ret] of the function that uses it, which is why
    every such function declares [ret].  [k] is the code after the macro and
    receives the new value of [ret]. *)
Definition RETURN_ON_ERROR (f : Z * regmap_state)
    (k : Z -> regmap_state -> Z * regmap_state) : Z * regmap_state :=
  let '(ret, st) := f in
  if negb (ret =? 0) then (ret, st) else k ret st.

(** [lprf_set_ieee802154_channel]: [page] and [channel] are [u8]. *)
Definition lprf_set_ieee802154_channel (st : regmap_state)
    (page channel : Z) : Z * regmap_state :=
  let pll_int := 0 in
  let pll_frac := 0 in
  let ret := 0 in
  let vco_tune := 0 in
  if negb (u8 page =? 0) then (- EINVAL, st)
  else
    let rf_freq := s32 (calculate_rf_center_freq (u8 channel)) in
    (* for RX *)
    let '(ret, pll_int, pll_frac) :=
      lprf_calculate_pll_values (u32 rf_freq) 1000000 pll_int pll_frac in
    RETURN_ON_ERROR (lprf_write_subreg st SR_RX_CHAN_INT pll_int)
    (fun ret st =>
    RETURN_ON_ERROR
      (lprf_write_subreg st SR_RX_CHAN_FRAC_H (BIT24_H_BYTE pll_frac))
    (fun ret st =>
    RETURN_ON_ERROR
      (lprf_write_subreg st SR_RX_CHAN_FRAC_M (BIT24_M_BYTE pll_frac))
    (fun ret st =>
    RETURN_ON_ERROR
      (lprf_write_subreg st SR_RX_CHAN_FRAC_L (BIT24_L_BYTE pll_frac))
    (fun ret st =>
    (* for TX *)
    let '(ret, pll_int, pll_frac) :=
      lprf_calculate_pll_values (u32 rf_freq) 0 pll_int pll_frac in
    RETURN_ON_ERROR (lprf_write_subreg st SR_TX_CHAN_INT pll_int)
    (fun ret st =>
    RETURN_ON_ERROR
      (lprf_write_subreg st SR_TX_CHAN_FRAC_H (BIT24_H_BYTE pll_frac))
    (fun ret st =>
    RETURN_ON_ERROR
      (lprf_write_subreg st SR_TX_CHAN_FRAC_M (BIT24_M_BYTE pll_frac))
    (fun ret st =>
    RETURN_ON_ERROR
      (lprf_write_subreg st SR_TX_CHAN_FRAC_L (BIT24_L_BYTE pll_frac))
    (fun ret st =>
    let vco_tune := calc_vco_tune (u8 channel) in
    RETURN_ON_ERROR (lprf_write_subreg st SR_PLL_VCO_TUNE vco_tune)
    (fun ret st => (ret, st)))))))))).

End Model.

(** ** Events of the reset sequence *)

(** The dispatch recorded by a successful [lprf_async_write_register] and by
    a successful [lprf_async_write_subreg]: the three bytes
    [REGW, address, value] and the completion callback. *)
Definition register_write `{lprf_registers_h} (address value : Z)
    (complete : callback) : event :=
  spi_async_state_change [u8 REGW; u8 address; u8 value] (Some complete) 0.

Definition subreg_write `{lprf_registers_h} (cached_val : Z) (sr : subreg)
    (data : Z) (complete : callback) : event :=
  let '(addr, mask, shift) := sr in
  register_write (u8 addr) (subreg_reg_val cached_val mask shift data)
    complete.

(** The register written at each step of the reset sequence towards RX, as
    in the table of the design document: SM_MAIN <- 0x05, SM_MAIN <- 0x0F,
    DEM_RESETB <- 0, DEM_RESETB <- 1, SM_COMMAND <- RX, SM_COMMAND <- NONE.
    Steps 0 to 4 come back to [lprf_rx_resets], step 5 completes into
    [lprf_rx_change_complete]. *)
Definition reset_step_write `{lprf_registers_h} (s : lprf_local) (step : Z)
    : event :=
  match step with
  | 0 => register_write RG_SM_MAIN 0x05 lprf_rx_resets_cb
  | 1 => register_write RG_SM_MAIN 0x0F lprf_rx_resets_cb
  | 2 => subreg_write (dem_main_value s) SR_DEM_RESETB 0 lprf_rx_resets_cb
  | 3 => subreg_write (dem_main_value s) SR_DEM_RESETB 1 lprf_rx_resets_cb
  | 4 => subreg_write (sm_main_value s) SR_SM_COMMAND STATE_CMD_RX
           lprf_rx_resets_cb
  | _ => subreg_write (sm_main_value s) SR_SM_COMMAND STATE_CMD_NONE
           lprf_rx_change_complete_cb
  end.

(** The fields that an asynchronous register write leaves alone, whether
    its dispatch succeeds or fails. *)
Definition kept_by_register_write (s : lprf_local) :=
  (reset_counter s, to_state s, transition_in_progress s, tx_complete s,
   sm_main_value s, dem_main_value s, tx_skb s, free_skb s).

(** A state [s] within a sequence that started in [s0]: the counter and
    the callback stored in the message, no failing dispatch ahead, and the
    fields that the sequence leaves as they were in [s0]. *)
Definition sequence_state (s0 s : lprf_local) (counter : Z)
    (complete : callback) : Prop :=
  reset_counter s = counter
  /\ spi_message_complete s = Some complete
  /\ spi_async_rets s = []
  /\ length (tx_buf s) = length (tx_buf s0)
  /\ rx_polling_active s = rx_polling_active s0
  /\ to_state s = to_state s0
  /\ transition_in_progress s = transition_in_progress s0
  /\ sm_main_value s = sm_main_value s0
  /\ dem_main_value s = dem_main_value s0
  /\ tx_skb s = tx_skb s0.

(** What a step of the sequence has to say about the state [s'] it leaves,
    relative to the state [s] it started from: the event added to the trace
    and the state of the sequence. *)
Definition step_result (s s' : lprf_local) (counter : Z) (e : event)
    (complete : callback) : Prop :=
  trace s' = trace s ++ [e] /\ sequence_state s s' counter complete.

(** ** Test data *)

(** A right shift of a byte stream by [k] bits across byte boundaries: every
    byte receives the low [k] bits of its predecessor on top, the first byte
    those of [prev], and one more byte takes the bits pushed out of the last
    one.  This is the misaligned stream of the design document's delimiter
    test, not driver code. *)
Fixpoint bitshift_right (k prev : Z) (bs : list Z) : list Z :=
  match bs with
  | [] => [u8 (window prev 0 k)]
  | b :: bs' => u8 (window prev b k) :: bitshift_right k b bs'
  end.

(** The kernel's [ieee802154_is_valid_psdu_len] and [IEEE802154_MTU]
    (linux/ieee802154.h): a PSDU length is valid if it is that of an
    acknowledgment (5) or lies between 9 and 127. *)
Definition linux_ieee802154 : linux_ieee802154_h := {|
  ieee802154_is_valid_psdu_len len :=
    (len =? 5) || ((9 <=? len) && (len <=? 127));
  IEEE802154_MTU := 127
|}.

(** One choice of the declarations of lprf_registers.h, used to run the
    model on concrete inputs.  The sync header is a four-byte preamble
    followed by the delimiter 0xE5, as in the design document. *)
Definition sample_registers : lprf_registers_h := {|
  REGW := 0xc0;
  FRMW := 0x60;
  FRMR := 0x20;
  RG_GLOBAL_RESETB := 0x00;
  RG_SM_MAIN := 0x80;
  SR_DEM_RESETB := (0x50, 0x01, 0);
  SR_SM_COMMAND := (0x80, 0x70, 4);
  STATE_CMD_NONE := 0;
  STATE_CMD_SLEEP := 1;
  STATE_CMD_TX := 2;
  STATE_CMD_RX := 3;
  SYNC_HEADER := [0x55; 0x55; 0x55; 0x55; 0xe5];
  PHY_HEADER_LENGTH := 1;
  RETRY_INTERVAL := 500000;
  SR_RX_CHAN_INT := (0x21, 0xff, 0);
  SR_RX_CHAN_FRAC_H := (0x22, 0xff, 0);
  SR_RX_CHAN_FRAC_M := (0x23, 0xff, 0);
  SR_RX_CHAN_FRAC_L := (0x24, 0xff, 0);
  SR_TX_CHAN_INT := (0x25, 0xff, 0);
  SR_TX_CHAN_FRAC_H := (0x26, 0xff, 0);
  SR_TX_CHAN_FRAC_M := (0x27, 0xff, 0);
  SR_TX_CHAN_FRAC_L := (0x28, 0xff, 0);
  SR_PLL_VCO_TUNE := (0x29, 0xff, 0);
  BIT24_H_BYTE c := Z.shiftr (Z.land c 0xFF0000) 16;
  BIT24_M_BYTE c := Z.shiftr (Z.land c 0x00FF00) 8;
  BIT24_L_BYTE c := Z.land c 0x0000FF
|}.

(** A driver state at rest: guards free, no frame pending, buffers cleared. *)
Definition idle_state : lprf_local := {|
  rx_polling_active := 1;
  phy_status_is_active := 0;
  phy_status_rx_buf := 0;
  rx_buf := replicate (Z.to_nat MAX_SPI_BUFFER_SIZE) 0;
  tx_buf := replicate (Z.to_nat MAX_SPI_BUFFER_SIZE) 0;
  spi_transfer_len := 3;
  spi_message_complete := None;
  to_state := 0;
  transition_in_progress := 0;
  tx_complete := false;
  sm_main_value := 0x0f;
  dem_main_value := 0;
  tx_skb := None;
  free_skb := false;
  reset_counter := 0;
  char_driver_is_ready := 0;
  spi_async_rets := [];
  dev_alloc_skb_ok := true;
  trace := []
|}.


(** * Further functions of lprf.c, lprf.h and lprf_rx.c *)

(** ** Constants and macros of lprf.h *)

Definition LPRF_MAX_BUF : Z := 256.
Definition FRAME_LENGTH : Z := 100.
Definition KBIT_RATE : Z := 2000.

Definition COUNTER_H_BYTE (c : Z) : Z := Z.shiftr (Z.land c 0xFF0000) 16.
Definition COUNTER_M_BYTE (c : Z) : Z := Z.shiftr (Z.land c 0x00FF00) 8.
Definition COUNTER_L_BYTE (c : Z) : Z := Z.land c 0x0000FF.

(** ** Calculations *)

(** [get_rx_length_counter]: [int] arithmetic evaluated from left to right,
    [/] truncating towards zero; a zero divisor is undefined behaviour. *)
Definition get_rx_length_counter (kbit_rate frame_length : Z) : option Z :=
  let chip_speed_kHz := 32000 in
  if kbit_rate =? 0 then None
  else
    Some (s32 (s32 (Z.quot (s32 (s32 (8 * frame_length) * chip_speed_kHz))
                           kbit_rate)
               + s32 (Z.quot (s32 (4 * chip_speed_kHz)) kbit_rate))).

(** The fractional PLL value that the comment in [lprf_calculate_pll_values]
    calls the exact formula: [frac = (f_lo % 16MHz) * 65536 / 1MHz]. *)
Definition pll_frac_exact (f_lo : Z) : Z :=
  (f_lo mod 16000000) * 65536 / 1000000.

(** A byte that differs from [b] in bit [k] only. *)
Definition flip_bit (b k : Z) : Z := Z.lxor b (Z.shiftl 1 k).

(** ** Callbacks of the IEEE 802.15.4 stack (lprf.c, section "Callbacks") *)

(** Further declarations of [lprf_registers.h], used by the functions
    below. *)
Class lprf_registers_h_more := {
  SR_FIFO_RESETB : subreg;
  SR_SM_RESETB : subreg;
  SR_TX_PWR_CTRL : subreg;
  RG_CHIP_ID_H : Z;
  RG_CHIP_ID_L : Z
}.

Definition ENODEV : Z := 19.
Definition EMFILE : Z := 24.

Section Callbacks.
Context `{lprf_registers_h} `{lprf_registers_h_more}.

(** [lprf_start_ieee802154]: the result of the poll is not looked at. *)
Definition lprf_start_ieee802154 (s : lprf_local) : Z * lprf_local :=
  let s := set_rx_polling_active 1 s in
  let s := snd (lprf_phy_status_async s) in
  (0, s).

(** [lprf_stop_ieee802154]: the driver state and the synchronous register
    access are both touched; [usleep_range] only lets time pass.  None of
    the eight return values is looked at. *)
Definition lprf_stop_ieee802154 (s : lprf_local) (st : regmap_state)
    : lprf_local * regmap_state :=
  let s := lprf_stop_polling s in
  let st := snd (lprf_write_subreg st SR_SM_COMMAND STATE_CMD_SLEEP) in
  let st := snd (lprf_write_subreg st SR_SM_COMMAND STATE_CMD_NONE) in
  let st := snd (lprf_write_subreg st SR_DEM_RESETB 0) in
  let st := snd (lprf_write_subreg st SR_DEM_RESETB 1) in
  let st := snd (lprf_write_subreg st SR_FIFO_RESETB 0) in
  let st := snd (lprf_write_subreg st SR_FIFO_RESETB 1) in
  let st := snd (lprf_write_subreg st SR_SM_RESETB 0) in
  let st := snd (lprf_write_subreg st SR_SM_RESETB 1) in
  (s, st).

(** [lprf_tx_powers], the table that [lprf_detect_device] stores in
    [hw->phy->supported.tx_powers]. *)
Definition lprf_tx_powers : list Z :=
  [0; 100; 200; 300; 400; 500; 600; 700; 800; 900;
   1000; 1100; 1200; 1300; 1400; 1500].

(** The loop of [lprf_set_tx_power] from index [i] on; [tx_powers] holds the
    entries [tx_powers[i]], [tx_powers[i + 1]], ... up to
    [tx_powers_size]. *)
Fixpoint set_tx_power_loop (tx_powers : list Z) (i power : Z)
    (st : regmap_state) : Z * regmap_state :=
  match tx_powers with
  | [] => (- EINVAL, st)
  | p :: tx_powers' =>
      if p =? power then lprf_write_subreg st SR_TX_PWR_CTRL i
      else set_tx_power_loop tx_powers' (s32 (i + 1)) power st
  end.

(** [lprf_set_tx_power]: [power] is an [s32]; [tx_powers] is the table in
    [hw->phy->supported]. *)
Definition lprf_set_tx_power (tx_powers : list Z) (st : regmap_state)
    (power : Z) : Z * regmap_state :=
  set_tx_power_loop tx_powers 0 (s32 power) st.

(** [lprf_xmit_ieee802154_async]: [skb] holds the data bytes of the socket
    buffer. *)
Definition lprf_xmit_ieee802154_async (s : lprf_local) (skb : list Z)
    : Z * lprf_local :=
  if bool_decide (is_Some (tx_skb s)) then (- EBUSY, s)
  else
    let s := set_tx_skb (Some skb) s in
    let s := snd (lprf_phy_status_async s) in
    (0, s).

End Callbacks.

(** What [lprf_detect_device] (lprf.c) stores in [hw->phy] once it has
    accepted the chip id: the channel mask of page 0, the current channel
    and the table of transmit powers. *)
Definition supported_channels_0 : Z := 0x7FFF800.
Definition current_channel : Z := 11.

(** ** Character device (lprf.c, section "Char driver") *)

(** [lprf_char_driver_interface.is_open] and whether the kfifo
    [data_buffer] is allocated; [is_ready] is kept in [lprf_local]. *)
Record char_driver_interface := mk_char_driver_interface {
  is_open : Z;
  data_buffer_allocated : bool
}.

Definition set_char_driver_is_ready (v : Z) (s : lprf_local) : lprf_local :=
  mk_lprf_local (rx_polling_active s) (phy_status_is_active s)
    (phy_status_rx_buf s) (rx_buf s) (tx_buf s) (spi_transfer_len s)
    (spi_message_complete s) (to_state s) (transition_in_progress s)
    (tx_complete s) (sm_main_value s) (dem_main_value s) (tx_skb s)
    (free_skb s) (reset_counter s) v (spi_async_rets s)
    (dev_alloc_skb_ok s) (trace s).

(** [lprf_open_char_device]; [kfifo_alloc_ret] is what [kfifo_alloc]
    returns. *)
Definition lprf_open_char_device (kfifo_alloc_ret : Z)
    (c : char_driver_interface) (s : lprf_local)
    : Z * char_driver_interface * lprf_local :=
  let c := mk_char_driver_interface (atomic_inc (is_open c))
             (data_buffer_allocated c) in
  if negb (is_open c =? 1) then
    (- EMFILE,
     mk_char_driver_interface (atomic_dec (is_open c))
       (data_buffer_allocated c), s)
  else if negb (kfifo_alloc_ret =? 0) then (kfifo_alloc_ret, c, s)
  else
    (0, mk_char_driver_interface (is_open c) true,
     set_char_driver_is_ready 1 s).

Definition lprf_release_char_device (c : char_driver_interface)
    (s : lprf_local) : Z * char_driver_interface * lprf_local :=
  let s := set_char_driver_is_ready 0 s in
  (0, mk_char_driver_interface (atomic_dec (is_open c)) false, s).

(** ** The receive-only driver (lprf_rx.c) *)

Module lprf_rx.

(** Synchronous reads: the oracle holds, for each coming call of
    [regmap_read], its return code and the value of the register; the
    second component lists the addresses read so far. *)
Definition regmap_reads : Type := list (Z * Z) * list Z.

(** [lprf_read_register]: [value] is the content of [*value] before the
    call; the result is the return code with the content after the call,
    which [regmap_read] only writes on success. *)
Definition lprf_read_register (st : regmap_reads) (address value : Z)
    : Z * Z * regmap_reads :=
  let '(oracle, calls) := st in
  let '(ret, v) := hd (0, 0) oracle in
  (ret, if ret =? 0 then u32 v else value,
   (tl oracle, calls ++ [u32 address])).

(** [lprf_detect_device]: [rx_buf] and [chip_id] are [int]. *)
Definition lprf_detect_device `{lprf_registers_h_more} (st : regmap_reads)
    : Z * regmap_reads :=
  let rx_buf := 0 in
  let chip_id := 0 in
  let '(ret, rx_buf, st) := lprf_read_register st RG_CHIP_ID_H rx_buf in
  if negb (ret =? 0) then (ret, st)
  else
    let chip_id := Z.lor chip_id (s32 (Z.shiftl (s32 rx_buf) 8)) in
    let '(ret, rx_buf, st) := lprf_read_register st RG_CHIP_ID_L rx_buf in
    if negb (ret =? 0) then (ret, st)
    else
      let chip_id := Z.lor chip_id (s32 rx_buf) in
      if negb (chip_id =? 0x1a51) then (- ENODEV, st)
      else (0, st).

End lprf_rx.

(** One choice of the further declarations of lprf_registers.h, used to run
    the model on concrete inputs. *)
Definition sample_registers_more : lprf_registers_h_more := {|
  SR_FIFO_RESETB := (0x81, 0x01, 0);
  SR_SM_RESETB := (0x80, 0x02, 1);
  SR_TX_PWR_CTRL := (0x2a, 0x0f, 0);
  RG_CHIP_ID_H := 0x01;
  RG_CHIP_ID_L := 0x02
|}.

(** ** States and traces *)

(** The fields that the dispatch of a state-change message leaves alone:
    all but the transmit buffer, the length and the callback of the message,
    the oracle and the trace. *)
Definition untouched_by_dispatch (s : lprf_local) :=
  (rx_polling_active s, phy_status_is_active s, phy_status_rx_buf s,
   rx_buf s, to_state s, transition_in_progress s, tx_complete s,
   sm_main_value s, dem_main_value s, tx_skb s, free_skb s,
   reset_counter s, char_driver_is_ready s, dev_alloc_skb_ok s).

(** The same without the polling flag, which the error path clears. *)
Definition untouched_by_error (s : lprf_local) :=
  (phy_status_is_active s, phy_status_rx_buf s,
   rx_buf s, to_state s, transition_in_progress s, tx_complete s,
   sm_main_value s, dem_main_value s, tx_skb s, free_skb s,
   reset_counter s, char_driver_is_ready s, dev_alloc_skb_ok s).

(** A dispatch of the register write [address <- value] with the return
    code [ret]. *)
Definition register_write_ret `{lprf_registers_h} (address value : Z)
    (complete : callback) (ret : Z) : event :=
  spi_async_state_change [u8 REGW; u8 address; u8 value] (Some complete) ret.

Definition is_timer_start (e : event) : bool :=
  match e with
  | hrtimer_start _ => true
  | _ => false
  end.

(** [s'] follows [s] with polling switched off and no timer started in
    between. *)
Definition timer_stays_off (s s' : lprf_local) : Prop :=
  rx_polling_active s' = 0
  /\ exists evs, trace s' = trace s ++ evs
                 /\ forallb (fun e => negb (is_timer_start e)) evs = true.

(** The frame-write message of [lprf_start_frame_write] for the socket
    buffer [skb], dispatched successfully. *)
Definition frame_write_event `{lprf_registers_h} (skb : list Z) : event :=
  spi_async_state_change
    ([u8 FRMW;
      u8 (Z.of_nat (length SYNC_HEADER) + 1 + Z.of_nat (length skb))]
     ++ map reverse_bit_order
          (SYNC_HEADER ++ [u8 (Z.of_nat (length skb))] ++ skb))
    (Some lprf_frame_write_complete_cb) 0.
(** * Properties *)

(** ** Exhaustive checks over bytes *)

Lemma all_bytes_complete (b : Z) : is_byte b -> In b all_bytes.
Proof.
  intros Hb. unfold all_bytes. apply in_map_iff.
  exists (Z.to_nat b). split; [unfold is_byte in Hb; lia|].
  apply in_seq. unfold is_byte in Hb. lia.
Qed.

Lemma forall_bytes (P : Z -> bool) :
  forallb P all_bytes = true -> forall b, is_byte b -> P b = true.
Proof.
  intros H b Hb. rewrite forallb_forall in H. apply H.
  now apply all_bytes_complete.
Qed.

Lemma forall_bytes2 (P : Z -> Z -> bool) :
  forallb (fun a => forallb (P a) all_bytes) all_bytes = true ->
  forall a b, is_byte a -> is_byte b -> P a b = true.
Proof.
  intros H a b Ha Hb.
  pose proof (forall_bytes _ H a Ha) as H1. simpl in H1.
  exact (forall_bytes _ H1 b Hb).
Qed.

Lemma u8_byte (x : Z) : is_byte (u8 x).
Proof. unfold is_byte, u8. apply Z.mod_pos_bound. lia. Qed.

Lemma u8_id (x : Z) : is_byte x -> u8 x = x.
Proof. unfold is_byte, u8. intros. apply Z.mod_small. lia. Qed.

Lemma s32_id (x : Z) : is_int x -> s32 x = x.
Proof. unfold is_int, s32. intros. rewrite Z.mod_small; lia. Qed.

Lemma u32_id (x : Z) : 0 <= x < 4294967296 -> u32 x = x.
Proof. unfold u32. intros. apply Z.mod_small. lia. Qed.

(** ** Properties of the calculations *)

(** C9. [reverse_bit_order] is an involution on the byte values 0..255. *)
Theorem reverse_bit_order_involutive (b : Z) :
  is_byte b -> reverse_bit_order (reverse_bit_order b) = b.
Proof.
  intros Hb.
  apply Z.eqb_eq.
  apply (forall_bytes
           (fun x => reverse_bit_order (reverse_bit_order x) =? x)); [|exact Hb].
  vm_compute. reflexivity.
Qed.

Lemma reverse_bit_order_involutive_witness :
  is_byte 0xe5 /\ reverse_bit_order (reverse_bit_order 0xe5) = 0xe5.
Proof.
  split; [unfold is_byte; lia|].
  apply (reverse_bit_order_involutive 0xe5). unfold is_byte. lia.
Defined.

Lemma channel_cases (channel : Z) :
  11 <= channel <= 26 -> In channel (map Z.of_nat (seq 11 16)).
Proof.
  intros H. apply in_map_iff. exists (Z.to_nat channel).
  split; [lia|]. apply in_seq. lia.
Qed.

Lemma rf_center_freq_out_of_range (channel : Z) :
  ~ 11 <= channel <= 26 -> calculate_rf_center_freq channel = 0.
Proof.
  intros Hc. unfold calculate_rf_center_freq.
  destruct (11 <=? channel) eqn:E1; [|reflexivity].
  destruct (channel <=? 26) eqn:E2; [|reflexivity].
  exfalso. apply Hc. lia.
Qed.

Lemma rf_center_freq_in_range (channel : Z) :
  11 <= channel <= 26 ->
  calculate_rf_center_freq channel = (2405 + 5 * (channel - 11)) * 1000000.
Proof.
  intros Hc. apply channel_cases in Hc. simpl in Hc.
  repeat (destruct Hc as [<-|Hc]); try contradiction; reflexivity.
Qed.

(** For the frequency of a valid channel the PLL values are the exact
    integer quotients, and the intermediate values stay below 2^32. *)
Lemma pll_values_exact (channel if_frequency iv fv : Z) :
  11 <= channel <= 26 -> if_frequency = 1000000 \/ if_frequency = 0 ->
  let rf_frequency := calculate_rf_center_freq channel in
  let f_lo := (rf_frequency - if_frequency) / 3 * 2 in
  lprf_calculate_pll_values rf_frequency if_frequency iv fv
    = (0, f_lo / 16000000, (f_lo mod 16000000) * 228 / 3479)
  /\ 0 <= rf_frequency - if_frequency < 4294967296
  /\ 0 <= f_lo < 4294967296
  /\ 0 <= (f_lo mod 16000000) * 228 < 4294967296.
Proof.
  intros Hc Hif. apply channel_cases in Hc. simpl in Hc.
  repeat (destruct Hc as [<-|Hc]); try contradiction;
    destruct Hif as [-> | ->]; repeat split; vm_compute; congruence.
Qed.

(** C8. For a channel in [11,26] the centre frequency is
    (2405 + 5 * (channel - 11)) MHz expressed in Hz, and 0 for every other
    channel.  For such a frequency and an IF offset of 1000000 (RX) or 0 (TX)
    [lprf_calculate_pll_values] returns 0 and its results are the exact
    integer quotients: no intermediate value leaves the 32-bit unsigned
    range. *)
Theorem rf_center_freq_and_pll_values (channel if_frequency iv fv : Z) :
  (11 <= channel <= 26 ->
     calculate_rf_center_freq channel = (2405 + 5 * (channel - 11)) * 1000000
     /\ (if_frequency = 1000000 \/ if_frequency = 0 ->
         let rf_frequency := calculate_rf_center_freq channel in
         let f_lo := (rf_frequency - if_frequency) / 3 * 2 in
         lprf_calculate_pll_values rf_frequency if_frequency iv fv
           = (0, f_lo / 16000000, (f_lo mod 16000000) * 228 / 3479)
         /\ 0 <= rf_frequency - if_frequency < 4294967296
         /\ 0 <= f_lo < 4294967296
         /\ 0 <= (f_lo mod 16000000) * 228 < 4294967296))
  /\ (~ 11 <= channel <= 26 -> calculate_rf_center_freq channel = 0).
Proof.
  split.
  - intros Hc. split; [now apply rf_center_freq_in_range|].
    intros Hif. now apply pll_values_exact.
  - apply rf_center_freq_out_of_range.
Qed.

Lemma rf_center_freq_and_pll_values_witness :
  calculate_rf_center_freq 11 = 2405000000
  /\ calculate_rf_center_freq 26 = 2480000000
  /\ lprf_calculate_pll_values (calculate_rf_center_freq 11) 1000000 0 0
       = (0, 100, 174762)
  /\ calculate_rf_center_freq 27 = 0.
Proof.
  pose proof (rf_center_freq_and_pll_values 11 1000000 0 0) as [H11 _].
  pose proof (rf_center_freq_and_pll_values 26 0 0 0) as [H26 _].
  pose proof (rf_center_freq_and_pll_values 27 0 0 0) as [_ H27].
  destruct (H11 ltac:(lia)) as [Hf [Hp _]]; [left; reflexivity|].
  destruct (H26 ltac:(lia)) as [Hg _].
  split; [exact Hf|]. split; [exact Hg|]. split; [exact Hp|].
  apply H27. lia.
Defined.


(** ** Array accesses *)

Lemma rd_lookup (buf : list Z) (i : Z) :
  0 <= i -> rd buf i = buf !! Z.to_nat i.
Proof. intros H. unfold rd. destruct (i <? 0) eqn:E; [lia|reflexivity]. Qed.

Lemma rd_of_nat (buf : list Z) (n : nat) : rd buf (Z.of_nat n) = buf !! n.
Proof. rewrite rd_lookup by lia. now rewrite Nat2Z.id. Qed.

Lemma rd_in_range (buf : list Z) (i : Z) :
  0 <= i < Z.of_nat (length buf) -> exists v, rd buf i = Some v.
Proof.
  intros H. rewrite rd_lookup by lia.
  destruct (lookup_lt_is_Some_2 buf (Z.to_nat i)) as [v Hv]; [lia|].
  now exists v.
Qed.

Lemma wr_in_range (buf : list Z) (i v : Z) :
  0 <= i < Z.of_nat (length buf) ->
  wr buf i v = Some (<[Z.to_nat i := v]> buf).
Proof.
  intros H. unfold wr.
  destruct (0 <=? i) eqn:E1; [|lia].
  destruct (i <? Z.of_nat (length buf)) eqn:E2; [reflexivity|lia].
Qed.

Lemma rd_insert_eq (buf : list Z) (i v : Z) :
  0 <= i < Z.of_nat (length buf) -> rd (<[Z.to_nat i := v]> buf) i = Some v.
Proof.
  intros H. rewrite rd_lookup by lia.
  apply list_lookup_insert_eq. lia.
Qed.

Lemma rd_insert_ne (buf : list Z) (i j v : Z) :
  0 <= i -> i <> j -> rd (<[Z.to_nat i := v]> buf) j = rd buf j.
Proof.
  intros Hi Hne. unfold rd. destruct (j <? 0) eqn:E; [reflexivity|].
  apply list_lookup_insert_ne. lia.
Qed.

(** ** Counting equal bits *)

Lemma equal_bits_loop_snoc (n : nat) (combined counter : Z) :
  equal_bits_loop (S n) combined counter
  = equal_bits_loop n combined counter
    + Z.land (Z.shiftr combined (Z.of_nat n)) 1.
Proof.
  revert combined counter. induction n as [|n IH]; intros c acc.
  - simpl. now rewrite Z.shiftr_0_r.
  - change (equal_bits_loop (S (S n)) c acc)
      with (equal_bits_loop (S n) (Z.shiftr c 1) (acc + Z.land c 1)).
    rewrite IH. simpl equal_bits_loop at 2.
    rewrite Z.shiftr_shiftr by lia.
    do 2 f_equal. f_equal. lia.
Qed.

Lemma land_1_testbit (a : Z) : Z.land a 1 = Z.b2z (Z.testbit a 0).
Proof.
  change 1 with (Z.ones 1). rewrite Z.land_ones by lia.
  now rewrite Z.bit0_mod.
Qed.

Lemma combined_bit (x y : Z) (n : nat) :
  (n < 32)%nat ->
  Z.land (Z.shiftr (u32 (Z.lnot (Z.lxor x y))) (Z.of_nat n)) 1
  = if Bool.eqb (Z.testbit x (Z.of_nat n)) (Z.testbit y (Z.of_nat n))
    then 1 else 0.
Proof.
  intros Hn. rewrite land_1_testbit, Z.shiftr_spec by lia.
  unfold u32. change 4294967296 with (2 ^ 32).
  rewrite Z.add_0_l, Z.mod_pow2_bits_low by lia.
  rewrite Z.lnot_spec, Z.lxor_spec by lia.
  now destruct (Z.testbit x (Z.of_nat n)), (Z.testbit y (Z.of_nat n)).
Qed.

(** [number_of_equal_bits] counts the bit positions below [n] at which its
    two arguments agree. *)
Lemma number_of_equal_bits_count (x y : Z) (n : nat) :
  (n <= 32)%nat ->
  number_of_equal_bits x y (Z.of_nat n) = count_equal_bits x y n.
Proof.
  unfold number_of_equal_bits. rewrite Nat2Z.id.
  induction n as [|n IH]; intros Hn; [reflexivity|].
  rewrite equal_bits_loop_snoc, IH by lia.
  simpl count_equal_bits. f_equal. apply combined_bit. lia.
Qed.

Lemma number_of_equal_bits_8 (x y : Z) :
  number_of_equal_bits x y 8 = count_equal_bits x y 8.
Proof. apply (number_of_equal_bits_count x y 8). lia. Qed.

(** ** The copy loop of the delimiter search *)

(** Run in place over a buffer that is long enough, the loop leaves every
    byte outside [i, i+n) alone and stores at [j] the window taken from the
    original bytes [j + start] and [j + start + 1]: since [start >= 1] a
    write never reaches a byte that is still to be read. *)
Lemma shift_loop_spec (n : nat) (i ds shift : Z) (data : list Z) :
  0 <= i -> 1 <= ds -> i + Z.of_nat n + ds < Z.of_nat (length data) ->
  exists data',
    shift_loop n i ds shift data = Some data'
    /\ length data' = length data
    /\ (forall j, j < i \/ i + Z.of_nat n <= j -> rd data' j = rd data j)
    /\ (forall j hi lo, i <= j < i + Z.of_nat n ->
          rd data (j + ds) = Some hi -> rd data (j + ds + 1) = Some lo ->
          rd data' j = Some (u8 (window hi lo shift))).
Proof.
  revert i data. induction n as [|n IH]; intros i data Hi Hds Hlen.
  - exists data. repeat split; auto. intros j hi lo Hj. lia.
  - destruct (rd_in_range data (i + ds)) as [hi Hhi]; [lia|].
    destruct (rd_in_range data (i + ds + 1)) as [lo Hlo]; [lia|].
    set (v := u8 (window hi lo shift)).
    assert (Hwr : wr data i v = Some (<[Z.to_nat i := v]> data))
      by (apply wr_in_range; lia).
    destruct (IH (i + 1) (<[Z.to_nat i := v]> data)) as (data' & Hrun & Hl & Hout & Hin);
      [lia | lia | rewrite length_insert; lia |].
    exists data'. split; [|split; [|split]].
    + simpl. rewrite Hhi. simpl. rewrite Hlo. simpl. fold v.
      rewrite Hwr. simpl. exact Hrun.
    + rewrite Hl. apply length_insert.
    + intros j Hj. rewrite Hout by lia. apply rd_insert_ne; lia.
    + intros j hi' lo' Hj Hhi' Hlo'.
      destruct (Z.eq_dec j i) as [->|Hne].
      * rewrite Hout by lia. rewrite rd_insert_eq by lia.
        rewrite Hhi in Hhi'. rewrite Hlo in Hlo'.
        injection Hhi' as <-. injection Hlo' as <-. reflexivity.
      * apply Hin; [lia| |].
        -- rewrite rd_insert_ne by lia. exact Hhi'.
        -- rewrite rd_insert_ne by lia. exact Hlo'.
Qed.

(** ** The delimiter search *)

(** [find_SFD_and_shift_data] on a buffer that holds the delimiter position:
    no wrap-around occurs and the two bytes at the delimiter position are
    read. *)
Lemma find_SFD_long_buffer (data : list Z) (data_length sfd p d0 d1 : Z) :
  is_int data_length -> 1 <= p -> p + 1 <= data_length ->
  rd data (p - 1) = Some d0 -> rd data p = Some d1 ->
  find_SFD_and_shift_data data data_length sfd p =
    let no_shift := number_of_equal_bits sfd d0 8 in
    let one_bit_shift := number_of_equal_bits sfd (window d0 d1 7) 8 in
    let two_bit_shift := number_of_equal_bits sfd (window d0 d1 6) 8 in
    if (no_shift <? 7) && (one_bit_shift <? 7) && (two_bit_shift <? 7)
    then Some (0, data, data_length)
    else
      data' ← shift_loop (Z.to_nat (data_length - p)) 0 p
                (chosen_shift one_bit_shift two_bit_shift) data;
      Some (chosen_shift one_bit_shift two_bit_shift, data',
            data_length - p).
Proof.
  intros Hint Hp Hlen Hd0 Hd1. unfold is_int in Hint.
  unfold find_SFD_and_shift_data.
  rewrite (s32_id (p - 1)) by (unfold is_int; lia).
  rewrite (s32_id (p - 1 + 2)) by (unfold is_int; lia).
  rewrite (s32_id (p - 1 + 1)) by (unfold is_int; lia).
  replace (p - 1 + 1) with p by lia.
  destruct (data_length <? p - 1 + 2) eqn:E; [lia|].
  rewrite Hd0. simpl. rewrite Hd1. simpl.
  rewrite (s32_id (data_length - (p - 1))) by (unfold is_int; lia).
  rewrite (s32_id (data_length - (p - 1) - 1)) by (unfold is_int; lia).
  rewrite (s32_id (data_length - p)) by (unfold is_int; lia).
  replace (data_length - (p - 1) - 1) with (data_length - p) by lia.
  unfold chosen_shift.
  destruct (_ && _); [reflexivity|].
  destruct (7 <=? _); [reflexivity|].
  destruct (7 <=? _); reflexivity.
Qed.

(** C10. A buffer shorter than [preamble_length + 1] bytes makes
    [find_SFD_and_shift_data] return [-EFAULT], which is none of 0, 6, 7, 8,
    with the buffer and the length as they were; the caller
    [lprf_receive_ieee802154_data] only compares the result with 0 and so
    goes on to read the frame from the unchanged buffer. *)
Theorem find_SFD_short_buffer `{linux_ieee802154_h}
    (data : list Z) (data_length sfd preamble_length : Z) :
  is_int preamble_length -> is_int (preamble_length + 1) ->
  data_length < preamble_length + 1 ->
  find_SFD_and_shift_data data data_length sfd preamble_length
    = Some (- EFAULT, data, data_length)
  /\ - EFAULT <> 0 /\ - EFAULT <> 6 /\ - EFAULT <> 7 /\ - EFAULT <> 8
  /\ (preamble_length = 4 -> sfd = 0xe5 -> forall alloc_ok,
        lprf_receive_ieee802154_data alloc_ok data data_length
        = receive_frame alloc_ok data data_length).
Proof.
  intros Hp Hp1 Hlen.
  assert (Hret : find_SFD_and_shift_data data data_length sfd preamble_length
                 = Some (- EFAULT, data, data_length)).
  { unfold find_SFD_and_shift_data, is_int in *.
    assert (Hs : s32 (s32 (preamble_length - 1) + 2) = preamble_length + 1).
    { unfold s32.
      rewrite <- Z.add_sub_swap, Z.sub_add, Zplus_mod_idemp_l.
      rewrite Z.mod_small; lia. }
    rewrite Hs.
    destruct (data_length <? preamble_length + 1) eqn:E; [reflexivity|lia]. }
  split; [exact Hret|].
  repeat (split; [unfold EFAULT; lia|]).
  intros -> -> alloc_ok. unfold lprf_receive_ieee802154_data.
  rewrite Hret. reflexivity.
Qed.

Lemma find_SFD_short_buffer_witness :
  find_SFD_and_shift_data [0x55; 0x55; 0xe5; 0x01] 4 0xe5 4
  = Some (-14, [0x55; 0x55; 0xe5; 0x01], 4).
Proof.
  apply (@find_SFD_short_buffer linux_ieee802154
           [0x55; 0x55; 0xe5; 0x01] 4 0xe5 4); unfold is_int; lia.
Defined.

(** The copy loop of [find_SFD_and_shift_data] succeeds whenever one byte of
    storage lies behind the logical length. *)
Lemma find_SFD_copy (data : list Z) (data_length p shift : Z) :
  1 <= p -> p + 1 <= data_length -> data_length < Z.of_nat (length data) ->
  exists data',
    shift_loop (Z.to_nat (data_length - p)) 0 p shift data = Some data'
    /\ length data' = length data
    /\ (forall j hi lo, 0 <= j < data_length - p ->
          rd data (j + p) = Some hi -> rd data (j + p + 1) = Some lo ->
          rd data' j = Some (u8 (window hi lo shift))).
Proof.
  intros Hp Hlen Hcap.
  destruct (shift_loop_spec (Z.to_nat (data_length - p)) 0 p shift data)
    as (data' & Hrun & Hl & _ & Hin); [lia|lia|lia|].
  exists data'. split; [exact Hrun|]. split; [exact Hl|].
  intros j hi lo Hj. apply Hin. lia.
Qed.

(** C1 (amended). On a buffer of at least [preamble_length + 1] bytes the
    three candidates are the counts of bits equal to the delimiter in the
    byte at the delimiter position and in the windows shifted by 7 and by 6.
    If all three are below 7 the result is 0 and buffer and length are left
    as they were.  Otherwise the 1-bit candidate is taken first, then the
    2-bit candidate, then the unshifted one: the result is 7, 6 or 8 in this
    order of priority, and the length shrinks by [preamble_length]. *)
Theorem find_SFD_selection
    (data : list Z) (data_length sfd preamble_length d0 d1 : Z) :
  is_int data_length -> 1 <= preamble_length ->
  preamble_length + 1 <= data_length ->
  rd data (preamble_length - 1) = Some d0 ->
  rd data preamble_length = Some d1 ->
  let no_shift := count_equal_bits sfd d0 8 in
  let one_bit_shift := count_equal_bits sfd (window d0 d1 7) 8 in
  let two_bit_shift := count_equal_bits sfd (window d0 d1 6) 8 in
  (no_shift < 7 -> one_bit_shift < 7 -> two_bit_shift < 7 ->
     find_SFD_and_shift_data data data_length sfd preamble_length
     = Some (0, data, data_length))
  /\ (7 <= no_shift \/ 7 <= one_bit_shift \/ 7 <= two_bit_shift ->
      data_length < Z.of_nat (length data) ->
      exists shift data',
        find_SFD_and_shift_data data data_length sfd preamble_length
        = Some (shift, data', data_length - preamble_length)
        /\ length data' = length data
        /\ (7 <= one_bit_shift -> shift = 7)
        /\ (one_bit_shift < 7 -> 7 <= two_bit_shift -> shift = 6)
        /\ (one_bit_shift < 7 -> two_bit_shift < 7 -> shift = 8)).
Proof.
  intros Hint Hp Hlen Hd0 Hd1 n0 n1 n2.
  pose proof (find_SFD_long_buffer data data_length sfd preamble_length
                d0 d1 Hint Hp Hlen Hd0 Hd1) as Heq.
  cbv zeta in Heq. rewrite !number_of_equal_bits_8 in Heq.
  fold n0 n1 n2 in Heq.
  split.
  - intros H0 H1 H2. rewrite Heq.
    destruct (n0 <? 7) eqn:E0; [|lia].
    destruct (n1 <? 7) eqn:E1; [|lia].
    destruct (n2 <? 7) eqn:E2; [reflexivity|lia].
  - intros Hsome Hcap.
    destruct (find_SFD_copy data data_length preamble_length
                (chosen_shift n1 n2) Hp Hlen Hcap) as (data' & Hrun & Hl & _).
    exists (chosen_shift n1 n2), data'.
    split.
    + rewrite Heq, Hrun.
      destruct ((n0 <? 7) && (n1 <? 7) && (n2 <? 7)) eqn:E; [|reflexivity].
      apply andb_prop in E as [E E2]. apply andb_prop in E as [E0 E1]. lia.
    + split; [exact Hl|]. unfold chosen_shift.
      repeat split; intros;
        destruct (7 <=? n1) eqn:E1; destruct (7 <=? n2) eqn:E2; lia.
Qed.

Lemma find_SFD_selection_witness :
  exists shift data',
    find_SFD_and_shift_data [0x55; 0x55; 0x55; 0xe5; 1; 2; 3; 0] 7 0xe5 4
    = Some (shift, data', 7 - 4)
    /\ length data' = 8%nat
    /\ (7 <= count_equal_bits 0xe5 (window 0xe5 1 7) 8 -> shift = 7)
    /\ (count_equal_bits 0xe5 (window 0xe5 1 7) 8 < 7 ->
        7 <= count_equal_bits 0xe5 (window 0xe5 1 6) 8 -> shift = 6)
    /\ (count_equal_bits 0xe5 (window 0xe5 1 7) 8 < 7 ->
        count_equal_bits 0xe5 (window 0xe5 1 6) 8 < 7 -> shift = 8).
Proof.
  assert (Hi : is_int 7) by (unfold is_int; lia).
  assert (H1 : 1 <= 4) by lia.
  assert (H2 : 4 + 1 <= 7) by lia.
  pose proof (find_SFD_selection [0x55; 0x55; 0x55; 0xe5; 1; 2; 3; 0] 7
                0xe5 4 0xe5 1 Hi H1 H2 eq_refl eq_refl) as [_ H].
  apply H.
  - left. vm_compute. congruence.
  - vm_compute. reflexivity.
Defined.

(** C1 as stated fails: with the delimiter 0xFF on a buffer of 0xFF bytes
    the 2-bit candidate matches all eight bits, yet the result is the 1-bit
    shift 7 and not the 2-bit shift 6; and a buffer shorter than
    [preamble_length + 1] bytes yields -14 instead of 0 although no
    candidate reaches 7. *)
Lemma find_SFD_selection_counterexample :
  (7 <= count_equal_bits 0xff (window 0xff 0xff 6) 8
   /\ find_SFD_and_shift_data [0xff; 0xff; 0xff] 2 0xff 1
      = Some (7, [0xff; 0xff; 0xff], 1))
  /\ (count_equal_bits 0xe5 0 8 < 7
      /\ find_SFD_and_shift_data [0; 0; 0; 0] 4 0xe5 4
         = Some (-14, [0; 0; 0; 0], 4)).
Proof.
  split; split; vm_compute; congruence.
Qed.

(** With the delimiter 0xE5 the 1-bit and the 2-bit candidate never reach 7
    together, so in the driver's own call the order between them cannot be
    observed. *)
Lemma e5_one_and_two_bit_exclusive (d0 d1 : Z) :
  is_byte d0 -> is_byte d1 ->
  ~ (7 <= count_equal_bits 0xe5 (window d0 d1 7) 8
     /\ 7 <= count_equal_bits 0xe5 (window d0 d1 6) 8).
Proof.
  intros H0 H1. rewrite <- !number_of_equal_bits_8.
  assert (Hc :
    negb ((7 <=? number_of_equal_bits 0xe5 (window d0 d1 7) 8)
          && (7 <=? number_of_equal_bits 0xe5 (window d0 d1 6) 8)) = true).
  { apply (forall_bytes2
      (fun d0 d1 =>
         negb ((7 <=? number_of_equal_bits 0xe5 (window d0 d1 7) 8)
               && (7 <=? number_of_equal_bits 0xe5 (window d0 d1 6) 8))));
      [|exact H0|exact H1].
    vm_compute. reflexivity. }
  intros [Ha Hb].
  apply Z.leb_le in Ha, Hb. rewrite Ha, Hb in Hc. discriminate.
Qed.

(** ** Windows over two bytes, as arithmetic *)

Ltac by_bytes2 P Ha Hb :=
  apply Z.eqb_eq; apply (forall_bytes2 P); [|exact Ha|exact Hb];
  vm_compute; reflexivity.

Lemma window_8 (x y : Z) : is_byte x -> is_byte y -> u8 (window x y 8) = x.
Proof.
  intros Hx Hy. by_bytes2 (fun x y => u8 (window x y 8) =? x) Hx Hy.
Qed.

Lemma window_1 (a b : Z) :
  is_byte a -> is_byte b -> u8 (window a b 1) = (a mod 2) * 128 + b / 2.
Proof.
  intros Ha Hb.
  by_bytes2 (fun a b => u8 (window a b 1) =? (a mod 2) * 128 + b / 2) Ha Hb.
Qed.

Lemma window_2 (a b : Z) :
  is_byte a -> is_byte b -> u8 (window a b 2) = (a mod 4) * 64 + b / 4.
Proof.
  intros Ha Hb.
  by_bytes2 (fun a b => u8 (window a b 2) =? (a mod 4) * 64 + b / 4) Ha Hb.
Qed.

Lemma window_7 (x y : Z) :
  is_byte x -> is_byte y -> u8 (window x y 7) = (x mod 128) * 2 + y / 128.
Proof.
  intros Hx Hy.
  by_bytes2 (fun x y => u8 (window x y 7) =? (x mod 128) * 2 + y / 128) Hx Hy.
Qed.

Lemma window_6 (x y : Z) :
  is_byte x -> is_byte y -> u8 (window x y 6) = (x mod 64) * 4 + y / 64.
Proof.
  intros Hx Hy.
  by_bytes2 (fun x y => u8 (window x y 6) =? (x mod 64) * 4 + y / 64) Hx Hy.
Qed.

(** Shifting a stream right by one or two bits and reading it back through
    the window shifted by 7 or 6 returns the middle byte. *)
Lemma realign_1 (a b c : Z) :
  is_byte a -> is_byte b -> is_byte c ->
  u8 (window (u8 (window a b 1)) (u8 (window b c 1)) 7) = b.
Proof.
  intros Ha Hb Hc. rewrite window_7 by apply u8_byte.
  rewrite !window_1 by assumption.
  unfold is_byte in *. Z.div_mod_to_equations. lia.
Qed.

Lemma realign_2 (a b c : Z) :
  is_byte a -> is_byte b -> is_byte c ->
  u8 (window (u8 (window a b 2)) (u8 (window b c 2)) 6) = b.
Proof.
  intros Ha Hb Hc. rewrite window_6 by apply u8_byte.
  rewrite !window_2 by assumption.
  unfold is_byte in *. Z.div_mod_to_equations. lia.
Qed.

(** ** The misaligned test stream *)

Lemma bitshift_right_length (k prev : Z) (bs : list Z) :
  length (bitshift_right k prev bs) = S (length bs).
Proof.
  revert prev. induction bs as [|b bs IH]; intros prev; simpl; [reflexivity|].
  now rewrite IH.
Qed.

Lemma bitshift_right_lookup (k prev : Z) (bs : list Z) (j : nat) :
  (j <= length bs)%nat ->
  bitshift_right k prev bs !! j
  = Some (u8 (window (List.nth j (prev :: bs) 0) (List.nth j bs 0) k)).
Proof.
  revert prev j. induction bs as [|b bs IH]; intros prev j Hj.
  - simpl in Hj. assert (j = 0%nat) as -> by lia. reflexivity.
  - destruct j as [|j]; [reflexivity|].
    simpl in Hj. change (bitshift_right k prev (b :: bs) !! S j)
      with (bitshift_right k b bs !! j).
    rewrite IH by lia. reflexivity.
Qed.

Lemma nth_byte (l : list Z) (j : nat) :
  Forall is_byte l -> is_byte (List.nth j l 0).
Proof.
  intros Hl. rewrite nth_lookup.
  destruct (l !! j) as [x|] eqn:E; simpl.
  - exact (proj1 (Forall_lookup _ _) Hl j x E).
  - unfold is_byte. lia.
Qed.

Lemma nth_lookup_Some_Z (l : list Z) (j : nat) (x : Z) :
  l !! j = Some x -> List.nth j l 0 = x.
Proof. intros E. rewrite nth_lookup, E. reflexivity. Qed.

(** ** Recovery of the payload *)

(** The bits of the detection that the three cases of the test need, checked
    over all bytes next to the delimiter. *)
Lemma detect_no_shift (b : Z) :
  is_byte b ->
  (number_of_equal_bits 0xe5 0xe5 8 <? 7) = false
  /\ chosen_shift (number_of_equal_bits 0xe5 (window 0xe5 b 7) 8)
                  (number_of_equal_bits 0xe5 (window 0xe5 b 6) 8) = 8.
Proof.
  intros Hb. split; [vm_compute; reflexivity|].
  apply Z.eqb_eq.
  apply (forall_bytes
    (fun b => chosen_shift (number_of_equal_bits 0xe5 (window 0xe5 b 7) 8)
                (number_of_equal_bits 0xe5 (window 0xe5 b 6) 8) =? 8));
    [|exact Hb].
  vm_compute. reflexivity.
Qed.

Lemma detect_one_bit (p b : Z) :
  is_byte p -> is_byte b ->
  let d0 := u8 (window p 0xe5 1) in
  let d1 := u8 (window 0xe5 b 1) in
  (7 <=? number_of_equal_bits 0xe5 (window d0 d1 7) 8) = true.
Proof.
  intros Hp Hb.
  apply (forall_bytes2
    (fun p b =>
       7 <=? number_of_equal_bits 0xe5
               (window (u8 (window p 0xe5 1)) (u8 (window 0xe5 b 1)) 7) 8));
    [|exact Hp|exact Hb].
  vm_compute. reflexivity.
Qed.

Lemma detect_two_bit (p b : Z) :
  is_byte p -> is_byte b ->
  let d0 := u8 (window p 0xe5 2) in
  let d1 := u8 (window 0xe5 b 2) in
  (7 <=? number_of_equal_bits 0xe5 (window d0 d1 7) 8) = false
  /\ (7 <=? number_of_equal_bits 0xe5 (window d0 d1 6) 8) = true.
Proof.
  intros Hp Hb d0 d1.
  assert (Hc :
    negb (7 <=? number_of_equal_bits 0xe5 (window d0 d1 7) 8)
    && (7 <=? number_of_equal_bits 0xe5 (window d0 d1 6) 8) = true).
  { apply (forall_bytes2
      (fun p b =>
         let d0 := u8 (window p 0xe5 2) in
         let d1 := u8 (window 0xe5 b 2) in
         negb (7 <=? number_of_equal_bits 0xe5 (window d0 d1 7) 8)
         && (7 <=? number_of_equal_bits 0xe5 (window d0 d1 6) 8)));
      [|exact Hp|exact Hb].
    vm_compute. reflexivity. }
  apply andb_prop in Hc as [H1 H2]. split; [|exact H2].
  now apply negb_true_iff in H1.
Qed.

(** The delimiter search with the delimiter 0xE5 after three bytes, given
    what the detection finds and how the payload is read back. *)
Lemma find_SFD_recovers (data : list Z) (n sh d0 d1 : Z) (payload : list Z) :
  is_int n -> 5 <= n < Z.of_nat (length data) ->
  rd data 3 = Some d0 -> rd data 4 = Some d1 ->
  (number_of_equal_bits 0xe5 d0 8 <? 7)
  && (number_of_equal_bits 0xe5 (window d0 d1 7) 8 <? 7)
  && (number_of_equal_bits 0xe5 (window d0 d1 6) 8 <? 7) = false ->
  chosen_shift (number_of_equal_bits 0xe5 (window d0 d1 7) 8)
               (number_of_equal_bits 0xe5 (window d0 d1 6) 8) = sh ->
  Z.of_nat (length payload) <= n - 4 ->
  (forall (j : nat) (b : Z), payload !! j = Some b ->
     exists hi lo, data !! (4 + j)%nat = Some hi
                   /\ data !! (5 + j)%nat = Some lo
                   /\ u8 (window hi lo sh) = b) ->
  exists out,
    find_SFD_and_shift_data data n 0xe5 4 = Some (sh, out, n - 4)
    /\ take (length payload) out = payload.
Proof.
  intros Hint Hn Hd0 Hd1 Hfound Hsh Hlen Hbytes.
  destruct (find_SFD_copy data n 4 sh) as (out & Hrun & Hl & Hout);
    [lia|lia|lia|].
  exists out. split.
  - rewrite (find_SFD_long_buffer data n 0xe5 4 d0 d1) by (assumption || lia).
    cbv zeta. rewrite Hfound, Hsh, Hrun. reflexivity.
  - apply list_eq. intros j.
    destruct (payload !! j) as [b|] eqn:E.
    + assert (Hj : (j < length payload)%nat) by (eapply lookup_lt_Some; eauto).
      rewrite lookup_take_lt by lia.
      destruct (Hbytes j b E) as (hi & lo & Hhi & Hlo & Hb).
      rewrite <- rd_of_nat.
      rewrite (Hout (Z.of_nat j) hi lo); [now rewrite Hb|lia| |].
      * replace (Z.of_nat j + 4) with (Z.of_nat (4 + j)) by lia.
        now rewrite rd_of_nat.
      * replace (Z.of_nat j + 4 + 1) with (Z.of_nat (5 + j)) by lia.
        now rewrite rd_of_nat.
    + apply lookup_ge_None_1 in E. apply lookup_take_ge. lia.
Qed.

(** The delimiter search on the stream as sent. *)
Lemma recover_unshifted (p0 p1 p2 fill : Z) (payload slack : list Z) :
  is_byte p0 -> is_byte p1 -> is_byte p2 -> is_byte fill ->
  Forall is_byte payload -> Forall is_byte slack ->
  payload <> [] -> slack <> [] ->
  Z.of_nat (length payload) + 5 < 2147483648 ->
  let frame := [p0; p1; p2; 0xe5] ++ payload in
  let L := Z.of_nat (length payload) in
  exists out,
    find_SFD_and_shift_data (frame ++ slack) (4 + L) 0xe5 4
    = Some (8, out, L)
    /\ take (length payload) out = payload.
Proof.
  intros Hp0 Hp1 Hp2 Hfill Hpay Hslack Hne Hsne Hlen frame L.
  destruct payload as [|b0 payload']; [contradiction|].
  destruct slack as [|s0 slack']; [contradiction|].
  pose proof (Forall_inv Hpay) as Hb0.
  set (payload := b0 :: payload') in *.
  set (slack := s0 :: slack') in *.
  assert (Hsl : (1 <= length slack)%nat) by (unfold slack; simpl; lia).
  assert (HL : L = Z.of_nat (length payload)) by reflexivity.
  assert (HL1 : 1 <= L) by (unfold L, payload; simpl; lia).
  assert (Hframe : Forall is_byte frame)
    by (unfold frame; simpl; repeat (apply Forall_cons; split; try assumption);
        unfold is_byte; lia).
  assert (Hflen : length frame = (4 + length payload)%nat) by reflexivity.
  destruct (detect_no_shift b0 Hb0) as [Hn0 Hsh].
  enough (Hrec : exists out,
            find_SFD_and_shift_data (frame ++ slack) (4 + L) 0xe5 4
            = Some (8, out, 4 + L - 4)
            /\ take (length payload) out = payload).
  { destruct Hrec as (out & H1 & H2). exists out.
    split; [rewrite H1; repeat f_equal; lia|exact H2]. }
  apply (find_SFD_recovers (frame ++ slack) (4 + L) 8 0xe5 b0).
  - unfold is_int. lia.
  - rewrite length_app, Hflen. lia.
  - reflexivity.
  - reflexivity.
  - rewrite Hn0. reflexivity.
  - exact Hsh.
  - lia.
  - intros j b Hj.
    assert (Hjl : (j < length payload)%nat) by (eapply lookup_lt_Some; eauto).
    exists b, (List.nth (S j) (payload ++ slack) 0).
    assert (Hlo : (payload ++ slack) !! S j
                  = Some (List.nth (S j) (payload ++ slack) 0)).
    { rewrite nth_lookup.
      destruct (lookup_lt_is_Some_2 (payload ++ slack) (S j))
        as [x Hx]; [rewrite length_app; lia|].
      now rewrite Hx. }
    split; [|split].
    + change ((frame ++ slack) !! (4 + j)%nat)
        with ((payload ++ slack) !! j).
      now apply lookup_app_l_Some.
    + exact Hlo.
    + apply window_8.
      * exact (proj1 (Forall_lookup _ _) Hpay j b Hj).
      * apply nth_byte. apply Forall_app. split; assumption.
Qed.

(** The delimiter search on the stream shifted right by one bit. *)
Lemma recover_shifted_1 (p0 p1 p2 fill : Z) (payload slack : list Z) :
  is_byte p0 -> is_byte p1 -> is_byte p2 -> is_byte fill ->
  Forall is_byte payload -> Forall is_byte slack ->
  payload <> [] -> slack <> [] ->
  Z.of_nat (length payload) + 5 < 2147483648 ->
  let frame := [p0; p1; p2; 0xe5] ++ payload in
  let L := Z.of_nat (length payload) in
  exists out,
    find_SFD_and_shift_data (bitshift_right 1 fill frame ++ slack)
      (5 + L) 0xe5 4
    = Some (7, out, L + 1)
    /\ take (length payload) out = payload.
Proof.
  intros Hp0 Hp1 Hp2 Hfill Hpay Hslack Hne Hsne Hlen frame L.
  destruct payload as [|b0 payload']; [contradiction|].
  destruct slack as [|s0 slack']; [contradiction|].
  pose proof (Forall_inv Hpay) as Hb0.
  set (payload := b0 :: payload') in *.
  set (slack := s0 :: slack') in *.
  assert (Hsl : (1 <= length slack)%nat) by (unfold slack; simpl; lia).
  assert (HL : L = Z.of_nat (length payload)) by reflexivity.
  assert (HL1 : 1 <= L) by (unfold L, payload; simpl; lia).
  assert (Hframe : Forall is_byte frame)
    by (unfold frame; simpl; repeat (apply Forall_cons; split; try assumption);
        unfold is_byte; lia).
  assert (Hflen : length frame = (4 + length payload)%nat) by reflexivity.
  enough (Hrec : exists out,
            find_SFD_and_shift_data (bitshift_right 1 fill frame ++ slack)
              (5 + L) 0xe5 4
            = Some (7, out, 5 + L - 4)
            /\ take (length payload) out = payload).
  { destruct Hrec as (out & H1 & H2). exists out.
    split; [rewrite H1; repeat f_equal; lia|exact H2]. }
  apply (find_SFD_recovers _ (5 + L) 7
           (u8 (window p2 0xe5 1)) (u8 (window 0xe5 b0 1))).
  - unfold is_int. lia.
  - rewrite length_app, bitshift_right_length, Hflen. lia.
  - change 3 with (Z.of_nat 3). rewrite rd_of_nat.
    rewrite lookup_app_l by (rewrite bitshift_right_length, Hflen; lia).
    rewrite bitshift_right_lookup by (rewrite Hflen; lia). reflexivity.
  - change 4 with (Z.of_nat 4). rewrite rd_of_nat.
    rewrite lookup_app_l by (rewrite bitshift_right_length, Hflen; lia).
    rewrite bitshift_right_lookup by (rewrite Hflen; lia). reflexivity.
  - pose proof (detect_one_bit p2 b0 Hp2 Hb0) as H1. cbv zeta in H1.
    apply Z.leb_le in H1.
    destruct (_ <? 7) eqn:E1 in |- *; [|reflexivity].
    rewrite andb_true_l.
    destruct (number_of_equal_bits 229
                (window (u8 (window p2 229 1)) (u8 (window 229 b0 1)) 7) 8
              <? 7) eqn:E2; [lia|reflexivity].
  - pose proof (detect_one_bit p2 b0 Hp2 Hb0) as H1. cbv zeta in H1.
    unfold chosen_shift. now rewrite H1.
  - lia.
  - intros j b Hj.
    assert (Hjl : (j < length payload)%nat) by (eapply lookup_lt_Some; eauto).
    assert (Hb : is_byte b) by exact (proj1 (Forall_lookup _ _) Hpay j b Hj).
    eexists _, _. split; [|split].
    + rewrite lookup_app_l by (rewrite bitshift_right_length, Hflen; lia).
      rewrite bitshift_right_lookup by (rewrite Hflen; lia). reflexivity.
    + rewrite lookup_app_l by (rewrite bitshift_right_length, Hflen; lia).
      rewrite bitshift_right_lookup by (rewrite Hflen; lia). reflexivity.
    + change (List.nth (4 + j) frame 0) with (List.nth j payload 0).
      change (List.nth (5 + j) (fill :: frame) 0)
        with (List.nth j payload 0).
      rewrite (nth_lookup_Some_Z payload j b Hj).
      apply realign_1; [|exact Hb|].
      * apply nth_byte.
         apply Forall_cons; split; [exact Hfill|exact Hframe].
      * apply nth_byte. exact Hframe.
Qed.

(** The delimiter search on the stream shifted right by two bits. *)
Lemma recover_shifted_2 (p0 p1 p2 fill : Z) (payload slack : list Z) :
  is_byte p0 -> is_byte p1 -> is_byte p2 -> is_byte fill ->
  Forall is_byte payload -> Forall is_byte slack ->
  payload <> [] -> slack <> [] ->
  Z.of_nat (length payload) + 5 < 2147483648 ->
  let frame := [p0; p1; p2; 0xe5] ++ payload in
  let L := Z.of_nat (length payload) in
  exists out,
    find_SFD_and_shift_data (bitshift_right 2 fill frame ++ slack)
      (5 + L) 0xe5 4
    = Some (6, out, L + 1)
    /\ take (length payload) out = payload.
Proof.
  intros Hp0 Hp1 Hp2 Hfill Hpay Hslack Hne Hsne Hlen frame L.
  destruct payload as [|b0 payload']; [contradiction|].
  destruct slack as [|s0 slack']; [contradiction|].
  pose proof (Forall_inv Hpay) as Hb0.
  set (payload := b0 :: payload') in *.
  set (slack := s0 :: slack') in *.
  assert (Hsl : (1 <= length slack)%nat) by (unfold slack; simpl; lia).
  assert (HL : L = Z.of_nat (length payload)) by reflexivity.
  assert (HL1 : 1 <= L) by (unfold L, payload; simpl; lia).
  assert (Hframe : Forall is_byte frame)
    by (unfold frame; simpl; repeat (apply Forall_cons; split; try assumption);
        unfold is_byte; lia).
  assert (Hflen : length frame = (4 + length payload)%nat) by reflexivity.
  enough (Hrec : exists out,
            find_SFD_and_shift_data (bitshift_right 2 fill frame ++ slack)
              (5 + L) 0xe5 4
            = Some (6, out, 5 + L - 4)
            /\ take (length payload) out = payload).
  { destruct Hrec as (out & H1 & H2). exists out.
    split; [rewrite H1; repeat f_equal; lia|exact H2]. }
  destruct (detect_two_bit p2 b0 Hp2 Hb0) as [H1 H2].
  apply (find_SFD_recovers _ (5 + L) 6
           (u8 (window p2 0xe5 2)) (u8 (window 0xe5 b0 2))).
  - unfold is_int. lia.
  - rewrite length_app, bitshift_right_length, Hflen. lia.
  - change 3 with (Z.of_nat 3). rewrite rd_of_nat.
    rewrite lookup_app_l by (rewrite bitshift_right_length, Hflen; lia).
    rewrite bitshift_right_lookup by (rewrite Hflen; lia). reflexivity.
  - change 4 with (Z.of_nat 4). rewrite rd_of_nat.
    rewrite lookup_app_l by (rewrite bitshift_right_length, Hflen; lia).
    rewrite bitshift_right_lookup by (rewrite Hflen; lia). reflexivity.
  - apply Z.leb_le in H2.
    destruct (_ <? 7) eqn:E1 in |- *; [|reflexivity].
    rewrite andb_true_l.
    destruct (_ <? 7) eqn:E2 in |- *; [|reflexivity].
    rewrite andb_true_l.
    destruct (_ <? 7) eqn:E3 in |- *; [lia|reflexivity].
  - unfold chosen_shift. now rewrite H1, H2.
  - lia.
  - intros j b Hj.
    assert (Hjl : (j < length payload)%nat) by (eapply lookup_lt_Some; eauto).
    assert (Hb : is_byte b) by exact (proj1 (Forall_lookup _ _) Hpay j b Hj).
    eexists _, _. split; [|split].
    + rewrite lookup_app_l by (rewrite bitshift_right_length, Hflen; lia).
      rewrite bitshift_right_lookup by (rewrite Hflen; lia). reflexivity.
    + rewrite lookup_app_l by (rewrite bitshift_right_length, Hflen; lia).
      rewrite bitshift_right_lookup by (rewrite Hflen; lia). reflexivity.
    + change (List.nth (4 + j) frame 0) with (List.nth j payload 0).
      change (List.nth (5 + j) (fill :: frame) 0)
        with (List.nth j payload 0).
      rewrite (nth_lookup_Some_Z payload j b Hj).
      apply realign_2; [|exact Hb|].
      * apply nth_byte.
         apply Forall_cons; split; [exact Hfill|exact Hframe].
      * apply nth_byte. exact Hframe.
Qed.

(** C2 (amended). With three preamble bytes in front of the delimiter 0xE5
    (the delimiter sits at index [preamble_length - 1] = 3), a payload of at
    least one byte and one more byte of storage behind the data, the search
    returns 8 and leaves the payload at the start of the buffer, the length
    reduced by 4.  On the same stream shifted right by one or by two bits
    (one byte longer) it returns 7 or 6 and the payload is restored bit for
    bit. *)
Theorem sfd_recovery (p0 p1 p2 fill : Z) (payload slack : list Z) :
  is_byte p0 -> is_byte p1 -> is_byte p2 -> is_byte fill ->
  Forall is_byte payload -> Forall is_byte slack ->
  payload <> [] -> slack <> [] ->
  Z.of_nat (length payload) + 5 < 2147483648 ->
  let frame := [p0; p1; p2; 0xe5] ++ payload in
  let L := Z.of_nat (length payload) in
  (exists out,
     find_SFD_and_shift_data (frame ++ slack) (4 + L) 0xe5 4
     = Some (8, out, L)
     /\ take (length payload) out = payload)
  /\ (exists out,
        find_SFD_and_shift_data (bitshift_right 1 fill frame ++ slack)
          (5 + L) 0xe5 4
        = Some (7, out, L + 1)
        /\ take (length payload) out = payload)
  /\ (exists out,
        find_SFD_and_shift_data (bitshift_right 2 fill frame ++ slack)
          (5 + L) 0xe5 4
        = Some (6, out, L + 1)
        /\ take (length payload) out = payload).
Proof.
  intros Hp0 Hp1 Hp2 Hfill Hpay Hslack Hne Hsne Hlen frame L.
  split; [|split].
  - now apply (recover_unshifted p0 p1 p2 fill).
  - now apply recover_shifted_1.
  - now apply recover_shifted_2.
Qed.

Lemma sfd_recovery_witness :
  (exists out,
     find_SFD_and_shift_data ([0x55; 0x55; 0x55; 0xe5] ++ [1; 2; 3] ++ [0])
       (4 + 3) 0xe5 4
     = Some (8, out, 3)
     /\ take 3 out = [1; 2; 3])
  /\ (exists out,
        find_SFD_and_shift_data
          (bitshift_right 1 0 ([0x55; 0x55; 0x55; 0xe5] ++ [1; 2; 3]) ++ [0])
          (5 + 3) 0xe5 4
        = Some (7, out, 3 + 1)
        /\ take 3 out = [1; 2; 3])
  /\ (exists out,
        find_SFD_and_shift_data
          (bitshift_right 2 0 ([0x55; 0x55; 0x55; 0xe5] ++ [1; 2; 3]) ++ [0])
          (5 + 3) 0xe5 4
        = Some (6, out, 3 + 1)
        /\ take 3 out = [1; 2; 3]).
Proof.
  assert (B : forall x, 0 <= x < 256 -> is_byte x) by (intros; assumption).
  apply (sfd_recovery 0x55 0x55 0x55 0 [1; 2; 3] [0]);
    try (apply B; lia); try discriminate.
  - repeat constructor; apply B; lia.
  - repeat constructor; apply B; lia.
  - simpl. lia.
Defined.

(** C2 as stated fails: with all four preamble bytes in front of the
    delimiter the search looks for the delimiter one byte too early, finds
    none of the three candidates and returns 0 with the buffer untouched. *)
Lemma sfd_recovery_counterexample :
  find_SFD_and_shift_data ([0x55; 0x55; 0x55; 0x55] ++ [0xe5] ++ [1; 2; 3] ++ [0])
    8 0xe5 4
  = Some (0, [0x55; 0x55; 0x55; 0x55; 0xe5; 1; 2; 3; 0], 8)
  /\ find_SFD_and_shift_data
       ([0xaa; 0xaa; 0xaa; 0xaa] ++ [0xe5] ++ [1; 2; 3] ++ [0]) 8 0xe5 4
     = Some (0, [0xaa; 0xaa; 0xaa; 0xaa; 0xe5; 1; 2; 3; 0], 8).
Proof. split; vm_compute; reflexivity. Qed.

(** ** The single-flight guards *)

Lemma atomic_inc_dec (v : Z) : is_int v -> atomic_dec (atomic_inc v) = v.
Proof.
  unfold is_int, atomic_dec, atomic_inc, s32. intros Hv.
  Z.div_mod_to_equations. lia.
Qed.

Lemma atomic_inc_busy (v : Z) : is_int v -> v <> 0 -> atomic_inc v <> 1.
Proof.
  unfold is_int, atomic_inc, s32. intros Hv Hne.
  Z.div_mod_to_equations. lia.
Qed.

Lemma set_phy_status_is_active_id (s : lprf_local) (v : Z) :
  v = phy_status_is_active s ->
  set_phy_status_is_active v
    (set_phy_status_is_active (atomic_inc (phy_status_is_active s)) s) = s.
Proof. intros ->. now destruct s. Qed.

Lemma set_transition_in_progress_id (s : lprf_local) (v : Z) :
  v = transition_in_progress s ->
  set_transition_in_progress v
    (set_transition_in_progress (atomic_inc (transition_in_progress s)) s)
  = s.
Proof. intros ->. now destruct s. Qed.

(** C6. Called while the poll guard is held, [lprf_phy_status_async] returns
    [-EBUSY] and leaves the whole state as it was: the counter is back at
    its value and nothing was added to the trace, so no SPI transfer was
    started.  [lprf_evaluate_phy_status] treats the transition guard the
    same way. *)
Theorem guards_busy `{lprf_registers_h} (s : lprf_local) (phy_status : Z) :
  (is_int (phy_status_is_active s) -> phy_status_is_active s <> 0 ->
     lprf_phy_status_async s = (- EBUSY, s))
  /\ (is_int (transition_in_progress s) -> transition_in_progress s <> 0 ->
      lprf_evaluate_phy_status s phy_status = Some s).
Proof.
  split.
  - intros Hint Hne. unfold lprf_phy_status_async.
    pose proof (atomic_inc_busy _ Hint Hne) as Hb.
    change (phy_status_is_active
              (set_phy_status_is_active
                 (atomic_inc (phy_status_is_active s)) s))
      with (atomic_inc (phy_status_is_active s)).
    destruct (atomic_inc (phy_status_is_active s) =? 1) eqn:E; [lia|].
    simpl negb. cbv iota.
    rewrite set_phy_status_is_active_id; [reflexivity|].
    now apply atomic_inc_dec.
  - intros Hint Hne. unfold lprf_evaluate_phy_status.
    pose proof (atomic_inc_busy _ Hint Hne) as Hb.
    change (transition_in_progress
              (set_transition_in_progress
                 (atomic_inc (transition_in_progress s)) s))
      with (atomic_inc (transition_in_progress s)).
    destruct (atomic_inc (transition_in_progress s) =? 1) eqn:E; [lia|].
    simpl negb. cbv iota.
    rewrite set_transition_in_progress_id; [reflexivity|].
    now apply atomic_inc_dec.
Qed.

Lemma guards_busy_witness :
  @lprf_phy_status_async sample_registers
     (set_phy_status_is_active 1 idle_state)
  = (-16, set_phy_status_is_active 1 idle_state)
  /\ @lprf_evaluate_phy_status sample_registers
       (set_transition_in_progress 1 idle_state) 0x48
     = Some (set_transition_in_progress 1 idle_state).
Proof.
  split.
  - apply (@guards_busy sample_registers
             (set_phy_status_is_active 1 idle_state) 0).
    + unfold is_int. simpl. lia.
    + simpl. lia.
  - apply (@guards_busy sample_registers
             (set_transition_in_progress 1 idle_state) 0x48).
    + unfold is_int. simpl. lia.
    + simpl. lia.
Defined.

(** ** The decision function *)

Lemma tx_complete_clears `{lprf_registers_h} (s : lprf_local) :
  tx_skb (lprf_tx_complete s) = None
  /\ tx_complete (lprf_tx_complete s) = false
  /\ transition_in_progress (lprf_tx_complete s) = transition_in_progress s.
Proof. unfold lprf_tx_complete. destruct (free_skb _); repeat split. Qed.

(** C5 (amended). When the transition guard is free, the finalization of a
    transmission runs first if [tx_complete] is set and the chip is not
    SENDING; it clears the pending frame.  After that exactly one of four
    branches runs, their conditions excluding each other: the FIFO read
    (SLEEP, FIFO not empty), the start of the TX transition (a frame still
    pending, FIFO empty), the RX keep-alive transition (no frame pending,
    SLEEP, FIFO empty), and otherwise the release of the guard followed by
    a new poll timer. *)
Theorem evaluate_phy_status_branches `{lprf_registers_h}
    (s : lprf_local) (phy_status : Z) :
  transition_in_progress s = 0 ->
  let status := PHY_SM_STATUS (u8 phy_status) in
  let fifo_empty := negb (PHY_FIFO_EMPTY (u8 phy_status) =? 0) in
  let locked := set_transition_in_progress 1 s in
  let finalize := negb (status =? PHY_SM_SENDING) && tx_complete s in
  let s1 := if finalize then lprf_tx_complete locked else locked in
  let result := lprf_evaluate_phy_status s phy_status in
  (finalize = true -> tx_skb s1 = None /\ tx_complete s1 = false)
  /\ ((status = PHY_SM_SLEEP /\ fifo_empty = false
       /\ result = Some (read_lprf_fifo s1))
      \/ (~ (status = PHY_SM_SLEEP /\ fifo_empty = false)
          /\ tx_skb s1 <> None /\ fifo_empty = true
          /\ result = lprf_async_state_change s1 STATE_CMD_TX)
      \/ (tx_skb s1 = None /\ status = PHY_SM_SLEEP /\ fifo_empty = true
          /\ result = lprf_async_state_change s1 STATE_CMD_RX)
      \/ (status <> PHY_SM_SLEEP
          /\ (tx_skb s1 = None \/ fifo_empty = false)
          /\ result
             = Some (lprf_start_polling_timer
                       (set_transition_in_progress 0 s1)
                       (if (status =? PHY_SM_RECEIVING) && fifo_empty
                        then RX_POLLING_INTERVAL else RETRY_INTERVAL)))).
Proof.
  intros Hfree status fifo_empty locked finalize s1 result.
  assert (Hs1 : transition_in_progress s1 = 1).
  { unfold s1. destruct finalize; [|reflexivity].
    now rewrite (proj2 (proj2 (tx_complete_clears locked))). }
  split.
  { intros Hf. unfold s1. rewrite Hf.
    destruct (tx_complete_clears locked) as (H1 & H2 & _). now split. }
  assert (Hres : result =
    if (status =? PHY_SM_SLEEP) && negb fifo_empty
    then Some (read_lprf_fifo s1)
    else if bool_decide (is_Some (tx_skb s1)) && fifo_empty
    then lprf_async_state_change s1 STATE_CMD_TX
    else if (status =? PHY_SM_SLEEP) && fifo_empty
    then lprf_async_state_change s1 STATE_CMD_RX
    else Some (lprf_start_polling_timer (set_transition_in_progress 0 s1)
                 (if (status =? PHY_SM_RECEIVING) && fifo_empty
                  then RX_POLLING_INTERVAL else RETRY_INTERVAL))).
  { unfold result, lprf_evaluate_phy_status.
    change (transition_in_progress
              (set_transition_in_progress
                 (atomic_inc (transition_in_progress s)) s))
      with (atomic_inc (transition_in_progress s)).
    rewrite Hfree. change (atomic_inc 0) with 1.
    change (negb (1 =? 1)) with false. cbv iota.
    fold locked. fold status.
    change (tx_complete locked) with (tx_complete s).
    fold finalize. fold s1. rewrite Hs1. change (atomic_dec 1) with 0.
    unfold fifo_empty. rewrite negb_involutive.
    destruct ((status =? PHY_SM_SLEEP)
              && (PHY_FIFO_EMPTY (u8 phy_status) =? 0)); [reflexivity|].
    destruct (bool_decide (is_Some (tx_skb s1))
              && negb (PHY_FIFO_EMPTY (u8 phy_status) =? 0)); [reflexivity|].
    destruct ((status =? PHY_SM_SLEEP)
              && negb (PHY_FIFO_EMPTY (u8 phy_status) =? 0)); [reflexivity|].
    destruct (status =? PHY_SM_RECEIVING); simpl;
      destruct (negb (PHY_FIFO_EMPTY (u8 phy_status) =? 0)); reflexivity. }
  rewrite Hres. clear Hres.
  destruct (status =? PHY_SM_SLEEP) eqn:Est;
    [apply Z.eqb_eq in Est | apply Z.eqb_neq in Est];
    destruct fifo_empty eqn:Efe; simpl;
    destruct (tx_skb s1) as [skb|] eqn:Eskb; simpl.
  - right; left. repeat split; try congruence. intros [_ ?]; congruence.
  - right; right; left. repeat split; congruence.
  - left. repeat split; congruence.
  - left. repeat split; congruence.
  - right; left. repeat split; try congruence. intros [? _]; congruence.
  - right; right; right. rewrite andb_true_r.
    repeat split; try congruence. now left.
  - right; right; right. rewrite andb_false_r.
    repeat split; try congruence. now right.
  - right; right; right. rewrite andb_false_r.
    repeat split; try congruence. now left.
Qed.

Lemma evaluate_phy_status_branches_witness :
  @lprf_evaluate_phy_status sample_registers idle_state 0x40
  = Some (@read_lprf_fifo sample_registers
            (set_transition_in_progress 1 idle_state)).
Proof.
  pose proof (@evaluate_phy_status_branches sample_registers idle_state 0x40
                eq_refl) as [_ Hb].
  cbv zeta in Hb.
  destruct Hb as [(_ & _ & Hr) | [(Hn & _) | [(_ & _ & He & _)
                 | (Hn & _)]]].
  - exact Hr.
  - exfalso. apply Hn. split; reflexivity.
  - discriminate He.
  - exfalso. apply Hn. reflexivity.
Defined.

(** C5 as stated fails: with the transmission-complete flag set and the
    status SLEEP with a non-empty FIFO, one invocation both finalizes the
    transmission ([ieee802154_xmit_complete], wake-up of the writers) and
    starts the FIFO read. *)
Lemma evaluate_phy_status_counterexample :
  exists s',
    @lprf_evaluate_phy_status sample_registers
       (set_tx_complete true (set_tx_skb (Some [1; 2; 3]) idle_state)) 0x40
    = Some s'
    /\ trace s'
       = [ieee802154_xmit_complete (Some [1; 2; 3]);
          wake_up wait_for_tx_ready;
          spi_async_state_change (0x20 :: replicate 257 0)
            (Some lprf_read_frame_complete_cb) 0]
    /\ tx_skb s' = None.
Proof. eexists. split; [vm_compute; reflexivity|]. split; reflexivity. Qed.

(** ** In-place loops over a segment of a buffer *)

(** Boolean comparisons in hypotheses, turned into propositions. *)
Ltac zbool :=
  repeat match goal with
  | H : (_ <=? _) = false |- _ => apply Z.leb_gt in H
  | H : (_ <=? _) = true |- _ => apply Z.leb_le in H
  | H : (_ <? _) = false |- _ => apply Z.ltb_ge in H
  | H : (_ <? _) = true |- _ => apply Z.ltb_lt in H
  | H : (_ =? _) = false |- _ => apply Z.eqb_neq in H
  | H : (_ =? _) = true |- _ => apply Z.eqb_eq in H
  end.

Lemma rd_middle (pre post : list Z) (x : Z) :
  rd (pre ++ x :: post) (Z.of_nat (length pre)) = Some x.
Proof. rewrite rd_of_nat. now apply list_lookup_middle. Qed.

Lemma wr_middle (pre post : list Z) (x v : Z) :
  wr (pre ++ x :: post) (Z.of_nat (length pre)) v = Some (pre ++ v :: post).
Proof.
  rewrite wr_in_range by (rewrite length_app; simpl; lia).
  rewrite Nat2Z.id. f_equal.
  rewrite insert_app_r_alt by lia.
  now rewrite Nat.sub_diag.
Qed.

Lemma write_range_middle (pre old post bs : list Z) :
  length old = length bs ->
  write_range (pre ++ old ++ post) (Z.of_nat (length pre)) bs
  = Some (pre ++ bs ++ post).
Proof.
  intros Hlen. unfold write_range.
  rewrite !length_app.
  destruct (0 <=? Z.of_nat (length pre)) eqn:E1; [|exfalso; zbool; lia].
  destruct (Z.of_nat (length pre) + Z.of_nat (length bs)
            <=? Z.of_nat (length pre + (length old + length post))) eqn:E2;
    [|exfalso; zbool; lia].
  simpl. rewrite Nat2Z.id. f_equal.
  rewrite take_app_length. f_equal. f_equal.
  rewrite drop_app_ge by lia.
  replace (length pre + length bs - length pre)%nat with (length old) by lia.
  now rewrite drop_app_length.
Qed.

Lemma reverse_loop_middle (pre mid post : list Z) :
  reverse_loop (length mid) (Z.of_nat (length pre)) (pre ++ mid ++ post)
  = Some (pre ++ map reverse_bit_order mid ++ post).
Proof.
  revert pre. induction mid as [|b mid IH]; intros pre; [reflexivity|].
  simpl length. simpl reverse_loop.
  change ((b :: mid) ++ post) with (b :: (mid ++ post)).
  rewrite rd_middle. simpl. rewrite wr_middle. simpl.
  replace (Z.of_nat (length pre) + 1)
    with (Z.of_nat (length (pre ++ [reverse_bit_order b])))
    by (rewrite length_app; simpl; lia).
  replace (pre ++ reverse_bit_order b :: mid ++ post)
    with ((pre ++ [reverse_bit_order b]) ++ mid ++ post)
    by (now rewrite <- app_assoc).
  rewrite IH. now rewrite <- app_assoc.
Qed.

Lemma preprocess_loop_middle (pre mid post : list Z) :
  preprocess_loop (length mid) (Z.of_nat (length pre)) (pre ++ mid ++ post)
  = Some (pre ++ map (fun b => not8 (reverse_bit_order b)) mid ++ post).
Proof.
  revert pre. induction mid as [|b mid IH]; intros pre; [reflexivity|].
  simpl length. simpl preprocess_loop.
  change ((b :: mid) ++ post) with (b :: (mid ++ post)).
  rewrite rd_middle. simpl. rewrite wr_middle. simpl.
  rewrite rd_middle. simpl. rewrite wr_middle. simpl.
  set (v := not8 (reverse_bit_order b)).
  replace (Z.of_nat (length pre) + 1)
    with (Z.of_nat (length (pre ++ [v])))
    by (rewrite length_app; simpl; lia).
  replace (pre ++ v :: mid ++ post) with ((pre ++ [v]) ++ mid ++ post)
    by (now rewrite <- app_assoc).
  rewrite IH. now rewrite <- app_assoc.
Qed.

(** [preprocess_received_data] on a buffer holding [raw] followed by unused
    storage. *)
Lemma preprocess_received_data_spec (raw slack : list Z) :
  preprocess_received_data (raw ++ slack) (Z.of_nat (length raw))
  = Some (map (fun b => not8 (reverse_bit_order b)) raw ++ slack).
Proof.
  unfold preprocess_received_data. rewrite Nat2Z.id.
  exact (preprocess_loop_middle [] raw slack).
Qed.

(** ** The frame write *)

(** A buffer that is long enough splits into the bytes that
    [lprf_start_frame_write] overwrites and the rest. *)
Lemma tx_buf_split (buf : list Z) (n1 n3 : nat) :
  (2 + n1 + 1 + n3 <= length buf)%nat ->
  exists a b x1 x2 x3 rest,
    buf = a :: b :: x1 ++ x2 :: x3 ++ rest
    /\ length x1 = n1 /\ length x3 = n3
    /\ rest = drop (2 + n1 + 1 + n3) buf.
Proof.
  intros Hlen.
  destruct buf as [|a [|b buf2]]; simpl in Hlen; try lia.
  pose proof (take_drop n1 buf2) as E1.
  destruct (drop n1 buf2) as [|x2 r2] eqn:Er1.
  { apply (f_equal length) in Er1. rewrite length_drop in Er1.
    simpl in Er1. lia. }
  pose proof (take_drop n3 r2) as E3.
  assert (Hr2 : length r2 = (length buf2 - n1 - 1)%nat).
  { apply (f_equal length) in Er1. rewrite length_drop in Er1.
    simpl in Er1. lia. }
  exists a, b, (take n1 buf2), x2, (take n3 r2), (drop n3 r2).
  split; [|split; [|split]].
  - rewrite E3, E1. reflexivity.
  - apply length_take_le. lia.
  - apply length_take_le. lia.
  - change (drop (2 + n1 + 1 + n3) (a :: b :: buf2))
      with (drop (n1 + 1 + n3) buf2).
    rewrite <- !drop_drop, Er1. reflexivity.
Qed.

(** [lprf_start_frame_write] on a frame that fits: the buffer receives the
    opcode, the frame length and the bit-reversed sync header, payload
    length and payload; the message of [frame_length + 2] bytes is
    dispatched with [__lprf_frame_write_complete] as its callback. *)
Lemma start_frame_write_spec `{lprf_registers_h}
    (s : lprf_local) (skb : list Z) :
  tx_skb s = Some skb -> PHY_HEADER_LENGTH = 1 ->
  (2 + length SYNC_HEADER + 1 + length skb <= length (tx_buf s))%nat ->
  Z.of_nat (length (tx_buf s)) < 2147483648 ->
  let frame_length :=
    Z.of_nat (length SYNC_HEADER) + 1 + Z.of_nat (length skb) in
  let message :=
    [u8 FRMW; u8 frame_length]
    ++ map reverse_bit_order
         (SYNC_HEADER ++ [u8 (Z.of_nat (length skb))] ++ skb) in
  lprf_start_frame_write s
  = Some (snd (spi_async_state_change_message
                 (set_spi_transfer_len (frame_length + 2)
                    (set_spi_message_complete
                       (Some lprf_frame_write_complete_cb)
                       (set_tx_buf
                          (message
                           ++ drop (2 + length SYNC_HEADER + 1 + length skb)
                                (tx_buf s)) s))))).
Proof.
  intros Hskb Hphy Hfit Hint frame_length message.
  destruct (tx_buf_split (tx_buf s) (length SYNC_HEADER) (length skb) Hfit)
    as (a & b & x1 & x2 & x3 & rest & Hbuf & Hx1 & Hx3 & Hrest).
  rewrite <- Hrest.
  assert (Hlenbuf : length (tx_buf s)
                    = (2 + length SYNC_HEADER + 1 + length skb
                       + length rest)%nat).
  { rewrite Hbuf. simpl. rewrite length_app. simpl. rewrite length_app. lia. }
  unfold lprf_start_frame_write. rewrite Hskb. simpl. rewrite Hphy.
  fold frame_length.
  rewrite (s32_id frame_length) by (unfold is_int, frame_length; lia).
  rewrite (s32_id (2 + Z.of_nat (length SYNC_HEADER)))
    by (unfold is_int; lia).
  rewrite (s32_id (2 + Z.of_nat (length SYNC_HEADER) + 1))
    by (unfold is_int; lia).
  rewrite (s32_id (frame_length + 2)) by (unfold is_int, frame_length; lia).
  rewrite Hbuf.
  set (F := u8 FRMW). set (fl := u8 frame_length).
  set (L := u8 (Z.of_nat (length skb))).
  assert (E1 : wr (a :: b :: x1 ++ x2 :: x3 ++ rest) 0 F
               = Some (F :: b :: x1 ++ x2 :: x3 ++ rest))
    by exact (wr_middle [] _ a F).
  rewrite E1. simpl.
  assert (E2 : wr (F :: b :: x1 ++ x2 :: x3 ++ rest) 1 fl
               = Some (F :: fl :: x1 ++ x2 :: x3 ++ rest))
    by exact (wr_middle [F] _ b fl).
  rewrite E2. simpl.
  assert (E3 : write_range (F :: fl :: x1 ++ x2 :: x3 ++ rest) 2 SYNC_HEADER
               = Some (F :: fl :: SYNC_HEADER ++ x2 :: x3 ++ rest))
    by exact (write_range_middle [F; fl] x1 _ SYNC_HEADER Hx1).
  rewrite E3. simpl.
  assert (E4 : wr (F :: fl :: SYNC_HEADER ++ x2 :: x3 ++ rest)
                 (2 + Z.of_nat (length SYNC_HEADER)) L
               = Some (F :: fl :: SYNC_HEADER ++ L :: x3 ++ rest)).
  { replace (2 + Z.of_nat (length SYNC_HEADER))
      with (Z.of_nat (length ([F; fl] ++ SYNC_HEADER)))
      by (rewrite length_app; simpl; lia).
    exact (wr_middle ([F; fl] ++ SYNC_HEADER) _ x2 L). }
  rewrite E4. simpl.
  assert (E5 : write_range (F :: fl :: SYNC_HEADER ++ L :: x3 ++ rest)
                 (2 + Z.of_nat (length SYNC_HEADER) + 1) skb
               = Some (F :: fl :: SYNC_HEADER ++ L :: skb ++ rest)).
  { replace (2 + Z.of_nat (length SYNC_HEADER) + 1)
      with (Z.of_nat (length ([F; fl] ++ SYNC_HEADER ++ [L])))
      by (rewrite !length_app; simpl; lia).
    replace (F :: fl :: SYNC_HEADER ++ L :: x3 ++ rest)
      with (([F; fl] ++ SYNC_HEADER ++ [L]) ++ x3 ++ rest)
      by (simpl; now rewrite <- app_assoc).
    rewrite write_range_middle by exact Hx3.
    simpl. now rewrite <- app_assoc. }
  rewrite E5. simpl.
  assert (E6 : reverse_loop (Z.to_nat frame_length) 2
                 (F :: fl :: SYNC_HEADER ++ L :: skb ++ rest)
               = Some (message ++ rest)).
  { replace (Z.to_nat frame_length)
      with (length (SYNC_HEADER ++ [L] ++ skb))
      by (rewrite !length_app; unfold frame_length; simpl; lia).
    replace (F :: fl :: SYNC_HEADER ++ L :: skb ++ rest)
      with ([F; fl] ++ (SYNC_HEADER ++ [L] ++ skb) ++ rest)
      by (simpl; now rewrite <- !app_assoc).
    exact (reverse_loop_middle [F; fl] _ rest). }
  rewrite E6. simpl. reflexivity.
Qed.

(** What [lprf_start_frame_write] leaves behind when the frame fits. *)
Lemma start_frame_write_ok `{lprf_registers_h} (s : lprf_local) (skb : list Z) :
  tx_skb s = Some skb -> PHY_HEADER_LENGTH = 1 ->
  (2 + length SYNC_HEADER + 1 + length skb <= length (tx_buf s))%nat ->
  Z.of_nat (length (tx_buf s)) < 2147483648 ->
  let message :=
    [u8 FRMW;
     u8 (Z.of_nat (length SYNC_HEADER) + 1 + Z.of_nat (length skb))]
    ++ map reverse_bit_order
         (SYNC_HEADER ++ [u8 (Z.of_nat (length skb))] ++ skb) in
  exists s',
    lprf_start_frame_write s = Some s'
    /\ trace s'
       = trace s ++ [spi_async_state_change message
                       (Some lprf_frame_write_complete_cb)
                       (hd 0 (spi_async_rets s))]
    /\ spi_message_complete s' = Some lprf_frame_write_complete_cb
    /\ reset_counter s' = reset_counter s.
Proof.
  intros Hskb Hphy Hfit Hint message.
  rewrite (start_frame_write_spec s skb Hskb Hphy Hfit Hint).
  eexists. split; [reflexivity|].
  split; [|split; reflexivity].
  set (frame_length :=
         Z.of_nat (length SYNC_HEADER) + 1 + Z.of_nat (length skb)).
  match goal with
  | |- trace (snd (spi_async_state_change_message ?y)) = _ =>
      change (trace (snd (spi_async_state_change_message y)))
        with (trace s
              ++ [spi_async_state_change
                    (take (Z.to_nat (frame_length + 2)) (tx_buf y))
                    (Some lprf_frame_write_complete_cb)
                    (hd 0 (spi_async_rets s))])
  end.
  do 3 f_equal.
  match goal with
  | |- take _ (tx_buf ?y) = _ =>
      change (tx_buf y)
        with (message
              ++ drop (2 + length SYNC_HEADER + 1 + length skb) (tx_buf s))
  end.
  apply take_app_length'.
  unfold message, frame_length.
  rewrite length_app, length_map, !length_app. simpl. lia.
Qed.


(** ** Asynchronous register writes *)

Section RegisterWrites.
Context `{lprf_registers_h}.

(** The two equations of [lprf_async_write_register_from]; with
    [lprf_async_error] folded back they are the body of the C function. *)
Lemma write_register_from_nil (s : lprf_local) (address value : Z)
    (complete : callback) :
  lprf_async_write_register_from [] s address value complete
  = snd (spi_async_state_change_message
           (tx_buf_regw s address value complete)).
Proof. reflexivity. Qed.

Lemma write_register_from_cons (r : Z) (rets : list Z) (s : lprf_local)
    (address value : Z) (complete : callback) :
  lprf_async_write_register_from (r :: rets) s address value complete
  = let m := spi_async_state_change_message
               (tx_buf_regw s address value complete) in
    if fst m =? 0 then snd m
    else lprf_async_write_register_from rets
           (lprf_stop_polling (emit (dev_err (fst m)) (snd m)))
           RG_GLOBAL_RESETB 0 lprf_async_error_recover_cb.
Proof. reflexivity. Qed.

(** [lprf_async_write_register] as the C function reads: set up the
    buffer, dispatch, and call [lprf_async_error] if the dispatch failed. *)
Lemma lprf_async_write_register_eq (s : lprf_local) (address value : Z)
    (complete : callback) :
  lprf_async_write_register s address value complete
  = let m := spi_async_state_change_message
               (tx_buf_regw s address value complete) in
    if fst m =? 0 then snd m else lprf_async_error (snd m) (fst m).
Proof.
  unfold lprf_async_write_register, lprf_async_error. cbv zeta.
  destruct (spi_async_rets s) as [|r rets] eqn:E.
  - rewrite write_register_from_nil.
    change (fst (spi_async_state_change_message
                   (tx_buf_regw s address value complete)))
      with (hd 0 (spi_async_rets s)).
    rewrite E. reflexivity.
  - rewrite write_register_from_cons. cbv zeta.
    destruct (fst _ =? 0); [reflexivity|].
    unfold lprf_async_write_register.
    change (spi_async_rets
              (lprf_stop_polling
                 (emit (dev_err (fst (spi_async_state_change_message
                                        (tx_buf_regw s address value
                                           complete))))
                    (snd (spi_async_state_change_message
                            (tx_buf_regw s address value complete))))))
      with (tl (spi_async_rets s)).
    rewrite E. reflexivity.
Qed.

Lemma kept_dispatch (s : lprf_local) (address value : Z)
    (complete : callback) :
  kept_by_register_write
    (snd (spi_async_state_change_message
            (tx_buf_regw s address value complete)))
  = kept_by_register_write s.
Proof. reflexivity. Qed.

Lemma kept_error (s : lprf_local) (rc : Z) :
  kept_by_register_write (lprf_stop_polling (emit (dev_err rc) s))
  = kept_by_register_write s.
Proof. reflexivity. Qed.

(** Whatever [spi_async] returns, a register write and the error recovery it
    may start keep the step counter, the target state, the guard and the
    pending frame. *)
Lemma write_register_from_kept (rets : list Z) (s : lprf_local)
    (address value : Z) (complete : callback) :
  kept_by_register_write
    (lprf_async_write_register_from rets s address value complete)
  = kept_by_register_write s.
Proof.
  revert s address value complete.
  induction rets as [|r rets IH]; intros s address value complete.
  - rewrite write_register_from_nil. apply kept_dispatch.
  - rewrite write_register_from_cons. cbv zeta.
    destruct (fst _ =? 0); [apply kept_dispatch|].
    rewrite IH, kept_error. apply kept_dispatch.
Qed.

Lemma write_register_kept (s : lprf_local) (address value : Z)
    (complete : callback) :
  kept_by_register_write (lprf_async_write_register s address value complete)
  = kept_by_register_write s.
Proof. apply write_register_from_kept. Qed.

Lemma write_subreg_kept (s : lprf_local) (cached_val : Z) (sr : subreg)
    (data : Z) (complete : callback) :
  kept_by_register_write
    (lprf_async_write_subreg s cached_val sr data complete)
  = kept_by_register_write s.
Proof.
  destruct sr as [[addr mask] shift]. apply write_register_kept.
Qed.

Lemma kept_reset_counter (s s' : lprf_local) :
  kept_by_register_write s' = kept_by_register_write s ->
  reset_counter s' = reset_counter s.
Proof. unfold kept_by_register_write. congruence. Qed.

(** A register write whose dispatch succeeds: the three bytes and the
    callback are recorded, the callback is stored in the message. *)
Lemma write_register_ok (s : lprf_local) (address value : Z)
    (complete : callback) :
  spi_async_rets s = [] -> (3 <= length (tx_buf s))%nat ->
  let s' := lprf_async_write_register s address value complete in
  trace s' = trace s ++ [register_write address value complete]
  /\ spi_message_complete s' = Some complete
  /\ spi_async_rets s' = []
  /\ length (tx_buf s') = length (tx_buf s)
  /\ rx_polling_active s' = rx_polling_active s
  /\ kept_by_register_write s' = kept_by_register_write s.
Proof.
  intros Hrets Hlen s'.
  assert (Hs' : s' = snd (spi_async_state_change_message
                            (tx_buf_regw s address value complete))).
  { unfold s', lprf_async_write_register. rewrite Hrets.
    apply write_register_from_nil. }
  split; [|split; [|split; [|split; [|split]]]].
  - rewrite Hs'.
    change (trace (snd (spi_async_state_change_message
                          (tx_buf_regw s address value complete))))
      with (trace s ++
            [spi_async_state_change
               (take 3 (<[2%nat := u8 value]>
                          (<[1%nat := u8 address]>
                             (<[0%nat := u8 REGW]> (tx_buf s)))))
               (Some complete) (hd 0 (spi_async_rets s))]).
    rewrite Hrets. unfold register_write. do 3 f_equal.
    destruct (tx_buf s) as [|b0 [|b1 [|b2 rest]]]; simpl in Hlen; try lia.
    reflexivity.
  - rewrite Hs'. reflexivity.
  - rewrite Hs'.
    change (spi_async_rets (snd (spi_async_state_change_message
                                   (tx_buf_regw s address value complete))))
      with (tl (spi_async_rets s)).
    now rewrite Hrets.
  - rewrite Hs'.
    change (tx_buf (snd (spi_async_state_change_message
                           (tx_buf_regw s address value complete))))
      with (<[2%nat := u8 value]>
              (<[1%nat := u8 address]> (<[0%nat := u8 REGW]> (tx_buf s)))).
    now rewrite !length_insert.
  - rewrite Hs'. reflexivity.
  - apply write_register_kept.
Qed.

Lemma write_subreg_ok (s : lprf_local) (cached_val : Z) (sr : subreg)
    (data : Z) (complete : callback) :
  spi_async_rets s = [] -> (3 <= length (tx_buf s))%nat ->
  let s' := lprf_async_write_subreg s cached_val sr data complete in
  trace s' = trace s ++ [subreg_write cached_val sr data complete]
  /\ spi_message_complete s' = Some complete
  /\ spi_async_rets s' = []
  /\ length (tx_buf s') = length (tx_buf s)
  /\ rx_polling_active s' = rx_polling_active s
  /\ kept_by_register_write s' = kept_by_register_write s.
Proof.
  intros Hrets Hlen. destruct sr as [[addr mask] shift].
  exact (write_register_ok s (u8 addr)
           (subreg_reg_val cached_val mask shift data) complete Hrets Hlen).
Qed.

End RegisterWrites.

(** ** The reset sequence *)

Section ResetSequence.
Context `{lprf_registers_h}.

Lemma bump_counter (s w : lprf_local) (counter : Z) (e : event)
    (complete : callback) :
  trace w = trace s ++ [e]
  /\ spi_message_complete w = Some complete
  /\ spi_async_rets w = []
  /\ length (tx_buf w) = length (tx_buf s)
  /\ rx_polling_active w = rx_polling_active s
  /\ kept_by_register_write w = kept_by_register_write s ->
  step_result s (set_reset_counter counter w) counter e complete.
Proof.
  intros (Ht & Hc & Hr & Hl & Hp & Hk).
  unfold kept_by_register_write in Hk.
  unfold step_result, sequence_state.
  change (trace (set_reset_counter counter w)) with (trace w).
  change (spi_message_complete (set_reset_counter counter w))
    with (spi_message_complete w).
  change (spi_async_rets (set_reset_counter counter w))
    with (spi_async_rets w).
  change (tx_buf (set_reset_counter counter w)) with (tx_buf w).
  change (rx_polling_active (set_reset_counter counter w))
    with (rx_polling_active w).
  change (to_state (set_reset_counter counter w)) with (to_state w).
  change (transition_in_progress (set_reset_counter counter w))
    with (transition_in_progress w).
  change (sm_main_value (set_reset_counter counter w))
    with (sm_main_value w).
  change (dem_main_value (set_reset_counter counter w))
    with (dem_main_value w).
  change (tx_skb (set_reset_counter counter w)) with (tx_skb w).
  repeat split; try assumption; congruence.
Qed.

(** One step towards RX with a dispatch that succeeds. *)
Lemma rx_resets_step_ok (s : lprf_local) (k : Z) :
  reset_counter s = k -> 0 <= k <= 5 ->
  (k = 4 -> to_state s <> STATE_CMD_TX) ->
  spi_async_rets s = [] -> (3 <= length (tx_buf s))%nat ->
  exists s',
    lprf_rx_resets s = Some s'
    /\ step_result s s' (if k =? 5 then 0 else k + 1) (reset_step_write s k)
         (if k =? 5 then lprf_rx_change_complete_cb else lprf_rx_resets_cb).
Proof.
  intros Hk Hrange Hrx Hrets Hlen.
  assert (Hcases : k = 0 \/ k = 1 \/ k = 2 \/ k = 3 \/ k = 4 \/ k = 5) by lia.
  unfold lprf_rx_resets. rewrite Hk.
  destruct Hcases as [-> | [-> | [-> | [-> | [-> | ->]]]]]; cbv beta iota zeta.
  - eexists. split; [reflexivity|].
    rewrite (kept_reset_counter s _ (write_register_kept _ _ _ _)), Hk.
    apply bump_counter. apply write_register_ok; assumption.
  - eexists. split; [reflexivity|].
    rewrite (kept_reset_counter s _ (write_register_kept _ _ _ _)), Hk.
    apply bump_counter. apply write_register_ok; assumption.
  - eexists. split; [reflexivity|].
    rewrite (kept_reset_counter s _ (write_subreg_kept _ _ _ _ _)), Hk.
    apply bump_counter. apply write_subreg_ok; assumption.
  - eexists. split; [reflexivity|].
    rewrite (kept_reset_counter s _ (write_subreg_kept _ _ _ _ _)), Hk.
    apply bump_counter. apply write_subreg_ok; assumption.
  - destruct (to_state s =? STATE_CMD_TX) eqn:E.
    { apply Z.eqb_eq in E. now destruct (Hrx eq_refl). }
    eexists. split; [reflexivity|].
    rewrite (kept_reset_counter s _ (write_subreg_kept _ _ _ _ _)), Hk.
    apply bump_counter. apply write_subreg_ok; assumption.
  - eexists. split; [reflexivity|].
    apply bump_counter. apply write_subreg_ok; assumption.
Qed.

(** The counter stays within 0..5 and either advances by one or returns to
    0, whatever [spi_async] returns; it returns to 0 only from step 5 or,
    with the target TX, from step 4. *)
Lemma rx_resets_counter (s s' : lprf_local) :
  0 <= reset_counter s <= 5 -> lprf_rx_resets s = Some s' ->
  0 <= reset_counter s' <= 5
  /\ (reset_counter s' = reset_counter s + 1
      \/ (reset_counter s' = 0
          /\ (reset_counter s = 5
              \/ (reset_counter s = 4 /\ to_state s = STATE_CMD_TX)))).
Proof.
  intros Hrange Hrun.
  assert (Hcases : reset_counter s = 0 \/ reset_counter s = 1
                   \/ reset_counter s = 2 \/ reset_counter s = 3
                   \/ reset_counter s = 4 \/ reset_counter s = 5) by lia.
  unfold lprf_rx_resets in Hrun.
  destruct Hcases as [Hk | [Hk | [Hk | [Hk | [Hk | Hk]]]]];
    rewrite Hk in Hrun |- *; cbv beta iota zeta in Hrun.
  - injection Hrun as <-.
    change (reset_counter (set_reset_counter ?v _)) with v.
    rewrite (kept_reset_counter s _ (write_register_kept _ _ _ _)), Hk.
    change (s32 (0 + 1)) with 1. lia.
  - injection Hrun as <-.
    change (reset_counter (set_reset_counter ?v _)) with v.
    rewrite (kept_reset_counter s _ (write_register_kept _ _ _ _)), Hk.
    change (s32 (1 + 1)) with 2. lia.
  - injection Hrun as <-.
    change (reset_counter (set_reset_counter ?v _)) with v.
    rewrite (kept_reset_counter s _ (write_subreg_kept _ _ _ _ _)), Hk.
    change (s32 (2 + 1)) with 3. lia.
  - injection Hrun as <-.
    change (reset_counter (set_reset_counter ?v _)) with v.
    rewrite (kept_reset_counter s _ (write_subreg_kept _ _ _ _ _)), Hk.
    change (s32 (3 + 1)) with 4. lia.
  - destruct (to_state s =? STATE_CMD_TX) eqn:E.
    + apply Z.eqb_eq in E.
      destruct (lprf_start_frame_write s) as [w|]; [|discriminate].
      injection Hrun as <-.
      change (reset_counter (set_reset_counter ?v _)) with v. lia.
    + injection Hrun as <-.
      change (reset_counter (set_reset_counter ?v _)) with v.
      rewrite (kept_reset_counter s _ (write_subreg_kept _ _ _ _ _)), Hk.
      change (s32 (4 + 1)) with 5. lia.
  - injection Hrun as <-.
    change (reset_counter (set_reset_counter ?v _)) with v. lia.
Qed.

End ResetSequence.

Section ResetSequenceRuns.
Context `{lprf_registers_h} `{linux_ieee802154_h}.

Lemma state_change_complete_callback (s : lprf_local) (cb : callback) :
  spi_message_complete s = Some cb ->
  state_change_complete s = run_callback cb s.
Proof. intros E. unfold state_change_complete. now rewrite E. Qed.

Lemma reset_step_write_same (s s' : lprf_local) (k : Z) :
  sm_main_value s' = sm_main_value s ->
  dem_main_value s' = dem_main_value s ->
  reset_step_write s' k = reset_step_write s k.
Proof. intros E1 E2. unfold reset_step_write. now rewrite E1, E2. Qed.

Lemma sequence_state_trans (s0 s s' : lprf_local) (k k' : Z)
    (cb cb' : callback) :
  sequence_state s0 s k cb -> sequence_state s s' k' cb' ->
  sequence_state s0 s' k' cb'.
Proof. unfold sequence_state. intuition congruence. Qed.

Lemma sequence_state_first (s s' : lprf_local) (k : Z) (e : event)
    (cb : callback) :
  step_result s s' k e cb -> sequence_state s s' k cb.
Proof. now intros [_ ?]. Qed.

(** The next step of a sequence under way: the completion of the pending
    write calls [lprf_rx_resets] again. *)
Lemma rx_resets_next (s0 s : lprf_local) (k : Z) :
  sequence_state s0 s k lprf_rx_resets_cb ->
  1 <= k <= 5 -> (k = 4 -> to_state s0 <> STATE_CMD_TX) ->
  (3 <= length (tx_buf s0))%nat ->
  exists s',
    state_change_complete s = Some s'
    /\ trace s' = trace s ++ [reset_step_write s0 k]
    /\ sequence_state s0 s' (if k =? 5 then 0 else k + 1)
         (if k =? 5 then lprf_rx_change_complete_cb else lprf_rx_resets_cb).
Proof.
  intros Hseq Hk Hrx Hlen.
  pose proof Hseq as (Hc & Hcb & Hr & Hl & Hp & Hto & Htip & Hsm & Hdem
                      & Hskb).
  destruct (rx_resets_step_ok s k Hc) as (s' & Hrun & Ht & Hstep);
    [lia | rewrite Hto; exact Hrx | exact Hr | lia |].
  exists s'. rewrite (state_change_complete_callback s _ Hcb).
  split; [exact Hrun|].
  rewrite (reset_step_write_same s0 s k Hsm Hdem) in Ht.
  split; [exact Ht|].
  exact (sequence_state_trans _ _ _ _ _ _ _ Hseq Hstep).
Qed.

(** Step 4 of a sequence towards TX: the frame is written and the counter
    returns to 0. *)
Lemma rx_resets_tx_step (s0 s : lprf_local) (skb : list Z) :
  sequence_state s0 s 4 lprf_rx_resets_cb ->
  to_state s0 = STATE_CMD_TX -> tx_skb s0 = Some skb ->
  PHY_HEADER_LENGTH = 1 ->
  (2 + length SYNC_HEADER + 1 + length skb <= length (tx_buf s0))%nat ->
  Z.of_nat (length (tx_buf s0)) < 2147483648 ->
  exists s',
    state_change_complete s = Some s'
    /\ reset_counter s' = 0
    /\ trace s'
       = trace s
         ++ [spi_async_state_change
               ([u8 FRMW;
                 u8 (Z.of_nat (length SYNC_HEADER) + 1
                     + Z.of_nat (length skb))]
                ++ map reverse_bit_order
                     (SYNC_HEADER ++ [u8 (Z.of_nat (length skb))] ++ skb))
               (Some lprf_frame_write_complete_cb) 0]
    /\ spi_message_complete s' = Some lprf_frame_write_complete_cb.
Proof.
  intros (Hc & Hcb & Hr & Hl & Hp & Hto & Htip & Hsm & Hdem & Hskb)
         Htx Hs0 Hphy Hfit Hint.
  rewrite (state_change_complete_callback s _ Hcb).
  change (run_callback lprf_rx_resets_cb s) with (lprf_rx_resets s).
  unfold lprf_rx_resets. rewrite Hc. cbv beta iota zeta.
  rewrite Hto, Htx, Z.eqb_refl.
  destruct (start_frame_write_ok s skb) as (w & Hrun & Ht & Hm & _);
    [congruence|exact Hphy|lia|lia|].
  rewrite Hrun. unfold mbind, option_bind.
  eexists. split; [reflexivity|].
  split; [reflexivity|].
  change (trace (set_reset_counter 0 w)) with (trace w).
  change (spi_message_complete (set_reset_counter 0 w))
    with (spi_message_complete w).
  rewrite Ht, Hr. split; [reflexivity|exact Hm].
Qed.

Lemma rx_change_complete_result (s : lprf_local) :
  reset_counter (lprf_rx_change_complete s) = reset_counter s
  /\ transition_in_progress (lprf_rx_change_complete s)
     = atomic_dec (transition_in_progress s)
  /\ trace (lprf_rx_change_complete s)
     = trace s ++ (if rx_polling_active s =? 0 then []
                   else [hrtimer_start RX_RX_INTERVAL]).
Proof.
  unfold lprf_rx_change_complete, lprf_start_polling_timer.
  change (rx_polling_active (set_transition_in_progress _ s))
    with (rx_polling_active s).
  destruct (rx_polling_active s =? 0); repeat split.
  symmetry. apply app_nil_r.
Qed.

(** C4. The counter of [lprf_rx_resets] stays within 0..5; a call advances it
    by one or returns it to 0, and it returns to 0 only from step 5 or, for
    the target TX, from step 4.  When every dispatch succeeds, a sequence
    towards RX that starts at 0 takes six calls, each started by the
    completion of the previous write: the counter reads 1, 2, 3, 4, 5, 0, the
    six writes are those of the table, the last one (SM_COMMAND <- NONE)
    completes into [lprf_rx_change_complete], which releases the guard and
    arms the timer.  A sequence towards TX takes five calls: the counter
    reads 1, 2, 3, 4, 0 and the fifth call writes the frame, to be completed
    by [__lprf_frame_write_complete]. *)
Theorem rx_resets_sequence (s : lprf_local) :
  (forall s', 0 <= reset_counter s <= 5 -> lprf_rx_resets s = Some s' ->
     0 <= reset_counter s' <= 5
     /\ (reset_counter s' = reset_counter s + 1
         \/ (reset_counter s' = 0
             /\ (reset_counter s = 5
                 \/ (reset_counter s = 4 /\ to_state s = STATE_CMD_TX)))))
  /\ (reset_counter s = 0 -> spi_async_rets s = [] ->
      (3 <= length (tx_buf s))%nat -> to_state s <> STATE_CMD_TX ->
      exists s1 s2 s3 s4 s5 s6,
        lprf_rx_resets s = Some s1
        /\ state_change_complete s1 = Some s2
        /\ state_change_complete s2 = Some s3
        /\ state_change_complete s3 = Some s4
        /\ state_change_complete s4 = Some s5
        /\ state_change_complete s5 = Some s6
        /\ map reset_counter [s1; s2; s3; s4; s5; s6] = [1; 2; 3; 4; 5; 0]
        /\ trace s6 = trace s ++ map (reset_step_write s) [0; 1; 2; 3; 4; 5]
        /\ state_change_complete s6 = Some (lprf_rx_change_complete s6)
        /\ reset_counter (lprf_rx_change_complete s6) = 0
        /\ transition_in_progress (lprf_rx_change_complete s6)
           = atomic_dec (transition_in_progress s)
        /\ trace (lprf_rx_change_complete s6)
           = trace s6 ++ (if rx_polling_active s =? 0 then []
                          else [hrtimer_start RX_RX_INTERVAL]))
  /\ (reset_counter s = 0 -> spi_async_rets s = [] ->
      to_state s = STATE_CMD_TX ->
      forall skb, tx_skb s = Some skb -> PHY_HEADER_LENGTH = 1 ->
      (2 + length SYNC_HEADER + 1 + length skb <= length (tx_buf s))%nat ->
      Z.of_nat (length (tx_buf s)) < 2147483648 ->
      exists s1 s2 s3 s4 s5,
        lprf_rx_resets s = Some s1
        /\ state_change_complete s1 = Some s2
        /\ state_change_complete s2 = Some s3
        /\ state_change_complete s3 = Some s4
        /\ state_change_complete s4 = Some s5
        /\ map reset_counter [s1; s2; s3; s4; s5] = [1; 2; 3; 4; 0]
        /\ trace s5
           = trace s ++ map (reset_step_write s) [0; 1; 2; 3]
             ++ [spi_async_state_change
                   ([u8 FRMW;
                     u8 (Z.of_nat (length SYNC_HEADER) + 1
                         + Z.of_nat (length skb))]
                    ++ map reverse_bit_order
                         (SYNC_HEADER ++ [u8 (Z.of_nat (length skb))] ++ skb))
                   (Some lprf_frame_write_complete_cb) 0]
        /\ spi_message_complete s5 = Some lprf_frame_write_complete_cb).
Proof.
  split; [intros s'; apply rx_resets_counter|]. split.
  - intros Hc Hr Hlen Hrx.
    destruct (rx_resets_step_ok s 0 Hc) as (s1 & R1 & T1 & S1);
      [lia|lia|exact Hr|exact Hlen|].
    destruct (rx_resets_next s s1 1 S1) as (s2 & R2 & T2 & S2);
      [lia|lia|exact Hlen|].
    destruct (rx_resets_next s s2 2 S2) as (s3 & R3 & T3 & S3);
      [lia|lia|exact Hlen|].
    destruct (rx_resets_next s s3 3 S3) as (s4 & R4 & T4 & S4);
      [lia|lia|exact Hlen|].
    destruct (rx_resets_next s s4 4 S4) as (s5 & R5 & T5 & S5);
      [lia|intros _; exact Hrx|exact Hlen|].
    destruct (rx_resets_next s s5 5 S5) as (s6 & R6 & T6 & S6);
      [lia|lia|exact Hlen|].
    exists s1, s2, s3, s4, s5, s6.
    destruct (rx_change_complete_result s6) as (C1 & C2 & C3).
    repeat (split; [assumption|]).
    split.
    { unfold map.
      rewrite (proj1 S1), (proj1 S2), (proj1 S3), (proj1 S4), (proj1 S5),
              (proj1 S6). reflexivity. }
    split.
    { rewrite T6, T5, T4, T3, T2, T1. rewrite <- !app_assoc. reflexivity. }
    destruct S6 as (Hc6 & Hcb6 & _ & _ & Hp6 & _ & Htip6 & _).
    split.
    { now rewrite (state_change_complete_callback s6 _ Hcb6). }
    split; [rewrite C1; exact Hc6|]. split; [now rewrite C2, Htip6|].
    rewrite C3, Hp6. reflexivity.
  - intros Hc Hr Htx skb Hskb Hphy Hfit Hint.
    assert (Hlen : (3 <= length (tx_buf s))%nat) by lia.
    destruct (rx_resets_step_ok s 0 Hc) as (s1 & R1 & T1 & S1);
      [lia|lia|exact Hr|exact Hlen|].
    destruct (rx_resets_next s s1 1 S1) as (s2 & R2 & T2 & S2);
      [lia|lia|exact Hlen|].
    destruct (rx_resets_next s s2 2 S2) as (s3 & R3 & T3 & S3);
      [lia|lia|exact Hlen|].
    destruct (rx_resets_next s s3 3 S3) as (s4 & R4 & T4 & S4);
      [lia|lia|exact Hlen|].
    destruct (rx_resets_tx_step s s4 skb S4 Htx Hskb Hphy Hfit Hint)
      as (s5 & R5 & C5 & T5 & M5).
    exists s1, s2, s3, s4, s5.
    repeat (split; [assumption|]).
    split.
    { unfold map.
      rewrite (proj1 S1), (proj1 S2), (proj1 S3), (proj1 S4), C5.
      reflexivity. }
    split; [|exact M5].
    rewrite T5, T4, T3, T2, T1. rewrite <- !app_assoc. reflexivity.
Qed.

End ResetSequenceRuns.

Lemma rx_resets_sequence_witness :
  (exists s1 s2 s3 s4 s5 s6,
     @lprf_rx_resets sample_registers idle_state = Some s1
     /\ @state_change_complete sample_registers linux_ieee802154 s1 = Some s2
     /\ @state_change_complete sample_registers linux_ieee802154 s2 = Some s3
     /\ @state_change_complete sample_registers linux_ieee802154 s3 = Some s4
     /\ @state_change_complete sample_registers linux_ieee802154 s4 = Some s5
     /\ @state_change_complete sample_registers linux_ieee802154 s5 = Some s6
     /\ map reset_counter [s1; s2; s3; s4; s5; s6] = [1; 2; 3; 4; 5; 0])
  /\ (exists s1 s2 s3 s4 s5,
        @lprf_rx_resets sample_registers
           (set_to_state 2 (set_tx_skb (Some [1; 2; 3]) idle_state))
        = Some s1
        /\ @state_change_complete sample_registers linux_ieee802154 s1
           = Some s2
        /\ @state_change_complete sample_registers linux_ieee802154 s2
           = Some s3
        /\ @state_change_complete sample_registers linux_ieee802154 s3
           = Some s4
        /\ @state_change_complete sample_registers linux_ieee802154 s4
           = Some s5
        /\ map reset_counter [s1; s2; s3; s4; s5] = [1; 2; 3; 4; 0]).
Proof.
  split.
  - destruct (@rx_resets_sequence sample_registers linux_ieee802154
                idle_state) as (_ & Hrx & _).
    destruct Hrx as (s1 & s2 & s3 & s4 & s5 & s6 & R1 & R2 & R3 & R4 & R5
                     & R6 & Hc & _).
    + reflexivity.
    + reflexivity.
    + vm_compute. lia.
    + discriminate.
    + exists s1, s2, s3, s4, s5, s6. repeat (split; [assumption|]). exact Hc.
  - destruct (@rx_resets_sequence sample_registers linux_ieee802154
                (set_to_state 2 (set_tx_skb (Some [1; 2; 3]) idle_state)))
      as (_ & _ & Htx).
    destruct (Htx eq_refl eq_refl eq_refl [1; 2; 3] eq_refl eq_refl)
      as (s1 & s2 & s3 & s4 & s5 & R1 & R2 & R3 & R4 & R5 & Hc & _).
    + vm_compute. lia.
    + vm_compute. reflexivity.
    + exists s1, s2, s3, s4, s5. repeat (split; [assumption|]). exact Hc.
Defined.

(** C4 as stated fails: a sequence towards RX does not always end at step 5
    with the counter back at 0.  When the dispatch of the first write
    fails, the message is handed to the error recovery: the completions
    that follow write the reset register twice and start the status poll
    that ends the recovery, and the completion of that poll finds the
    transition guard taken and does nothing.  [lprf_rx_resets] is not
    entered again, the command NONE is never written, the counter stays at
    1 and the guard taken for the sequence is not released. *)
Lemma rx_resets_sequence_counterexample :
  let s := set_spi_async_rets [-5]
             (set_to_state 3 (set_transition_in_progress 1 idle_state)) in
  exists s1 s2 s3 s4,
    @lprf_rx_resets sample_registers s = Some s1
    /\ spi_message_complete s1 = Some lprf_async_error_recover_cb
    /\ @state_change_complete sample_registers linux_ieee802154 s1 = Some s2
    /\ @state_change_complete sample_registers linux_ieee802154 s2 = Some s3
    /\ @lprf_phy_status_complete sample_registers s3 = Some s4
    /\ map reset_counter [s1; s2; s3; s4] = [1; 1; 1; 1]
    /\ map transition_in_progress [s1; s2; s3; s4] = [1; 1; 1; 1]
    /\ trace s4
       = [spi_async_state_change [0xc0; 0x80; 0x05]
            (Some lprf_rx_resets_cb) (-5);
          dev_err (-5); hrtimer_cancel;
          spi_async_state_change [0xc0; 0x00; 0x00]
            (Some lprf_async_error_recover_cb) 0;
          spi_async_state_change [0xc0; 0x00; 0xff]
            (Some lprf_async_error_recover_callback_cb) 0;
          spi_async_phy_status 0].
Proof.
  cbv zeta. eexists. eexists. eexists. eexists.
  split; [vm_compute; reflexivity|].
  split; [reflexivity|].
  split; [vm_compute; reflexivity|].
  split; [vm_compute; reflexivity|].
  split; [vm_compute; reflexivity|].
  split; [reflexivity|]. split; reflexivity.
Qed.

(** ** Encoding and decoding a frame *)

Section RoundTrip.
Context `{lprf_registers_h} `{linux_ieee802154_h}.

(** Reversing, inverting, reversing and inverting a byte returns it. *)
Lemma correct_inverted_reversed (b : Z) :
  is_byte b ->
  not8 (reverse_bit_order (not8 (reverse_bit_order b))) = b.
Proof.
  intros Hb. apply Z.eqb_eq.
  apply (forall_bytes
    (fun b => not8 (reverse_bit_order (not8 (reverse_bit_order b))) =? b));
    [|exact Hb].
  vm_compute. reflexivity.
Qed.

Lemma correct_inverted_reversed_list (bs : list Z) :
  Forall is_byte bs ->
  map (fun b => not8 (reverse_bit_order b))
      (map not8 (map reverse_bit_order bs)) = bs.
Proof.
  induction 1 as [|b bs Hb _ IH]; [reflexivity|].
  simpl. rewrite correct_inverted_reversed by exact Hb. now rewrite IH.
Qed.

(** [receive_frame] on a buffer that starts with a valid length byte and
    that many bytes. *)
Lemma receive_frame_spec (buffer payload rest : list Z) :
  Z.of_nat (length payload) < 256 ->
  ieee802154_is_valid_psdu_len (Z.of_nat (length payload)) = true ->
  buffer = (Z.of_nat (length payload) :: payload) ++ rest ->
  receive_frame true buffer (Z.of_nat (length payload) + 1)
  = Some (0, buffer, Some payload).
Proof.
  intros Hlt Hvalid ->. unfold receive_frame.
  change (rd ((Z.of_nat (length payload) :: payload) ++ rest) 0)
    with (Some (Z.of_nat (length payload))).
  unfold mbind, option_bind.
  rewrite u8_id by (unfold is_byte; lia). rewrite Hvalid.
  destruct (Z.of_nat (length payload) + 1 <? Z.of_nat (length payload)) eqn:E;
    [exfalso; zbool; lia|].
  simpl negb. cbv iota.
  unfold read_range.
  destruct (0 <=? 1) eqn:E1; [|discriminate].
  destruct (0 <=? Z.of_nat (length payload)) eqn:E2; [|exfalso; zbool; lia].
  destruct (1 + Z.of_nat (length payload)
            <=? Z.of_nat (length ((Z.of_nat (length payload) :: payload)
                                  ++ rest))) eqn:E3.
  2: { exfalso. zbool. rewrite length_app in E3. simpl in E3. lia. }
  simpl andb. cbv iota. rewrite Nat2Z.id.
  change (drop (Z.to_nat 1) ((Z.of_nat (length payload) :: payload) ++ rest))
    with (payload ++ rest).
  now rewrite take_app_length.
Qed.

End RoundTrip.

Section RoundTripTheorem.
Context `{lprf_registers_h} `{linux_ieee802154_h}.

(** C3 (amended). A payload whose length is a valid PSDU length (accepted by
    [ieee802154_is_valid_psdu_len]) is encoded by [lprf_start_frame_write]
    into the message [FRMW, frame length, sync header, payload length,
    payload], bit-reversed from the sync header on.  When the chip hands the
    frame back inverted, starting with the three preamble bytes in front of
    the delimiter 0xE5 ([k] leading bytes of the sync header consumed), then
    [preprocess_received_data] followed by [lprf_receive_ieee802154_data]
    delivers exactly the original payload. *)
Theorem frame_round_trip (s : lprf_local) (payload slack : list Z)
    (k : nat) (p0 p1 p2 : Z) :
  tx_skb s = Some payload -> PHY_HEADER_LENGTH = 1 ->
  (2 + length SYNC_HEADER + 1 + length payload <= length (tx_buf s))%nat ->
  Z.of_nat (length (tx_buf s)) < 2147483648 ->
  Forall is_byte SYNC_HEADER -> Forall is_byte payload ->
  Forall is_byte slack -> slack <> [] ->
  drop k SYNC_HEADER = [p0; p1; p2; 0xe5] ->
  Z.of_nat (length payload) < 256 ->
  ieee802154_is_valid_psdu_len (Z.of_nat (length payload)) = true ->
  let message :=
    [u8 FRMW;
     u8 (Z.of_nat (length SYNC_HEADER) + 1 + Z.of_nat (length payload))]
    ++ map reverse_bit_order
         (SYNC_HEADER ++ [u8 (Z.of_nat (length payload))] ++ payload) in
  let raw := map not8 (drop (2 + k) message) in
  exists s' data buffer,
    lprf_start_frame_write s = Some s'
    /\ trace s'
       = trace s ++ [spi_async_state_change message
                       (Some lprf_frame_write_complete_cb)
                       (hd 0 (spi_async_rets s))]
    /\ preprocess_received_data (raw ++ slack) (Z.of_nat (length raw))
       = Some data
    /\ lprf_receive_ieee802154_data true data (Z.of_nat (length raw))
       = Some (0, buffer, Some payload).
Proof.
  intros Hskb Hphy Hfit Hint Hsync Hpay Hslack Hsne Hdrop Hlt Hvalid
         message raw.
  destruct (start_frame_write_ok s payload Hskb Hphy Hfit Hint)
    as (s' & Hrun & Htrace & _).
  set (L := Z.of_nat (length payload)) in *.
  assert (HL : is_byte L) by (unfold is_byte, L; lia).
  assert (Hk : (k <= length SYNC_HEADER)%nat).
  { destruct (Nat.le_gt_cases k (length SYNC_HEADER)) as [?|Hgt]; [assumption|].
    rewrite drop_ge in Hdrop by lia. discriminate. }
  assert (Hp : is_byte p0 /\ is_byte p1 /\ is_byte p2).
  { assert (Hd : Forall is_byte (drop k SYNC_HEADER))
      by (now apply Forall_drop).
    rewrite Hdrop in Hd.
    inversion Hd as [|? ? Hb0 Hd1]; subst.
    inversion Hd1 as [|? ? Hb1 Hd2]; subst.
    inversion Hd2 as [|? ? Hb2 _]; subst. auto. }
  destruct Hp as (Hp0 & Hp1 & Hp2).
  assert (Hraw : raw = map not8 (map reverse_bit_order
                                   ([p0; p1; p2; 0xe5] ++ L :: payload))).
  { unfold raw, message.
    change (drop (2 + k) ([u8 FRMW; ?x] ++ ?l)) with (drop k l).
    rewrite skipn_map. do 2 f_equal.
    rewrite drop_app_le by exact Hk.
    rewrite Hdrop, (u8_id L HL). reflexivity. }
  assert (Hbytes : Forall is_byte ([p0; p1; p2; 0xe5] ++ L :: payload)).
  { repeat (apply Forall_cons; split; [assumption || (unfold is_byte; lia)|]).
    exact Hpay. }
  assert (Hrawlen : Z.of_nat (length raw) = 4 + (L + 1)).
  { rewrite Hraw, !length_map. simpl. unfold L. lia. }
  destruct (recover_unshifted p0 p1 p2 0 (L :: payload) slack)
    as (out & Hfind & Htake); try assumption.
  { unfold is_byte. lia. }
  { apply Forall_cons. split; assumption. }
  { discriminate. }
  { simpl length. fold L. unfold L in *. 
    assert (Z.of_nat (length (tx_buf s)) < 2147483648) by exact Hint. lia. }
  exists s', (([p0; p1; p2; 0xe5] ++ L :: payload) ++ slack), out.
  split; [exact Hrun|]. split; [exact Htrace|].
  split.
  { rewrite preprocess_received_data_spec, Hraw.
    rewrite correct_inverted_reversed_list by exact Hbytes. reflexivity. }
  unfold lprf_receive_ieee802154_data.
  rewrite Hrawlen.
  replace (Z.of_nat (length (L :: payload))) with (L + 1) in Hfind
    by (simpl length; unfold L; lia).
  rewrite Hfind. unfold mbind, option_bind. cbv beta iota.
  change (8 =? 0) with false. cbv iota.
  replace (L + 1) with (Z.of_nat (length payload) + 1) by reflexivity.
  apply (receive_frame_spec out payload (drop (length (L :: payload)) out));
    [exact Hlt|exact Hvalid|].
  rewrite <- (take_drop (length (L :: payload)) out) at 1.
  now rewrite Htake.
Qed.

End RoundTripTheorem.

Lemma frame_round_trip_witness :
  exists s' data buffer,
    @lprf_start_frame_write sample_registers
       (set_tx_skb (Some [1; 2; 3; 4; 5]) idle_state) = Some s'
    /\ preprocess_received_data
         (map not8 (map reverse_bit_order
                      [0x55; 0x55; 0x55; 0xe5; 5; 1; 2; 3; 4; 5]) ++ [0]) 10
       = Some data
    /\ @lprf_receive_ieee802154_data linux_ieee802154 true data 10
       = Some (0, buffer, Some [1; 2; 3; 4; 5]).
Proof.
  assert (B : forall x, 0 <= x < 256 -> is_byte x) by (intros; assumption).
  destruct (@frame_round_trip sample_registers linux_ieee802154
              (set_tx_skb (Some [1; 2; 3; 4; 5]) idle_state)
              [1; 2; 3; 4; 5] [0] 1 0x55 0x55 0x55)
    as (s' & data & buffer & H1 & _ & H3 & H4);
    try reflexivity.
  - vm_compute. lia.
  - repeat constructor; apply B; simpl; lia.
  - repeat constructor; apply B; lia.
  - repeat constructor; apply B; lia.
  - discriminate.
  - exists s', data, buffer. split; [exact H1|]. split; [exact H3|exact H4].
Defined.

(** C3 as stated fails for a payload of three bytes, a length within every
    upper limit of the frame length: 3 is not a valid PSDU length, the
    decoder replaces it by the MTU 127 and either drops the frame (no 127
    bytes were received) or, when the FIFO held that many bytes, delivers
    127 bytes instead of the three that were sent. *)
Lemma frame_round_trip_counterexample :
  exists s' message,
    @lprf_start_frame_write sample_registers
       (set_tx_skb (Some [1; 2; 3]) idle_state) = Some s'
    /\ trace s'
       = [spi_async_state_change message
            (Some lprf_frame_write_complete_cb) 0]
    /\ (exists data buffer,
          preprocess_received_data (map not8 (drop 3 message) ++ [0]) 8
          = Some data
          /\ @lprf_receive_ieee802154_data linux_ieee802154 true data 8
             = Some (-22, buffer, None))
    /\ (exists data buffer skb,
          preprocess_received_data
            (map not8 (drop 3 message) ++ replicate 200 255) 200
          = Some data
          /\ @lprf_receive_ieee802154_data linux_ieee802154 true data 200
             = Some (0, buffer, Some skb)
          /\ length skb = 127%nat).
Proof.
  eexists. eexists.
  split; [vm_compute; reflexivity|].
  split; [vm_compute; reflexivity|].
  split.
  - eexists. eexists.
    split; [vm_compute; reflexivity|].
    vm_compute. reflexivity.
  - eexists. eexists. eexists.
    split; [vm_compute; reflexivity|].
    split; [vm_compute; reflexivity|].
    vm_compute. reflexivity.
Qed.

(** ** Channel configuration *)

Section Channel.
Context `{lprf_registers_h}.

Lemma write_subreg_ok_ret (calls : list regmap_event) (sr : subreg)
    (data : Z) :
  lprf_write_subreg ([], calls) sr data
  = (0, ([], calls ++ [subreg_update sr data 0])).
Proof. reflexivity. Qed.

Lemma return_on_error_ok (st : regmap_state)
    (k : Z -> regmap_state -> Z * regmap_state) :
  RETURN_ON_ERROR (0, st) k = k 0 st.
Proof. reflexivity. Qed.

(** A channel page other than 0 is refused with [-EINVAL] before any
    register is touched. *)
Lemma set_channel_bad_page (st : regmap_state) (page channel : Z) :
  u8 page <> 0 ->
  lprf_set_ieee802154_channel st page channel = (- EINVAL, st).
Proof.
  intros Hp. unfold lprf_set_ieee802154_channel.
  destruct (u8 page =? 0) eqn:E; [apply Z.eqb_eq in E; contradiction|].
  reflexivity.
Qed.

(** With page 0 and all register writes succeeding the function returns 0
    for every channel: the value it returns is that of the last write. *)
Lemma set_channel_writes_succeed (channel : Z) :
  fst (lprf_set_ieee802154_channel ([], []) 0 channel) = 0.
Proof.
  unfold lprf_set_ieee802154_channel.
  change (u8 0 =? 0) with true. simpl negb. cbv iota.
  destruct (lprf_calculate_pll_values _ 1000000 0 0) as [[r1 i1] f1].
  repeat (rewrite write_subreg_ok_ret, return_on_error_ok;
          cbv beta iota zeta).
  destruct (lprf_calculate_pll_values _ 0 i1 f1) as [[r2 i2] f2].
  repeat (rewrite write_subreg_ok_ret, return_on_error_ok;
          cbv beta iota zeta).
  reflexivity.
Qed.

(** C7, the part that the code does not deliver.  For a channel outside
    [11,26] the centre frequency is 0 and [lprf_calculate_pll_values]
    returns [-EINVAL], but that value is overwritten by the result of the
    next register write: with all writes succeeding the function writes
    zero divisors to all PLL sub-registers, a zero VCO tune value, and
    returns 0. *)
Theorem set_channel_out_of_range_accepted (channel : Z) :
  is_byte channel -> ~ 11 <= channel <= 26 ->
  lprf_calculate_pll_values
    (u32 (s32 (calculate_rf_center_freq (u8 channel)))) 1000000 0 0
  = (- EINVAL, 0, 0)
  /\ lprf_set_ieee802154_channel ([], []) 0 channel
     = (0, ([], [subreg_update SR_RX_CHAN_INT 0 0;
                 subreg_update SR_RX_CHAN_FRAC_H (BIT24_H_BYTE 0) 0;
                 subreg_update SR_RX_CHAN_FRAC_M (BIT24_M_BYTE 0) 0;
                 subreg_update SR_RX_CHAN_FRAC_L (BIT24_L_BYTE 0) 0;
                 subreg_update SR_TX_CHAN_INT 0 0;
                 subreg_update SR_TX_CHAN_FRAC_H (BIT24_H_BYTE 0) 0;
                 subreg_update SR_TX_CHAN_FRAC_M (BIT24_M_BYTE 0) 0;
                 subreg_update SR_TX_CHAN_FRAC_L (BIT24_L_BYTE 0) 0;
                 subreg_update SR_PLL_VCO_TUNE 0 0])).
Proof.
  intros Hb Hc.
  assert (Hf : calculate_rf_center_freq (u8 channel) = 0).
  { rewrite u8_id by exact Hb.
    now apply rf_center_freq_out_of_range. }
  assert (Hv : calc_vco_tune (u8 channel) = 0).
  { rewrite u8_id by exact Hb. apply Z.eqb_eq.
    assert (Hall : ((11 <=? channel) && (channel <=? 26)
                    || (calc_vco_tune channel =? 0)) = true).
    { apply (forall_bytes
        (fun c => (11 <=? c) && (c <=? 26) || (calc_vco_tune c =? 0)));
        [|exact Hb].
      vm_compute. reflexivity. }
    destruct (11 <=? channel) eqn:E1; destruct (channel <=? 26) eqn:E2;
      simpl in Hall; try exact Hall.
    exfalso. zbool. lia. }
  split; [rewrite Hf; reflexivity|].
  unfold lprf_set_ieee802154_channel.
  change (u8 0 =? 0) with true. simpl negb. cbv iota.
  rewrite Hf, Hv.
  change (lprf_calculate_pll_values (u32 (s32 0)) 1000000 0 0)
    with (- EINVAL, 0, 0).
  change (lprf_calculate_pll_values (u32 (s32 0)) 0 0 0)
    with (- EINVAL, 0, 0).
  cbv beta iota zeta.
  repeat (rewrite write_subreg_ok_ret, return_on_error_ok;
          cbv beta iota zeta).
  reflexivity.
Qed.

End Channel.

Lemma set_channel_out_of_range_accepted_witness :
  fst (@lprf_set_ieee802154_channel sample_registers ([], []) 0 10) = 0
  /\ fst (@lprf_set_ieee802154_channel sample_registers ([], []) 0 27) = 0.
Proof.
  assert (B : forall x, 0 <= x < 256 -> is_byte x) by (intros; assumption).
  split.
  - destruct (@set_channel_out_of_range_accepted sample_registers 10)
      as (_ & ->); [apply B; lia|lia|reflexivity].
  - destruct (@set_channel_out_of_range_accepted sample_registers 27)
      as (_ & ->); [apply B; lia|lia|reflexivity].
Defined.

(** * Further properties of the driver code *)

(** ** Calculations *)

(** X1 (get_rx_length_counter).  When the data rate divides the chip clock
    of 32000 kHz and the frame length is at most 8388 bytes, the counter is
    exactly the number of chip clock cycles that [8 * frame_length + 4] bits
    take on the air, computed without overflow; a data rate of zero is a
    division by zero. *)
Theorem rx_length_counter_exact (kbit_rate frame_length : Z) :
  get_rx_length_counter 0 frame_length = None
  /\ (0 < kbit_rate -> 32000 mod kbit_rate = 0 ->
      0 <= frame_length <= 8388 ->
      get_rx_length_counter kbit_rate frame_length
      = Some ((8 * frame_length + 4) * (32000 / kbit_rate))
      /\ is_int (8 * frame_length * 32000)).
Proof.
  split; [reflexivity|].
  intros Hk Hdiv Hfl.
  assert (Hq : 32000 = kbit_rate * (32000 / kbit_rate)).
  { apply Z.div_exact; lia. }
  set (q := 32000 / kbit_rate) in *.
  assert (Hq0 : 0 < q <= 32000) by nia.
  unfold get_rx_length_counter.
  destruct (kbit_rate =? 0) eqn:E; [lia|].
  assert (H1 : s32 (8 * frame_length) = 8 * frame_length)
    by (apply s32_id; unfold is_int; lia).
  assert (H2 : s32 (8 * frame_length * 32000) = 8 * frame_length * 32000)
    by (apply s32_id; unfold is_int; lia).
  rewrite H1, H2.
  change (s32 (4 * 32000)) with 128000.
  rewrite !Z.quot_div_nonneg by lia.
  assert (H3 : 8 * frame_length * 32000 / kbit_rate = 8 * frame_length * q).
  { rewrite Hq at 1.
    replace (8 * frame_length * (kbit_rate * q))
      with (8 * frame_length * q * kbit_rate) by ring.
    apply Z.div_mul. lia. }
  assert (H4 : 128000 / kbit_rate = 4 * q).
  { replace 128000 with (4 * q * kbit_rate) by lia.
    apply Z.div_mul. lia. }
  rewrite H3, H4.
  split; [|unfold is_int; lia].
  f_equal.
  rewrite (s32_id (8 * frame_length * q)) by (unfold is_int; nia).
  rewrite (s32_id (4 * q)) by (unfold is_int; lia).
  rewrite s32_id by (unfold is_int; nia).
  ring.
Qed.

Lemma rx_length_counter_exact_witness :
  get_rx_length_counter KBIT_RATE FRAME_LENGTH = Some 12864.
Proof.
  destruct (rx_length_counter_exact KBIT_RATE FRAME_LENGTH) as [_ H].
  destruct H as [H _]; [reflexivity|reflexivity|unfold FRAME_LENGTH; lia|].
  exact H.
Defined.

Lemma land_byte_field (c k : Z) :
  0 <= k ->
  Z.shiftr (Z.land c (Z.shiftl 255 k)) k = (c / 2 ^ k) mod 256.
Proof.
  intros Hk.
  rewrite Z.shiftr_land, Z.shiftr_shiftl_l, Z.sub_diag, Z.shiftl_0_r by lia.
  change 255 with (Z.ones 8).
  rewrite Z.land_ones, Z.shiftr_div_pow2 by lia.
  reflexivity.
Qed.

Lemma lor_shiftl_add (hi lo k : Z) :
  0 <= k -> 0 <= lo < 2 ^ k -> Z.lor (Z.shiftl hi k) lo = hi * 2 ^ k + lo.
Proof.
  intros Hk Hlo.
  rewrite Z.shiftl_mul_pow2 by lia.
  symmetry. apply Z.add_nocarry_lor.
  apply Z.bits_inj'. intros n Hn.
  rewrite Z.land_spec, Z.bits_0.
  destruct (Z.lt_ge_cases n k).
  - rewrite Z.mul_pow2_bits_low by lia. reflexivity.
  - destruct (Z.eq_dec lo 0) as [->|Hne].
    + rewrite Z.bits_0. apply andb_false_r.
    + rewrite (Z.bits_above_log2 lo); [apply andb_false_r|lia|].
      apply Z.lt_le_trans with k; [|lia].
      apply Z.log2_lt_pow2; lia.
Qed.

(** X2 (COUNTER_H_BYTE, COUNTER_M_BYTE, COUNTER_L_BYTE).  The three macros
    cut a counter into bytes: each result is a byte, and together they carry
    the low 24 bits of the counter, so that a counter below 2^24 is
    recovered from its three bytes. *)
Theorem counter_bytes_round_trip (c : Z) :
  is_byte (COUNTER_H_BYTE c) /\ is_byte (COUNTER_M_BYTE c)
  /\ is_byte (COUNTER_L_BYTE c)
  /\ COUNTER_H_BYTE c * 65536 + COUNTER_M_BYTE c * 256 + COUNTER_L_BYTE c
     = c mod 16777216
  /\ (0 <= c < 16777216 ->
      Z.lor (Z.shiftl (COUNTER_H_BYTE c) 16)
            (Z.lor (Z.shiftl (COUNTER_M_BYTE c) 8) (COUNTER_L_BYTE c)) = c).
Proof.
  assert (HH : COUNTER_H_BYTE c = (c / 65536) mod 256)
    by (apply (land_byte_field c 16); lia).
  assert (HM : COUNTER_M_BYTE c = (c / 256) mod 256)
    by (apply (land_byte_field c 8); lia).
  assert (HL : COUNTER_L_BYTE c = c mod 256).
  { unfold COUNTER_L_BYTE. change 255 with (Z.ones 8).
    now rewrite Z.land_ones by lia. }
  assert (Hsum : COUNTER_H_BYTE c * 65536 + COUNTER_M_BYTE c * 256
                 + COUNTER_L_BYTE c = c mod 16777216).
  { rewrite HH, HM, HL.
    pose proof (Z.div_mod c 256 ltac:(lia)) as D1.
    pose proof (Z.div_mod (c / 256) 256 ltac:(lia)) as D2.
    pose proof (Z.div_mod (c / 256 / 256) 256 ltac:(lia)) as D3.
    pose proof (Z.mod_pos_bound c 256 ltac:(lia)).
    pose proof (Z.mod_pos_bound (c / 256) 256 ltac:(lia)).
    pose proof (Z.mod_pos_bound (c / 256 / 256) 256 ltac:(lia)).
    replace (c / 65536) with (c / 256 / 256)
      by (rewrite Z.div_div by lia; reflexivity).
    apply Z.mod_unique with (q := c / 256 / 256 / 256); lia. }
  assert (BH : is_byte (COUNTER_H_BYTE c))
    by (rewrite HH; apply Z.mod_pos_bound; lia).
  assert (BM : is_byte (COUNTER_M_BYTE c))
    by (rewrite HM; apply Z.mod_pos_bound; lia).
  assert (BL : is_byte (COUNTER_L_BYTE c))
    by (rewrite HL; apply Z.mod_pos_bound; lia).
  repeat (split; [assumption|]).
  intros Hc.
  rewrite Z.mod_small in Hsum by lia.
  unfold is_byte in *.
  rewrite (lor_shiftl_add _ _ 8) by (change (2 ^ 8) with 256; lia).
  rewrite (lor_shiftl_add _ _ 16) by (change (2 ^ 8) with 256;
                                        change (2 ^ 16) with 65536; lia).
  change (2 ^ 8) with 256. change (2 ^ 16) with 65536. lia.
Qed.

(** X3 (calc_vco_tune).  The tune value is zero exactly for the channels
    outside 11..26; for a channel of the 2.4 GHz band it lies between 204
    and 237, so it fits the 8-bit tune register, and it never increases with
    the channel number. *)
Theorem vco_tune_table (channel channel' : Z) :
  (calc_vco_tune channel = 0 <-> ~ 11 <= channel <= 26)
  /\ (11 <= channel <= 26 -> 204 <= calc_vco_tune channel <= 237)
  /\ (11 <= channel -> channel <= channel' -> channel' <= 26 ->
      calc_vco_tune channel' <= calc_vco_tune channel).
Proof.
  assert (Hin : forall c, 11 <= c <= 26 -> 204 <= calc_vco_tune c <= 237).
  { intros c Hc. apply channel_cases in Hc. simpl in Hc.
    repeat (destruct Hc as [<-|Hc]; [simpl; lia|]). destruct Hc. }
  assert (Hout : forall c, ~ 11 <= c <= 26 -> calc_vco_tune c = 0).
  { intros c Hc. destruct c as [|p|p]; try reflexivity.
    do 6 (try (destruct p as [p|p|]; try reflexivity; try lia)). }
  split; [split|split].
  - intros H0 Hc. specialize (Hin _ Hc). lia.
  - apply Hout.
  - apply Hin.
  - intros H1 H2 H3.
    assert (Hc : 11 <= channel <= 26) by lia.
    assert (Hc' : 11 <= channel' <= 26) by lia.
    apply channel_cases in Hc, Hc'. simpl in Hc, Hc'.
    repeat (destruct Hc as [<-|Hc];
            [repeat (destruct Hc' as [<-|Hc']; [simpl; lia|]);
             destruct Hc'|]).
    destruct Hc.
Qed.

Lemma vco_tune_table_witness :
  204 <= calc_vco_tune 26 <= 237 /\ calc_vco_tune 26 <= calc_vco_tune 11.
Proof.
  destruct (vco_tune_table 11 26) as (_ & _ & H).
  destruct (vco_tune_table 26 26) as (_ & H' & _).
  split; [apply H'; lia|apply H; lia].
Defined.

Lemma counter_bytes_round_trip_witness :
  Z.lor (Z.shiftl (COUNTER_H_BYTE 12864) 16)
        (Z.lor (Z.shiftl (COUNTER_M_BYTE 12864) 8) (COUNTER_L_BYTE 12864))
  = 12864.
Proof.
  destruct (counter_bytes_round_trip 12864) as (_ & _ & _ & _ & H).
  apply H. lia.
Defined.

(** X4 (lprf_calculate_pll_values).  For every RF frequency above 2 GHz and
    every IF frequency not above it, the function succeeds without any
    32-bit wrap-around: the integer divider is at most 178, and the
    fractional value computed with the factor 228/3479 is the value of the
    exact formula [(f_lo % 16MHz) * 65536 / 1MHz] or exceeds it by at most 2,
    and fits into 24 bits.  At or below 2 GHz the function returns -EINVAL
    and leaves both results as they were. *)
Theorem pll_values_accuracy (rf_frequency if_frequency int_val frac_val : Z) :
  (2000000000 < rf_frequency < 4294967296 ->
   0 <= if_frequency <= rf_frequency ->
   let f_lo := (rf_frequency - if_frequency) / 3 * 2 in
   let frac := (f_lo mod 16000000) * 228 / 3479 in
   lprf_calculate_pll_values rf_frequency if_frequency int_val frac_val
   = (0, f_lo / 16000000, frac)
   /\ (f_lo mod 16000000) * 228 < 4294967296
   /\ 0 <= f_lo / 16000000 <= 178
   /\ pll_frac_exact f_lo <= frac <= pll_frac_exact f_lo + 2
   /\ 0 <= frac < 16777216)
  /\ (rf_frequency <= 2000000000 ->
      lprf_calculate_pll_values rf_frequency if_frequency int_val frac_val
      = (- EINVAL, int_val, frac_val)).
Proof.
  split.
  - intros Hrf Hif f_lo frac.
    assert (Hd : 0 <= (rf_frequency - if_frequency) / 3 <= 1431655765).
    { split; [apply Z.div_pos; lia|].
      apply Z.div_le_upper_bound; lia. }
    assert (Hlo : 0 <= f_lo <= 2863311530) by (unfold f_lo; lia).
    assert (Hr : 0 <= f_lo mod 16000000 < 16000000)
      by (apply Z.mod_pos_bound; lia).
    assert (Hint : 0 <= f_lo / 16000000 <= 178).
    { split; [apply Z.div_pos; lia|].
      apply Z.lt_succ_r. apply Z.div_lt_upper_bound; lia. }
    assert (Hfrac : 0 <= frac <= 1048577).
    { unfold frac. split; [apply Z.div_pos; lia|].
      apply Z.lt_succ_r. apply Z.div_lt_upper_bound; lia. }
    assert (Hrun : lprf_calculate_pll_values rf_frequency if_frequency
                     int_val frac_val = (0, f_lo / 16000000, frac)).
    { unfold lprf_calculate_pll_values, pll_f_lo.
      destruct (2000000000 <? rf_frequency) eqn:E; [|lia].
      rewrite (u32_id (rf_frequency - if_frequency)) by lia.
      rewrite (u32_id ((rf_frequency - if_frequency) / 3)) by lia.
      fold f_lo. rewrite (u32_id f_lo) by lia.
      rewrite (s32_id (f_lo / 16000000)) by (unfold is_int; lia).
      rewrite (u32_id (f_lo mod 16000000 * 228)) by lia.
      fold frac. rewrite (u32_id frac) by lia.
      change (u32 0) with 0. rewrite Z.add_0_r.
      rewrite (u32_id frac) by lia.
      rewrite (s32_id frac) by (unfold is_int; lia).
      reflexivity. }
    split; [exact Hrun|]. split; [lia|]. split; [exact Hint|].
    split; [|lia].
    unfold pll_frac_exact, frac.
    set (r := f_lo mod 16000000) in *.
    pose proof (Z.div_mod (r * 228) 3479 ltac:(lia)) as D1.
    pose proof (Z.mod_pos_bound (r * 228) 3479 ltac:(lia)) as B1.
    pose proof (Z.div_mod (r * 65536) 1000000 ltac:(lia)) as D2.
    pose proof (Z.mod_pos_bound (r * 65536) 1000000 ltac:(lia)) as B2.
    lia.
  - intros Hrf. unfold lprf_calculate_pll_values.
    destruct (2000000000 <? rf_frequency) eqn:E; [lia|reflexivity].
Qed.

Lemma pll_values_accuracy_witness :
  lprf_calculate_pll_values 2405000000 1000000 0 0 = (0, 100, 174762)
  /\ pll_frac_exact 1602666666 <= 174762 <= pll_frac_exact 1602666666 + 2
  /\ lprf_calculate_pll_values 868000000 0 7 9 = (-22, 7, 9).
Proof.
  destruct (pll_values_accuracy 2405000000 1000000 0 0) as [H _].
  destruct H as (H1 & _ & _ & H2 & _); [lia|lia|].
  destruct (pll_values_accuracy 868000000 0 7 9) as [_ H3].
  split; [exact H1|]. split; [exact H2|]. apply H3. lia.
Defined.

(** ** Status byte *)

(** X5 (PHY_SM_STATUS, PHY_SM_ENABLE, PHY_FIFO_EMPTY, PHY_FIFO_FULL).  The
    four macros read disjoint fields of the status byte: a three-bit state
    and three one-bit flags, which together with the two low bits make up
    the whole byte. *)
Theorem phy_status_fields (phy_status : Z) :
  is_byte phy_status ->
  0 <= PHY_SM_STATUS phy_status <= 7
  /\ 0 <= PHY_SM_ENABLE phy_status <= 1
  /\ 0 <= PHY_FIFO_EMPTY phy_status <= 1
  /\ 0 <= PHY_FIFO_FULL phy_status <= 1
  /\ phy_status
     = 32 * PHY_SM_STATUS phy_status + 16 * PHY_SM_ENABLE phy_status
       + 8 * PHY_FIFO_EMPTY phy_status + 4 * PHY_FIFO_FULL phy_status
       + phy_status mod 4.
Proof.
  intros Hb.
  pose (P := fun b =>
    (0 <=? PHY_SM_STATUS b) && (PHY_SM_STATUS b <=? 7)
    && (0 <=? PHY_SM_ENABLE b) && (PHY_SM_ENABLE b <=? 1)
    && (0 <=? PHY_FIFO_EMPTY b) && (PHY_FIFO_EMPTY b <=? 1)
    && (0 <=? PHY_FIFO_FULL b) && (PHY_FIFO_FULL b <=? 1)
    && (b =? 32 * PHY_SM_STATUS b + 16 * PHY_SM_ENABLE b
              + 8 * PHY_FIFO_EMPTY b + 4 * PHY_FIFO_FULL b + b mod 4)).
  assert (H : P phy_status = true).
  { apply (forall_bytes P); [|exact Hb]. vm_compute. reflexivity. }
  unfold P in H.
  repeat (apply andb_prop in H; destruct H as [H ?]).
  zbool. lia.
Qed.

Lemma phy_status_fields_witness :
  0 <= PHY_SM_STATUS 0x48 <= 7
  /\ 0 <= PHY_SM_ENABLE 0x48 <= 1
  /\ 0 <= PHY_FIFO_EMPTY 0x48 <= 1
  /\ 0 <= PHY_FIFO_FULL 0x48 <= 1
  /\ 0x48
     = 32 * PHY_SM_STATUS 0x48 + 16 * PHY_SM_ENABLE 0x48
       + 8 * PHY_FIFO_EMPTY 0x48 + 4 * PHY_FIFO_FULL 0x48 + 0x48 mod 4.
Proof.
  apply (phy_status_fields 0x48). unfold is_byte. lia.
Defined.

(** ** Bit comparison *)

Lemma count_equal_bits_range (x y : Z) (n : nat) :
  0 <= count_equal_bits x y n <= Z.of_nat n.
Proof.
  induction n as [|n IH]; [simpl; lia|].
  rewrite Nat2Z.inj_succ. simpl count_equal_bits.
  destruct (Bool.eqb _ _); lia.
Qed.

Lemma count_equal_bits_sym (x y : Z) (n : nat) :
  count_equal_bits x y n = count_equal_bits y x n.
Proof.
  induction n as [|n IH]; [reflexivity|].
  simpl. rewrite IH.
  now destruct (Z.testbit x (Z.of_nat n)), (Z.testbit y (Z.of_nat n)).
Qed.

Lemma count_equal_bits_refl (x : Z) (n : nat) :
  count_equal_bits x x n = Z.of_nat n.
Proof.
  induction n as [|n IH]; [reflexivity|].
  rewrite Nat2Z.inj_succ. simpl. rewrite IH, Bool.eqb_reflx. lia.
Qed.

(** X6 (number_of_equal_bits).  For a width of at most 32 bits the count
    lies between 0 and the width, does not depend on the order of the two
    words and is the full width when they are the same word.  On bytes, 8
    equal bits mean the same byte and 7 equal bits mean that exactly one bit
    differs: this is the tolerance of the delimiter search. *)
Theorem equal_bits_count (x y n a b : Z) :
  (0 <= n <= 32 ->
   0 <= number_of_equal_bits x y n <= n
   /\ number_of_equal_bits x y n = number_of_equal_bits y x n
   /\ number_of_equal_bits x x n = n)
  /\ (is_byte a -> is_byte b ->
      (number_of_equal_bits a b 8 = 8 <-> a = b)
      /\ (number_of_equal_bits a b 8 = 7
          <-> exists k, 0 <= k < 8 /\ a = flip_bit b k)).
Proof.
  split.
  - intros Hn.
    rewrite <- (Z2Nat.id n) by lia.
    assert (Hle : (Z.to_nat n <= 32)%nat) by lia.
    rewrite !number_of_equal_bits_count by exact Hle.
    pose proof (count_equal_bits_range x y (Z.to_nat n)).
    split; [assumption|].
    split; [apply count_equal_bits_sym|apply count_equal_bits_refl].
  - intros Ha Hb.
    pose (P := fun a b =>
      Bool.eqb (number_of_equal_bits a b 8 =? 8) (a =? b)
      && Bool.eqb (number_of_equal_bits a b 8 =? 7)
           (existsb (fun k => a =? flip_bit b k) [0; 1; 2; 3; 4; 5; 6; 7])).
    assert (H : P a b = true).
    { apply (forall_bytes2 P); [|exact Ha|exact Hb]. vm_compute. reflexivity. }
    unfold P in H. apply andb_prop in H. destruct H as [H8 H7].
    apply Bool.eqb_prop in H8, H7.
    split.
    + rewrite <- Z.eqb_eq, H8. apply Z.eqb_eq.
    + rewrite <- Z.eqb_eq, H7. rewrite existsb_exists. split.
      * intros (k & Hin & Hk). exists k. apply Z.eqb_eq in Hk.
        split; [|exact Hk]. simpl in Hin.
        repeat (destruct Hin as [<-|Hin]; [lia|]). destruct Hin.
      * intros (k & Hk & Heq). exists k. split; [|now apply Z.eqb_eq].
        simpl. lia.
Qed.

Lemma equal_bits_count_witness :
  number_of_equal_bits 0xe5 0xe4 8 = 7
  /\ number_of_equal_bits 0xe5 0x1a 8 = number_of_equal_bits 0x1a 0xe5 8.
Proof.
  destruct (equal_bits_count 0xe5 0x1a 8 0xe5 0xe4) as [H1 H2].
  destruct H1 as (_ & Hsym & _); [lia|].
  destruct H2 as (_ & H7); [unfold is_byte; lia|unfold is_byte; lia|].
  split; [|exact Hsym].
  apply H7. exists 0. split; [lia|reflexivity].
Defined.

(** ** Sub-register values *)

Lemma byte_bits_high (b n : Z) : is_byte b -> 8 <= n -> Z.testbit b n = false.
Proof.
  intros Hb Hn. destruct (Z.eq_dec b 0) as [->|Hne]; [apply Z.bits_0|].
  apply Z.bits_above_log2; [unfold is_byte in Hb; lia|].
  apply Z.lt_le_trans with 8; [|exact Hn].
  apply Z.log2_lt_pow2; unfold is_byte in Hb; [lia|].
  change (2 ^ 8) with 256. lia.
Qed.

Lemma u8_bits (x n : Z) :
  0 <= n -> Z.testbit (u8 x) n = (n <? 8) && Z.testbit x n.
Proof.
  intros Hn. unfold u8. change 256 with (2 ^ 8).
  destruct (n <? 8) eqn:E; zbool.
  - now rewrite Z.mod_pow2_bits_low by lia.
  - now rewrite Z.mod_pow2_bits_high by lia.
Qed.

(** X7 (lprf_async_write_subreg).  When the new field value, shifted to its
    position, lies within the mask of the sub-register, the register value
    that is written carries the new value in the field and the cached value
    everywhere else. *)
Theorem async_subreg_value (cached_val mask shift data : Z) :
  is_byte cached_val -> is_byte mask -> is_byte data -> 0 <= shift < 8 ->
  Z.land (Z.shiftl data shift) (Z.lnot mask) = 0 ->
  let reg_val := subreg_reg_val cached_val mask shift data in
  is_byte reg_val
  /\ Z.land reg_val mask = Z.shiftl data shift
  /\ Z.land reg_val (Z.lnot mask) = Z.land cached_val (Z.lnot mask)
  /\ Z.shiftr (Z.land reg_val mask) shift = data.
Proof.
  intros Hc Hm Hd Hs Hfit reg_val.
  assert (Hbit : forall n, 0 <= n ->
            Z.testbit reg_val n
            = (Z.testbit cached_val n && negb (Z.testbit mask n))
              || (Z.testbit (Z.shiftl data shift) n && Z.testbit mask n)).
  { intros n Hn. unfold reg_val, subreg_reg_val.
    rewrite !(u8_id cached_val), !(u8_id mask), !(u8_id data) by assumption.
    rewrite (u8_id shift) by (unfold is_byte; lia).
    rewrite u8_bits, Z.lor_spec, Z.land_spec, Z.lnot_spec by lia.
    assert (Hf : Z.testbit (Z.land (Z.shiftl data shift) (Z.lnot mask)) n
                 = false) by (rewrite Hfit; apply Z.bits_0).
    rewrite Z.land_spec, Z.lnot_spec in Hf by lia.
    destruct (n <? 8) eqn:E; zbool.
    - destruct (Z.testbit cached_val n), (Z.testbit mask n),
        (Z.testbit (Z.shiftl data shift) n); simpl in *; congruence.
    - rewrite (byte_bits_high mask n Hm E) in *.
      rewrite (byte_bits_high cached_val n Hc E).
      destruct (Z.testbit (Z.shiftl data shift) n); simpl in *; congruence. }
  assert (Hmaskd : Z.land reg_val mask = Z.shiftl data shift).
  { apply Z.bits_inj'. intros n Hn.
    rewrite Z.land_spec, Hbit by lia.
    assert (Hf : Z.testbit (Z.land (Z.shiftl data shift) (Z.lnot mask)) n
                 = false) by (rewrite Hfit; apply Z.bits_0).
    rewrite Z.land_spec, Z.lnot_spec in Hf by lia.
    destruct (Z.testbit cached_val n), (Z.testbit mask n),
      (Z.testbit (Z.shiftl data shift) n); simpl in *; congruence. }
  split; [apply u8_byte|].
  split; [exact Hmaskd|].
  split.
  - apply Z.bits_inj'. intros n Hn.
    rewrite !Z.land_spec, Z.lnot_spec, Hbit by lia.
    destruct (Z.testbit cached_val n), (Z.testbit mask n),
      (Z.testbit (Z.shiftl data shift) n); reflexivity.
  - rewrite Hmaskd. rewrite Z.shiftr_shiftl_l by lia.
    now rewrite Z.sub_diag, Z.shiftl_0_r.
Qed.

Lemma async_subreg_value_witness :
  subreg_reg_val 0x0f 0x70 4 3 = 0x3f
  /\ Z.land (subreg_reg_val 0x0f 0x70 4 3) (Z.lnot 0x70)
     = Z.land 0x0f (Z.lnot 0x70).
Proof.
  assert (B : forall x, 0 <= x < 256 -> is_byte x) by (intros; assumption).
  destruct (async_subreg_value 0x0f 0x70 4 3) as (_ & _ & H & _);
    try (apply B; lia); try lia; try reflexivity.
  split; [reflexivity|exact H].
Defined.

(** ** Receive pre-processing *)

Lemma preprocess_list_twice (l : list Z) :
  Forall is_byte l ->
  map (fun b => not8 (reverse_bit_order b))
      (map (fun b => not8 (reverse_bit_order b)) l) = l.
Proof.
  induction 1 as [|b l Hb _ IH]; [reflexivity|].
  simpl. now rewrite correct_inverted_reversed, IH.
Qed.

Lemma preprocess_loop_overrun (n : nat) (i : Z) (data : list Z) :
  0 <= i <= Z.of_nat (length data) ->
  Z.of_nat (length data) < i + Z.of_nat n ->
  preprocess_loop n i data = None.
Proof.
  revert i data. induction n as [|n IH]; intros i data Hi Hlen; [lia|].
  simpl preprocess_loop.
  destruct (Z_lt_le_dec i (Z.of_nat (length data))) as [Hin|Hout].
  - destruct (rd_in_range data i ltac:(lia)) as [v Hv].
    rewrite Hv. cbn [mbind option_bind].
    rewrite wr_in_range by lia. cbn [mbind option_bind].
    rewrite rd_insert_eq by lia. cbn [mbind option_bind].
    rewrite wr_in_range by (rewrite length_insert; lia).
    cbn [mbind option_bind].
    apply IH; rewrite !length_insert; lia.
  - rewrite rd_lookup by lia.
    rewrite lookup_ge_None_2 by lia. reflexivity.
Qed.

(** X8 (preprocess_received_data).  Reversing and inverting the first
    [length] bytes is its own inverse and leaves the bytes behind them
    alone; a length of zero or less changes nothing, and a length beyond the
    storage of the buffer runs over its end. *)
Theorem preprocess_received_data_twice (data : list Z) (length : Z) :
  (Forall is_byte data -> 0 <= length <= Z.of_nat (List.length data) ->
   exists data',
     preprocess_received_data data length = Some data'
     /\ preprocess_received_data data' length = Some data
     /\ List.length data' = List.length data
     /\ drop (Z.to_nat length) data' = drop (Z.to_nat length) data)
  /\ (length <= 0 -> preprocess_received_data data length = Some data)
  /\ (Z.of_nat (List.length data) < length ->
      preprocess_received_data data length = None).
Proof.
  split; [|split].
  - intros Hb Hlen.
    set (n := Z.to_nat length).
    assert (Hn : (n <= List.length data)%nat) by lia.
    assert (Hsplit : data = take n data ++ drop n data)
      by (symmetry; apply take_drop).
    assert (Hl : length = Z.of_nat (List.length (take n data))).
    { rewrite length_take. lia. }
    set (f := fun b => not8 (reverse_bit_order b)).
    exists (map f (take n data) ++ drop n data).
    split.
    { rewrite Hsplit at 1. rewrite Hl at 1.
      apply preprocess_received_data_spec. }
    split.
    { replace length with (Z.of_nat (List.length (map f (take n data))))
        by (rewrite length_map; lia).
      rewrite preprocess_received_data_spec.
      f_equal. rewrite Hsplit at 3. f_equal.
      apply preprocess_list_twice. now apply Forall_take. }
    split.
    { rewrite length_app, length_map, <- length_app, take_drop. reflexivity. }
    rewrite drop_app_length'; [reflexivity|].
    rewrite length_map, length_take. lia.
  - intros Hle. unfold preprocess_received_data.
    replace (Z.to_nat length) with 0%nat by lia. reflexivity.
  - intros Hgt. unfold preprocess_received_data.
    apply preprocess_loop_overrun; lia.
Qed.

Lemma preprocess_received_data_twice_witness :
  exists data',
    preprocess_received_data [0x58; 0x55; 0x01] 2 = Some data'
    /\ preprocess_received_data data' 2 = Some [0x58; 0x55; 0x01]
    /\ List.length data' = 3%nat
    /\ drop 2 data' = [0x01].
Proof.
  destruct (preprocess_received_data_twice [0x58; 0x55; 0x01] 2) as [H _].
  apply H.
  - repeat constructor; unfold is_byte; lia.
  - simpl. lia.
Defined.

(** ** Transmit power and channel mask *)

Section TxPower.
Context `{lprf_registers_h} `{lprf_registers_h_more}.

Lemma set_tx_power_loop_miss (tx_powers : list Z) (i power : Z)
    (st : regmap_state) :
  ~ In power tx_powers ->
  set_tx_power_loop tx_powers i power st = (- EINVAL, st).
Proof.
  revert i. induction tx_powers as [|p l IH]; intros i Hin; [reflexivity|].
  simpl. destruct (p =? power) eqn:E; zbool.
  - exfalso. apply Hin. now left.
  - apply IH. intros Hl. apply Hin. now right.
Qed.

Lemma set_tx_power_loop_hit (pre post : list Z) (i power : Z)
    (st : regmap_state) :
  ~ In power pre -> is_int (i + Z.of_nat (length pre)) -> 0 <= i ->
  set_tx_power_loop (pre ++ power :: post) i power st
  = lprf_write_subreg st SR_TX_PWR_CTRL (i + Z.of_nat (length pre)).
Proof.
  revert i. induction pre as [|p l IH]; intros i Hin Hi Hi0.
  - simpl. rewrite Z.eqb_refl, Z.add_0_r. reflexivity.
  - simpl app. simpl set_tx_power_loop.
    destruct (p =? power) eqn:E; zbool.
    + exfalso. apply Hin. now left.
    + assert (Hs : s32 (i + 1) = i + 1).
      { apply s32_id. unfold is_int in *. simpl length in Hi. lia. }
      rewrite Hs, IH.
      * f_equal. simpl length. lia.
      * intros Hl. apply Hin. now right.
      * simpl length in Hi. replace (i + 1 + Z.of_nat (length l))
          with (i + Z.of_nat (S (length l))) by lia. exact Hi.
      * lia.
Qed.

(** X9 (lprf_set_tx_power).  With the table of the driver, a power of
    [100 * i] hundredths of a dBm for [i] from 0 to 15 is accepted and
    writes [i] to the power sub-register, the result being that of the
    write; every other power is refused with -EINVAL and no register is
    written. *)
Theorem set_tx_power_levels (st : regmap_state) (power : Z) :
  is_int power ->
  (forall i, 0 <= i <= 15 -> power = 100 * i ->
     lprf_set_tx_power lprf_tx_powers st power
     = lprf_write_subreg st SR_TX_PWR_CTRL i)
  /\ ((forall i, 0 <= i <= 15 -> power <> 100 * i) ->
      lprf_set_tx_power lprf_tx_powers st power = (- EINVAL, st)).
Proof.
  intros Hp. unfold lprf_set_tx_power. rewrite (s32_id power Hp).
  split.
  - intros i Hi ->.
    assert (Hsplit : lprf_tx_powers
                     = map (fun k => 100 * Z.of_nat k) (seq 0 (Z.to_nat i))
                       ++ 100 * i
                       :: map (fun k => 100 * Z.of_nat k)
                            (seq (S (Z.to_nat i)) (15 - Z.to_nat i))).
    { assert (Hc : i = 0 \/ i = 1 \/ i = 2 \/ i = 3 \/ i = 4 \/ i = 5
                   \/ i = 6 \/ i = 7 \/ i = 8 \/ i = 9 \/ i = 10 \/ i = 11
                   \/ i = 12 \/ i = 13 \/ i = 14 \/ i = 15) by lia.
      repeat (destruct Hc as [->|Hc]; [reflexivity|]). subst i. reflexivity. }
    rewrite Hsplit, set_tx_power_loop_hit.
    + rewrite length_map, length_seq. f_equal. lia.
    + rewrite in_map_iff. intros (k & Hk & Hin).
      apply in_seq in Hin. lia.
    + rewrite length_map, length_seq. unfold is_int. lia.
    + lia.
  - intros Hno. apply set_tx_power_loop_miss.
    unfold lprf_tx_powers. simpl. intros Hin.
    repeat (destruct Hin as [Hin|Hin];
            [match type of Hin with
             | ?v = _ => let k := eval cbv in (v / 100) in
                         apply (Hno k); lia
             end|]).
    exact Hin.
Qed.

End TxPower.

Lemma set_tx_power_levels_witness :
  @lprf_set_tx_power sample_registers_more lprf_tx_powers ([], []) 300
  = (0, ([], [regmap_update_bits 0x2a 0x0f 3 0]))
  /\ @lprf_set_tx_power sample_registers_more lprf_tx_powers ([], []) 250
     = (-22, ([], [])).
Proof.
  destruct (@set_tx_power_levels sample_registers_more ([], []) 300)
    as [H1 _]; [unfold is_int; lia|].
  destruct (@set_tx_power_levels sample_registers_more ([], []) 250)
    as [_ H2]; [unfold is_int; lia|].
  split.
  - rewrite (H1 3) by lia. reflexivity.
  - apply H2. intros i Hi. lia.
Defined.

(** X10 (lprf_detect_device, calculate_rf_center_freq, calc_vco_tune).  The
    channel mask that the driver announces for page 0 holds exactly the
    channels 11 to 26: the channels for which a centre frequency and a VCO
    tune value exist.  The channel selected at start-up is one of them. *)
Theorem supported_channels_mask (channel : Z) :
  0 <= channel ->
  (Z.testbit supported_channels_0 channel = true <-> 11 <= channel <= 26)
  /\ (Z.testbit supported_channels_0 channel = true
      <-> calculate_rf_center_freq channel <> 0)
  /\ (Z.testbit supported_channels_0 channel = true
      <-> calc_vco_tune channel <> 0)
  /\ Z.testbit supported_channels_0 current_channel = true.
Proof.
  intros H0.
  assert (Hmask : Z.testbit supported_channels_0 channel = true
                  <-> 11 <= channel <= 26).
  { split.
    - intros Hb.
      destruct (Z_lt_le_dec channel 27) as [Hlt|Hge].
      + destruct (Z_lt_le_dec channel 11) as [Hlo|]; [|lia].
        exfalso.
        assert (Hc : In channel (map Z.of_nat (seq 0 11))).
        { apply in_map_iff. exists (Z.to_nat channel).
          split; [lia|]. apply in_seq. lia. }
        simpl in Hc.
        repeat (destruct Hc as [<-|Hc]; [discriminate Hb|]). destruct Hc.
      + rewrite Z.bits_above_log2 in Hb; [discriminate| |].
        * unfold supported_channels_0. lia.
        * change (Z.log2 supported_channels_0) with 26. lia.
    - intros Hc. apply channel_cases in Hc. simpl in Hc.
      repeat (destruct Hc as [<-|Hc]; [reflexivity|]). destruct Hc. }
  split; [exact Hmask|].
  split; [|split; [|reflexivity]].
  - rewrite Hmask. split.
    + intros Hc. rewrite rf_center_freq_in_range by exact Hc. lia.
    + intros Hne.
      destruct (Z_le_dec 11 channel); [destruct (Z_le_dec channel 26)|];
        try lia; exfalso; apply Hne; apply rf_center_freq_out_of_range; lia.
  - rewrite Hmask. split.
    + intros Hc. apply channel_cases in Hc. simpl in Hc.
      repeat (destruct Hc as [<-|Hc]; [discriminate|]). destruct Hc.
    + intros Hne.
      destruct (Z_le_dec 11 channel); [destruct (Z_le_dec channel 26)|];
        try lia; exfalso; apply Hne.
      * destruct channel as [|p|p]; try reflexivity.
        do 6 (try (destruct p as [p|p|]; try reflexivity; try lia)).
      * destruct channel as [|p|p]; try reflexivity.
        do 6 (try (destruct p as [p|p|]; try reflexivity; try lia)).
Qed.

Lemma supported_channels_mask_witness :
  Z.testbit supported_channels_0 26 = true
  /\ calculate_rf_center_freq 26 <> 0.
Proof.
  destruct (supported_channels_mask 26) as (H1 & H2 & _); [lia|].
  assert (H : Z.testbit supported_channels_0 26 = true) by (apply H1; lia).
  split; [exact H|]. apply H2. exact H.
Defined.

(** ** Chip detection (lprf_rx.c) *)

(** X11 (lprf_detect_device of lprf_rx.c).  With byte-wide registers the
    chip is accepted exactly when both reads succeed and the two id bytes
    are 0x1a and 0x51.  A failing first read returns its error without a
    second read; a chip with another id gives -ENODEV. *)
Theorem detect_device_chip_id `{lprf_registers_h_more}
    (ret_h id_h ret_l id_l : Z) (rest : list (Z * Z)) (calls : list Z) :
  is_byte id_h -> is_byte id_l ->
  let st := ((ret_h, id_h) :: (ret_l, id_l) :: rest, calls) in
  (fst (lprf_rx.lprf_detect_device st) = 0
   <-> ret_h = 0 /\ ret_l = 0 /\ id_h = 0x1a /\ id_l = 0x51)
  /\ (ret_h <> 0 ->
      lprf_rx.lprf_detect_device st
      = (ret_h, ((ret_l, id_l) :: rest, calls ++ [u32 RG_CHIP_ID_H])))
  /\ (ret_h = 0 -> ret_l <> 0 ->
      fst (lprf_rx.lprf_detect_device st) = ret_l)
  /\ (ret_h = 0 -> ret_l = 0 -> (id_h <> 0x1a \/ id_l <> 0x51) ->
      lprf_rx.lprf_detect_device st
      = (- ENODEV,
         (rest, (calls ++ [u32 RG_CHIP_ID_H]) ++ [u32 RG_CHIP_ID_L]))).
Proof.
  intros Hh Hl st.
  assert (Hid : (Z.lor (Z.lor 0 (s32 (Z.shiftl (s32 (u32 id_h)) 8)))
                       (s32 (u32 id_l)) =? 0x1a51)
                = (id_h =? 0x1a) && (id_l =? 0x51)).
  { pose (P := fun a b =>
              Bool.eqb (Z.lor (Z.lor 0 (s32 (Z.shiftl (s32 (u32 a)) 8)))
                              (s32 (u32 b)) =? 0x1a51)
                       ((a =? 0x1a) && (b =? 0x51))).
    apply Bool.eqb_prop. change (P id_h id_l = true).
    apply (forall_bytes2 P); [|exact Hh|exact Hl]. vm_compute. reflexivity. }
  unfold st, lprf_rx.lprf_detect_device, lprf_rx.lprf_read_register.
  cbn [hd tl].
  destruct (ret_h =? 0) eqn:Eh; zbool; cbn [negb].
  2:{ cbn [fst]. split; [|split; [|split]].
      - split; [intros; lia|intros (? & _); lia].
      - reflexivity.
      - intros; lia.
      - intros; lia. }
  cbn [hd tl].
  destruct (ret_l =? 0) eqn:El; zbool; cbn [negb].
  2:{ cbn [fst]. split; [|split; [|split]].
      - split; [intros; lia|intros (_ & ? & _); lia].
      - intros; lia.
      - reflexivity.
      - intros; lia. }
  rewrite Hid.
  destruct (id_h =? 0x1a) eqn:E1; destruct (id_l =? 0x51) eqn:E2; zbool;
    cbn [andb negb fst];
    (split; [|split; [|split]]);
    try (intros; lia); try (split; [intros Hx; discriminate Hx || lia
                                   |intros (_ & _ & ? & ?); lia]);
    try reflexivity.
Qed.

Lemma detect_device_chip_id_witness :
  @lprf_rx.lprf_detect_device sample_registers_more
     ([(0, 0x1a); (0, 0x51)], []) = (0, ([], [0x01; 0x02]))
  /\ @lprf_rx.lprf_detect_device sample_registers_more
       ([(0, 0x1a); (0, 0x50)], []) = (-19, ([], [0x01; 0x02])).
Proof.
  assert (B : forall x, 0 <= x < 256 -> is_byte x) by (intros; assumption).
  destruct (@detect_device_chip_id sample_registers_more 0 0x1a 0 0x50 [] [])
    as (_ & _ & _ & H); [apply B; lia|apply B; lia|].
  split; [reflexivity|].
  apply H; [reflexivity|reflexivity|right; lia].
Defined.

(** ** Transmit request *)

Section Xmit.
Context `{lprf_registers_h}.

Lemma phy_status_async_kept (s : lprf_local) :
  kept_by_register_write (snd (lprf_phy_status_async s))
  = kept_by_register_write s.
Proof.
  unfold lprf_phy_status_async.
  set (s1 := set_phy_status_is_active _ s).
  destruct (negb (phy_status_is_active s1 =? 1)); [reflexivity|].
  set (ret := hd 0 (spi_async_rets s1)).
  set (s2 := emit _ _).
  destruct (negb (ret =? 0)); [|reflexivity].
  cbn [snd]. unfold lprf_async_error.
  rewrite write_register_kept, kept_error. reflexivity.
Qed.

Lemma poll_guard_busy (s : lprf_local) :
  is_int (phy_status_is_active s) -> phy_status_is_active s <> 0 ->
  lprf_phy_status_async s = (- EBUSY, s).
Proof.
  intros Hint Hne. unfold lprf_phy_status_async.
  pose proof (atomic_inc_busy _ Hint Hne) as Hb.
  change (phy_status_is_active
            (set_phy_status_is_active
               (atomic_inc (phy_status_is_active s)) s))
    with (atomic_inc (phy_status_is_active s)).
  destruct (atomic_inc (phy_status_is_active s) =? 1) eqn:E; [lia|].
  simpl negb. cbv iota.
  rewrite set_phy_status_is_active_id; [reflexivity|].
  now apply atomic_inc_dec.
Qed.

Lemma transition_guard_busy (s : lprf_local) (phy_status : Z) :
  is_int (transition_in_progress s) -> transition_in_progress s <> 0 ->
  lprf_evaluate_phy_status s phy_status = Some s.
Proof.
  intros Hint Hne. unfold lprf_evaluate_phy_status.
  pose proof (atomic_inc_busy _ Hint Hne) as Hb.
  change (transition_in_progress
            (set_transition_in_progress
               (atomic_inc (transition_in_progress s)) s))
    with (atomic_inc (transition_in_progress s)).
  destruct (atomic_inc (transition_in_progress s) =? 1) eqn:E; [lia|].
  simpl negb. cbv iota.
  rewrite set_transition_in_progress_id; [reflexivity|].
  now apply atomic_inc_dec.
Qed.

(** X12 (lprf_xmit_ieee802154_async).  While a frame is pending a further
    frame is refused with -EBUSY and nothing changes.  Otherwise the frame
    is stored and 0 is returned, also when the status poll that should start
    the transmission could not be started because a poll is in flight; a
    second request then finds the first frame pending. *)
Theorem xmit_pending_frame (s : lprf_local) (skb skb' : list Z) :
  (tx_skb s <> None -> lprf_xmit_ieee802154_async s skb = (- EBUSY, s))
  /\ (tx_skb s = None ->
      fst (lprf_xmit_ieee802154_async s skb) = 0
      /\ tx_skb (snd (lprf_xmit_ieee802154_async s skb)) = Some skb
      /\ lprf_xmit_ieee802154_async
           (snd (lprf_xmit_ieee802154_async s skb)) skb'
         = (- EBUSY, snd (lprf_xmit_ieee802154_async s skb)))
  /\ (tx_skb s = None -> is_int (phy_status_is_active s) ->
      phy_status_is_active s <> 0 ->
      lprf_xmit_ieee802154_async s skb = (0, set_tx_skb (Some skb) s)).
Proof.
  assert (Hbusy : forall s0 skb0, tx_skb s0 <> None ->
            lprf_xmit_ieee802154_async s0 skb0 = (- EBUSY, s0)).
  { intros s0 skb0 Hne. unfold lprf_xmit_ieee802154_async.
    rewrite bool_decide_eq_true_2; [reflexivity|].
    destruct (tx_skb s0); [eauto|congruence]. }
  assert (Hfree : tx_skb s = None ->
            lprf_xmit_ieee802154_async s skb
            = (0, snd (lprf_phy_status_async (set_tx_skb (Some skb) s)))).
  { intros Hn. unfold lprf_xmit_ieee802154_async.
    rewrite bool_decide_eq_false_2; [reflexivity|].
    rewrite Hn. intros [x Hx]. discriminate. }
  split; [apply Hbusy|]. split.
  - intros Hn. rewrite (Hfree Hn). cbn [fst snd].
    assert (Hskb : tx_skb (snd (lprf_phy_status_async
                                  (set_tx_skb (Some skb) s))) = Some skb).
    { pose proof (phy_status_async_kept (set_tx_skb (Some skb) s)) as Hk.
      unfold kept_by_register_write in Hk.
      injection Hk as _ _ _ _ _ _ Hk _. exact Hk. }
    split; [reflexivity|]. split; [exact Hskb|].
    apply Hbusy. rewrite Hskb. discriminate.
  - intros Hn Hint Hact. rewrite (Hfree Hn). f_equal.
    rewrite poll_guard_busy; [reflexivity|exact Hint|exact Hact].
Qed.

End Xmit.

Lemma xmit_pending_frame_witness :
  @lprf_xmit_ieee802154_async sample_registers
     (set_tx_skb (Some [1; 2; 3]) idle_state) [4; 5]
  = (-16, set_tx_skb (Some [1; 2; 3]) idle_state)
  /\ @lprf_xmit_ieee802154_async sample_registers
       (set_phy_status_is_active 1 idle_state) [4; 5]
     = (0, set_tx_skb (Some [4; 5]) (set_phy_status_is_active 1 idle_state)).
Proof.
  destruct (@xmit_pending_frame sample_registers
              (set_tx_skb (Some [1; 2; 3]) idle_state) [4; 5] [])
    as (H1 & _ & _).
  destruct (@xmit_pending_frame sample_registers
              (set_phy_status_is_active 1 idle_state) [4; 5] [])
    as (_ & _ & H3).
  split.
  - apply H1. discriminate.
  - apply H3; [reflexivity|vm_compute; split; [discriminate|reflexivity]
              |discriminate].
Defined.

(** ** Character device *)

(** X13 (lprf_open_char_device, lprf_release_char_device,
    write_data_to_char_driver).  The device file can be open once: a further
    open is refused with -EMFILE and changes nothing.  After a successful
    open and the release that follows, received data is no longer queued
    for the reader and the device can be opened again.  When the allocation
    of the buffer fails, the error is returned with the open count still
    taken, so that every later open is refused. *)
Theorem char_device_open_once (kfifo_alloc_ret : Z)
    (c : char_driver_interface) (s : lprf_local) (data : list Z) :
  (is_int (is_open c) -> is_open c <> 0 ->
   lprf_open_char_device kfifo_alloc_ret c s = (- EMFILE, c, s))
  /\ (is_open c = 0 ->
      let opened := mk_char_driver_interface 1 true in
      let s1 := set_char_driver_is_ready 1 s in
      let released := mk_char_driver_interface 0 false in
      let s2 := set_char_driver_is_ready 0 s1 in
      lprf_open_char_device 0 c s = (0, opened, s1)
      /\ write_data_to_char_driver s1 data = emit (kfifo_in data) s1
      /\ lprf_release_char_device opened s1 = (0, released, s2)
      /\ write_data_to_char_driver s2 data = s2
      /\ lprf_open_char_device 0 released s2
         = (0, opened, set_char_driver_is_ready 1 s2))
  /\ (is_open c = 0 -> kfifo_alloc_ret <> 0 ->
      let stuck := mk_char_driver_interface 1 (data_buffer_allocated c) in
      lprf_open_char_device kfifo_alloc_ret c s = (kfifo_alloc_ret, stuck, s)
      /\ forall ret', lprf_open_char_device ret' stuck s
                      = (- EMFILE, stuck, s)).
Proof.
  assert (Hbusy : forall ret c0, is_int (is_open c0) -> is_open c0 <> 0 ->
            lprf_open_char_device ret c0 s = (- EMFILE, c0, s)).
  { intros ret [o a] Hint Hne. cbn [is_open] in *.
    unfold lprf_open_char_device. cbn [is_open data_buffer_allocated].
    pose proof (atomic_inc_busy _ Hint Hne) as Hb.
    destruct (atomic_inc o =? 1) eqn:E; [lia|].
    cbn [negb]. now rewrite atomic_inc_dec. }
  split; [apply Hbusy|]. split.
  - destruct c as [o a]. cbn [is_open]. intros ->.
    repeat split.
  - destruct c as [o a]. cbn [is_open data_buffer_allocated].
    intros -> Hret. split.
    + unfold lprf_open_char_device. cbn [is_open data_buffer_allocated].
      change (atomic_inc 0 =? 1) with true. cbn [negb].
      destruct (kfifo_alloc_ret =? 0) eqn:E; [lia|reflexivity].
    + intros ret'. apply Hbusy; cbn [is_open]; [|lia].
      unfold is_int. lia.
Qed.

Lemma char_device_open_once_witness :
  lprf_open_char_device 0 (mk_char_driver_interface 1 true) idle_state
  = (-24, mk_char_driver_interface 1 true, idle_state)
  /\ lprf_open_char_device (-12) (mk_char_driver_interface 0 false) idle_state
     = (-12, mk_char_driver_interface 1 false, idle_state).
Proof.
  destruct (char_device_open_once 0 (mk_char_driver_interface 1 true)
              idle_state []) as (H1 & _ & _).
  destruct (char_device_open_once (-12) (mk_char_driver_interface 0 false)
              idle_state []) as (_ & _ & H3).
  split.
  - apply H1; cbn [is_open]; [unfold is_int|]; lia.
  - apply H3; [reflexivity|lia].
Defined.

(** ** Failing dispatches and error recovery *)

Section ErrorRecovery.
Context `{lprf_registers_h}.

Lemma dispatch_facts (s : lprf_local) (address value : Z)
    (complete : callback) :
  (3 <= length (tx_buf s))%nat ->
  let m := spi_async_state_change_message
             (tx_buf_regw s address value complete) in
  fst m = hd 0 (spi_async_rets s)
  /\ trace (snd m)
     = trace s ++ [register_write_ret address value complete
                     (hd 0 (spi_async_rets s))]
  /\ spi_async_rets (snd m) = tl (spi_async_rets s)
  /\ spi_message_complete (snd m) = Some complete
  /\ length (tx_buf (snd m)) = length (tx_buf s)
  /\ take 3 (tx_buf (snd m)) = [u8 REGW; u8 address; u8 value]
  /\ untouched_by_dispatch (snd m) = untouched_by_dispatch s.
Proof.
  intros Hlen m.
  assert (Hbuf : tx_buf (snd m)
                 = <[2%nat := u8 value]>
                     (<[1%nat := u8 address]>
                        (<[0%nat := u8 REGW]> (tx_buf s))))
    by reflexivity.
  assert (Htake : take 3 (tx_buf (snd m)) = [u8 REGW; u8 address; u8 value]).
  { rewrite Hbuf.
    destruct (tx_buf s) as [|b0 [|b1 [|b2 rest]]]; simpl in Hlen; try lia.
    reflexivity. }
  split; [reflexivity|].
  split.
  { change (trace (snd m))
      with (trace s ++
            [spi_async_state_change (take 3 (tx_buf (snd m)))
               (Some complete) (hd 0 (spi_async_rets s))]).
    rewrite Htake. reflexivity. }
  split; [reflexivity|]. split; [reflexivity|].
  split; [rewrite Hbuf; now rewrite !length_insert|].
  split; [exact Htake|reflexivity].
Qed.

Lemma error_facts (s : lprf_local) (rc : Z) :
  let s' := lprf_stop_polling (emit (dev_err rc) s) in
  trace s' = trace s ++ [dev_err rc; hrtimer_cancel]
  /\ rx_polling_active s' = 0
  /\ spi_async_rets s' = spi_async_rets s
  /\ tx_buf s' = tx_buf s
  /\ untouched_by_error s' = untouched_by_error s.
Proof.
  intros s'.
  split.
  { change (trace s') with ((trace s ++ [dev_err rc]) ++ [hrtimer_cancel]).
    now rewrite <- app_assoc. }
  repeat split.
Qed.

Lemma untouched_dispatch_polling (s s' : lprf_local) :
  untouched_by_dispatch s' = untouched_by_dispatch s ->
  rx_polling_active s' = rx_polling_active s.
Proof. unfold untouched_by_dispatch. congruence. Qed.

Lemma untouched_error_fields (s s' : lprf_local) :
  untouched_by_error s' = untouched_by_error s ->
  phy_status_is_active s' = phy_status_is_active s
  /\ phy_status_rx_buf s' = phy_status_rx_buf s
  /\ rx_buf s' = rx_buf s
  /\ to_state s' = to_state s
  /\ transition_in_progress s' = transition_in_progress s
  /\ tx_complete s' = tx_complete s
  /\ sm_main_value s' = sm_main_value s
  /\ dem_main_value s' = dem_main_value s
  /\ tx_skb s' = tx_skb s
  /\ free_skb s' = free_skb s
  /\ reset_counter s' = reset_counter s
  /\ char_driver_is_ready s' = char_driver_is_ready s
  /\ dev_alloc_skb_ok s' = dev_alloc_skb_ok s.
Proof.
  unfold untouched_by_error. intros Hu.
  injection Hu as -> -> -> -> -> -> -> -> -> -> -> -> ->.
  repeat split.
Qed.

Lemma untouched_dispatch_error (s s' : lprf_local) :
  untouched_by_dispatch s' = untouched_by_dispatch s ->
  untouched_by_error s' = untouched_by_error s.
Proof.
  unfold untouched_by_dispatch, untouched_by_error. intros Hu.
  injection Hu as _ -> -> -> -> -> -> -> -> -> -> -> -> ->. reflexivity.
Qed.

(** Once polling is off, the reset write that starts the recovery leaves it
    off, whatever the coming dispatches return, and ends with the reset
    message pending. *)
Lemma recovery_write_pending (rets : list Z) (s : lprf_local) :
  (3 <= length (tx_buf s))%nat -> rx_polling_active s = 0 ->
  let s' := lprf_async_write_register_from rets s RG_GLOBAL_RESETB 0
              lprf_async_error_recover_cb in
  rx_polling_active s' = 0
  /\ spi_message_complete s' = Some lprf_async_error_recover_cb
  /\ take 3 (tx_buf s') = [u8 REGW; u8 RG_GLOBAL_RESETB; u8 0]
  /\ length (tx_buf s') = length (tx_buf s)
  /\ untouched_by_error s' = untouched_by_error s.
Proof.
  revert s. induction rets as [|r rets IH]; intros s Hlen Hoff s'.
  - unfold s'. rewrite write_register_from_nil.
    destruct (dispatch_facts s RG_GLOBAL_RESETB 0
                lprf_async_error_recover_cb Hlen)
      as (_ & _ & _ & Hcb & Hl & Ht & Hu).
    split.
    { rewrite (untouched_dispatch_polling _ _ Hu). exact Hoff. }
    split; [exact Hcb|]. split; [exact Ht|]. split; [exact Hl|].
    now apply untouched_dispatch_error.
  - unfold s'. rewrite write_register_from_cons. cbv zeta.
    destruct (dispatch_facts s RG_GLOBAL_RESETB 0
                lprf_async_error_recover_cb Hlen)
      as (_ & _ & _ & Hcb & Hl & Ht & Hu).
    destruct (fst _ =? 0).
    + split.
      { rewrite (untouched_dispatch_polling _ _ Hu). exact Hoff. }
      split; [exact Hcb|]. split; [exact Ht|]. split; [exact Hl|].
      now apply untouched_dispatch_error.
    + set (m := spi_async_state_change_message _) in *.
      destruct (error_facts (snd m) (fst m)) as (_ & Hoff' & _ & Hb & Hu').
      destruct (IH (lprf_stop_polling (emit (dev_err (fst m)) (snd m))))
        as (I1 & I2 & I3 & I4 & I5).
      { rewrite Hb, Hl. exact Hlen. }
      { exact Hoff'. }
      split; [exact I1|]. split; [exact I2|]. split; [exact I3|].
      split; [rewrite I4, Hb; exact Hl|].
      rewrite I5, Hu'. now apply untouched_dispatch_error.
Qed.

(** X14 (lprf_async_write_register, lprf_async_error).  When the dispatch
    of a register write fails, the write is given up for good: whatever the
    later dispatches return, polling is switched off and the message left
    pending is the reset write [RG_GLOBAL_RESETB <- 0] with the recovery
    callback, never the requested write.  The guards, the step counter and
    the pending frame are as they were. *)
Theorem failed_write_is_abandoned (s : lprf_local) (address value : Z)
    (complete : callback) :
  (3 <= length (tx_buf s))%nat -> hd 0 (spi_async_rets s) <> 0 ->
  let s' := lprf_async_write_register s address value complete in
  rx_polling_active s' = 0
  /\ spi_message_complete s' = Some lprf_async_error_recover_cb
  /\ take 3 (tx_buf s') = [u8 REGW; u8 RG_GLOBAL_RESETB; u8 0]
  /\ untouched_by_error s' = untouched_by_error s.
Proof.
  intros Hlen Hfail s'.
  unfold s', lprf_async_write_register.
  destruct (spi_async_rets s) as [|r rets] eqn:E; [simpl in Hfail; lia|].
  rewrite write_register_from_cons. cbv zeta.
  destruct (dispatch_facts s address value complete Hlen)
    as (Hret & _ & _ & _ & Hl & _ & Hu).
  set (m := spi_async_state_change_message _) in *.
  rewrite E in Hret. cbn [hd] in Hret, Hfail.
  destruct (fst m =? 0) eqn:E0; [zbool; lia|].
  destruct (error_facts (snd m) (fst m)) as (_ & Hoff' & _ & Hb & Hu').
  destruct (recovery_write_pending rets
              (lprf_stop_polling (emit (dev_err (fst m)) (snd m))))
    as (I1 & I2 & I3 & _ & I5).
  { rewrite Hb, Hl. exact Hlen. }
  { exact Hoff'. }
  split; [exact I1|]. split; [exact I2|]. split; [exact I3|].
  rewrite I5, Hu'. now apply untouched_dispatch_error.
Qed.

End ErrorRecovery.

Lemma failed_write_is_abandoned_witness :
  let s' := @lprf_async_write_register sample_registers
              (set_spi_async_rets [-5; -5; 0] idle_state) 0x80 0x05
              lprf_rx_resets_cb in
  rx_polling_active s' = 0
  /\ spi_message_complete s' = Some lprf_async_error_recover_cb
  /\ take 3 (tx_buf s') = [0xc0; 0x00; 0x00].
Proof.
  destruct (@failed_write_is_abandoned sample_registers
              (set_spi_async_rets [-5; -5; 0] idle_state) 0x80 0x05
              lprf_rx_resets_cb) as (H1 & H2 & H3 & _).
  - vm_compute. lia.
  - vm_compute. discriminate.
  - split; [exact H1|]. split; [exact H2|exact H3].
Defined.

Section Recovery.
Context `{lprf_registers_h} `{linux_ieee802154_h}.

Lemma write_register_ok_full (s : lprf_local) (address value : Z)
    (complete : callback) :
  spi_async_rets s = [] -> (3 <= length (tx_buf s))%nat ->
  let s' := lprf_async_write_register s address value complete in
  trace s' = trace s ++ [register_write address value complete]
  /\ spi_message_complete s' = Some complete
  /\ spi_async_rets s' = []
  /\ length (tx_buf s') = length (tx_buf s)
  /\ untouched_by_dispatch s' = untouched_by_dispatch s.
Proof.
  intros Hrets Hlen s'.
  assert (Hs' : s' = snd (spi_async_state_change_message
                            (tx_buf_regw s address value complete))).
  { unfold s', lprf_async_write_register. rewrite Hrets.
    apply write_register_from_nil. }
  destruct (dispatch_facts s address value complete Hlen)
    as (_ & Ht & Hr & Hcb & Hl & _ & Hu).
  rewrite Hs'. rewrite Hrets in Ht, Hr.
  split; [exact Ht|]. split; [exact Hcb|]. split; [exact Hr|].
  split; [exact Hl|exact Hu].
Qed.

Lemma untouched_dispatch_fields (s s' : lprf_local) :
  untouched_by_dispatch s' = untouched_by_dispatch s ->
  rx_polling_active s' = rx_polling_active s
  /\ untouched_by_error s' = untouched_by_error s.
Proof.
  intros Hu. split; [now apply untouched_dispatch_polling|].
  now apply untouched_dispatch_error.
Qed.

(** A status poll that finds the poll guard free and is dispatched. *)
Lemma poll_ok (s : lprf_local) :
  phy_status_is_active s = 0 -> spi_async_rets s = [] ->
  let s' := snd (lprf_phy_status_async s) in
  fst (lprf_phy_status_async s) = 0
  /\ trace s' = trace s ++ [spi_async_phy_status 0]
  /\ phy_status_is_active s' = 1
  /\ spi_async_rets s' = []
  /\ rx_polling_active s' = rx_polling_active s
  /\ spi_message_complete s' = spi_message_complete s
  /\ tx_buf s' = tx_buf s
  /\ rx_buf s' = rx_buf s
  /\ phy_status_rx_buf s' = phy_status_rx_buf s
  /\ kept_by_register_write s' = kept_by_register_write s.
Proof.
  intros Hact Hrets.
  unfold lprf_phy_status_async. cbv zeta.
  change (phy_status_is_active
            (set_phy_status_is_active
               (atomic_inc (phy_status_is_active s)) s))
    with (atomic_inc (phy_status_is_active s)).
  rewrite Hact. change (atomic_inc 0 =? 1) with true.
  cbn [negb]. cbv iota.
  change (spi_async_rets (set_phy_status_is_active (atomic_inc 0) s))
    with (spi_async_rets s).
  rewrite Hrets. cbn [hd tl]. change (0 =? 0) with true.
  cbn [negb fst snd]. cbv iota.
  repeat split.
Qed.

(** A register write whose dispatch fails with [rc] and whose recovery
    write is dispatched. *)
Lemma write_register_failed (s : lprf_local) (address value rc : Z)
    (complete : callback) :
  spi_async_rets s = [rc] -> rc <> 0 -> (3 <= length (tx_buf s))%nat ->
  let s1 := lprf_async_write_register s address value complete in
  trace s1
  = trace s ++ [register_write_ret address value complete rc;
                dev_err rc; hrtimer_cancel;
                register_write RG_GLOBAL_RESETB 0
                  lprf_async_error_recover_cb]
  /\ rx_polling_active s1 = 0
  /\ spi_message_complete s1 = Some lprf_async_error_recover_cb
  /\ spi_async_rets s1 = []
  /\ length (tx_buf s1) = length (tx_buf s)
  /\ untouched_by_error s1 = untouched_by_error s.
Proof.
  intros Hrets Hrc Hlen s1.
  destruct (dispatch_facts s address value complete Hlen)
    as (_ & Ht0 & Hr0 & _ & Hl0 & _ & Hu0).
  rewrite Hrets in Ht0, Hr0. cbn [hd tl] in Ht0, Hr0.
  remember (snd (spi_async_state_change_message
                   (tx_buf_regw s address value complete))) as s0 eqn:Es0.
  assert (Hs1 : s1 = lprf_async_error s0 rc).
  { unfold s1. rewrite lprf_async_write_register_eq. cbv zeta.
    rewrite <- Es0.
    change (fst (spi_async_state_change_message
                   (tx_buf_regw s address value complete)))
      with (hd 0 (spi_async_rets s)).
    rewrite Hrets. cbn [hd].
    destruct (rc =? 0) eqn:E; [zbool; lia|reflexivity]. }
  clearbody s1. subst s1. clear Es0.
  destruct (error_facts s0 rc) as (Hte & Hoff & Hre & Hbe & Hue).
  unfold lprf_async_error. cbv zeta.
  remember (lprf_stop_polling (emit (dev_err rc) s0)) as se eqn:Ese.
  clear Ese.
  destruct (write_register_ok_full se RG_GLOBAL_RESETB 0
              lprf_async_error_recover_cb)
    as (Ht1 & Hcb1 & Hr1 & Hl1 & Hu1).
  { now rewrite Hre. }
  { rewrite Hbe, Hl0. exact Hlen. }
  destruct (untouched_dispatch_fields _ _ Hu1) as (Hp1 & Hue1).
  split.
  { rewrite Ht1, Hte, Ht0. rewrite <- !app_assoc. reflexivity. }
  split; [rewrite Hp1; exact Hoff|].
  split; [exact Hcb1|]. split; [exact Hr1|].
  split; [rewrite Hl1, Hbe; exact Hl0|].
  rewrite Hue1, Hue. now apply untouched_dispatch_error.
Qed.

Lemma untouched_error_kept (s s' : lprf_local) :
  untouched_by_error s' = untouched_by_error s ->
  kept_by_register_write s' = kept_by_register_write s.
Proof.
  intros Hu.
  destruct (untouched_error_fields _ _ Hu)
    as (_ & _ & _ & A4 & A5 & A6 & A7 & A8 & A9 & A10 & A11 & _).
  unfold kept_by_register_write. congruence.
Qed.

(** The completion of the second reset write: polling is switched on and a
    status poll is started. *)
Lemma recover_callback_run (s : lprf_local) :
  phy_status_is_active s = 0 -> spi_async_rets s = [] ->
  let s' := lprf_async_error_recover_callback s in
  trace s' = trace s ++ [spi_async_phy_status 0]
  /\ rx_polling_active s' = 1
  /\ phy_status_is_active s' = 1
  /\ spi_async_rets s' = []
  /\ kept_by_register_write s' = kept_by_register_write s.
Proof.
  intros Hact Hrets s'.
  destruct (poll_ok (set_rx_polling_active 1 s) Hact Hrets)
    as (_ & Ht3 & Ha3 & Hr3 & Hp3 & _ & _ & _ & _ & Hk3).
  split; [exact Ht3|]. split; [exact Hp3|]. split; [exact Ha3|].
  split; [exact Hr3|exact Hk3].
Qed.

(** The run of the recovery after one failed dispatch: the reset line is
    pulled low, its completion pulls it high again, and the completion of
    that write switches polling on and starts a status poll. *)
Lemma recovery_run (s : lprf_local) (address value rc : Z)
    (complete : callback) :
  spi_async_rets s = [rc] -> rc <> 0 -> (3 <= length (tx_buf s))%nat ->
  phy_status_is_active s = 0 ->
  let s1 := lprf_async_write_register s address value complete in
  exists s2 s3,
    trace s1
    = trace s ++ [register_write_ret address value complete rc;
                  dev_err rc; hrtimer_cancel;
                  register_write RG_GLOBAL_RESETB 0
                    lprf_async_error_recover_cb]
    /\ rx_polling_active s1 = 0
    /\ state_change_complete s1 = Some s2
    /\ trace s2
       = trace s1 ++ [register_write RG_GLOBAL_RESETB 0xff
                        lprf_async_error_recover_callback_cb]
    /\ state_change_complete s2 = Some s3
    /\ trace s3 = trace s2 ++ [spi_async_phy_status 0]
    /\ rx_polling_active s3 = 1
    /\ phy_status_is_active s3 = 1
    /\ spi_async_rets s3 = []
    /\ kept_by_register_write s3 = kept_by_register_write s.
Proof.
  intros Hrets Hrc Hlen Hact s1.
  destruct (write_register_failed s address value rc complete Hrets Hrc Hlen)
    as (Ht1 & Hp1 & Hcb1 & Hr1 & Hl1 & Hu1).
  fold s1 in Ht1, Hp1, Hcb1, Hr1, Hl1, Hu1. clearbody s1.
  destruct (write_register_ok_full s1 RG_GLOBAL_RESETB 0xff
              lprf_async_error_recover_callback_cb)
    as (Ht2 & Hcb2 & Hr2 & Hl2 & Hu2).
  { exact Hr1. }
  { rewrite Hl1. exact Hlen. }
  remember (lprf_async_write_register s1 RG_GLOBAL_RESETB 0xff
              lprf_async_error_recover_callback_cb) as s2 eqn:Es2.
  destruct (untouched_dispatch_fields _ _ Hu2) as (Hp2 & Hue2).
  destruct (untouched_error_fields _ _ Hue2) as (A2 & _).
  destruct (untouched_error_fields _ _ Hu1) as (A1 & _).
  destruct (recover_callback_run s2) as (Ht3 & Hp3 & Ha3 & Hr3 & Hk3).
  { rewrite A2, A1. exact Hact. }
  { exact Hr2. }
  exists s2, (lprf_async_error_recover_callback s2).
  split; [exact Ht1|]. split; [exact Hp1|].
  split.
  { unfold state_change_complete. rewrite Hcb1.
    cbn [mbind option_bind run_callback]. unfold lprf_async_error_recover.
    now rewrite Es2. }
  split; [exact Ht2|].
  split.
  { unfold state_change_complete. rewrite Hcb2. reflexivity. }
  split; [exact Ht3|]. split; [exact Hp3|]. split; [exact Ha3|].
  split; [exact Hr3|].
  rewrite Hk3, (untouched_error_kept _ _ Hue2).
  now apply untouched_error_kept.
Qed.

(** X15 (lprf_async_write_register, lprf_async_error,
    lprf_async_error_recover, lprf_async_error_recover_callback).  When the
    dispatch of a register write fails while no status poll is in flight,
    and the dispatches that follow succeed, the failure is reported, the
    polling is stopped and the recovery runs: the reset register is written
    with 0, the completion of that write writes 0xff, and the completion of
    the second write switches polling on again and starts a status poll.
    The property is about a register write only: a status poll or a frame
    write whose dispatch fails takes another course. *)
Theorem async_error_recovery (s : lprf_local) (address value rc : Z)
    (complete : callback) :
  spi_async_rets s = [rc] -> rc <> 0 -> (3 <= length (tx_buf s))%nat ->
  phy_status_is_active s = 0 ->
  let s1 := lprf_async_write_register s address value complete in
  exists s2 s3,
    state_change_complete s1 = Some s2
    /\ state_change_complete s2 = Some s3
    /\ rx_polling_active s1 = 0
    /\ rx_polling_active s3 = 1
    /\ trace s3
       = trace s ++ [register_write_ret address value complete rc;
                     dev_err rc; hrtimer_cancel;
                     register_write RG_GLOBAL_RESETB 0
                       lprf_async_error_recover_cb;
                     register_write RG_GLOBAL_RESETB 0xff
                       lprf_async_error_recover_callback_cb;
                     spi_async_phy_status 0].
Proof.
  intros Hrets Hrc Hlen Hact s1.
  destruct (recovery_run s address value rc complete Hrets Hrc Hlen Hact)
    as (s2 & s3 & T1 & P1 & R2 & T2 & R3 & T3 & P3 & _).
  exists s2, s3.
  split; [exact R2|]. split; [exact R3|]. split; [exact P1|].
  split; [exact P3|].
  rewrite T3, T2, T1. rewrite <- !app_assoc. reflexivity.
Qed.

(** X16 (lprf_async_error, lprf_evaluate_phy_status).  The error path never
    releases the transition guard.  When the failed write belonged to a
    transition, the status poll that ends the recovery is evaluated with the
    guard still taken: the evaluation does nothing, no message is
    dispatched and no timer is started. *)
Theorem recovery_keeps_transition_guard (s : lprf_local)
    (address value rc : Z) (complete : callback) :
  spi_async_rets s = [rc] -> rc <> 0 -> (3 <= length (tx_buf s))%nat ->
  phy_status_is_active s = 0 ->
  is_int (transition_in_progress s) -> transition_in_progress s <> 0 ->
  let s1 := lprf_async_write_register s address value complete in
  exists s2 s3 s4,
    state_change_complete s1 = Some s2
    /\ state_change_complete s2 = Some s3
    /\ lprf_phy_status_complete s3 = Some s4
    /\ transition_in_progress s4 = transition_in_progress s
    /\ phy_status_is_active s4 = 0
    /\ trace s4 = trace s3.
Proof.
  intros Hrets Hrc Hlen Hact Hint Hheld s1.
  destruct (recovery_run s address value rc complete Hrets Hrc Hlen Hact)
    as (s2 & s3 & _ & _ & R2 & _ & R3 & _ & _ & A3 & _ & K3).
  assert (Htip : transition_in_progress s3 = transition_in_progress s).
  { unfold kept_by_register_write in K3. congruence. }
  exists s2, s3, (set_phy_status_is_active 0 s3).
  split; [exact R2|]. split; [exact R3|].
  split; [|repeat split; exact Htip].
  unfold lprf_phy_status_complete. cbv zeta. rewrite A3.
  change (atomic_dec 1) with 0.
  apply transition_guard_busy.
  - change (transition_in_progress (set_phy_status_is_active 0 s3))
      with (transition_in_progress s3). now rewrite Htip.
  - change (transition_in_progress (set_phy_status_is_active 0 s3))
      with (transition_in_progress s3). now rewrite Htip.
Qed.

End Recovery.

Lemma async_error_recovery_witness :
  let s := set_spi_async_rets [-5] idle_state in
  let s1 := @lprf_async_write_register sample_registers s 0x80 0x05
              lprf_rx_resets_cb in
  exists s2 s3,
    @state_change_complete sample_registers linux_ieee802154 s1 = Some s2
    /\ @state_change_complete sample_registers linux_ieee802154 s2 = Some s3
    /\ rx_polling_active s1 = 0
    /\ rx_polling_active s3 = 1
    /\ trace s3
       = [spi_async_state_change [0xc0; 0x80; 0x05] (Some lprf_rx_resets_cb)
            (-5);
          dev_err (-5); hrtimer_cancel;
          spi_async_state_change [0xc0; 0x00; 0x00]
            (Some lprf_async_error_recover_cb) 0;
          spi_async_state_change [0xc0; 0x00; 0xff]
            (Some lprf_async_error_recover_callback_cb) 0;
          spi_async_phy_status 0].
Proof.
  intros s s1.
  destruct (@async_error_recovery sample_registers linux_ieee802154
              s 0x80 0x05 (-5) lprf_rx_resets_cb)
    as (s2 & s3 & H1 & H2 & H3 & H4 & H5).
  - reflexivity.
  - lia.
  - vm_compute. lia.
  - reflexivity.
  - exists s2, s3. repeat (split; [assumption|]). exact H5.
Defined.

Lemma recovery_keeps_transition_guard_witness :
  let s := set_transition_in_progress 1
             (set_spi_async_rets [-5] idle_state) in
  let s1 := @lprf_async_write_register sample_registers s 0x80 0x05
              lprf_rx_resets_cb in
  exists s2 s3 s4,
    @state_change_complete sample_registers linux_ieee802154 s1 = Some s2
    /\ @state_change_complete sample_registers linux_ieee802154 s2 = Some s3
    /\ @lprf_phy_status_complete sample_registers s3 = Some s4
    /\ transition_in_progress s4 = 1
    /\ phy_status_is_active s4 = 0
    /\ trace s4 = trace s3.
Proof.
  intros s s1.
  apply (@recovery_keeps_transition_guard sample_registers linux_ieee802154
           s 0x80 0x05 (-5) lprf_rx_resets_cb).
  - reflexivity.
  - lia.
  - vm_compute. lia.
  - reflexivity.
  - vm_compute. split; [discriminate|reflexivity].
  - vm_compute. discriminate.
Defined.

(** ** Polling that has been stopped *)

Section TimerOff.
Context `{lprf_registers_h} `{linux_ieee802154_h}.

Lemma tso_make (s s' : lprf_local) (evs : list event) :
  rx_polling_active s' = 0 -> trace s' = trace s ++ evs ->
  forallb (fun e => negb (is_timer_start e)) evs = true ->
  timer_stays_off s s'.
Proof. intros Hoff Ht He. split; [exact Hoff|]. now exists evs. Qed.

Lemma tso_same (s s' : lprf_local) :
  rx_polling_active s' = 0 -> trace s' = trace s -> timer_stays_off s s'.
Proof.
  intros Hoff Ht. apply (tso_make s s' []); [exact Hoff| |reflexivity].
  now rewrite app_nil_r.
Qed.

Lemma tso_trans (s s1 s2 : lprf_local) :
  timer_stays_off s s1 -> timer_stays_off s1 s2 -> timer_stays_off s s2.
Proof.
  intros (_ & e1 & T1 & F1) (Hoff & e2 & T2 & F2).
  apply (tso_make s s2 (e1 ++ e2)); [exact Hoff| |].
  - rewrite T2, T1. now rewrite app_assoc.
  - rewrite forallb_app, F1, F2. reflexivity.
Qed.

Lemma tso_off (s s' : lprf_local) :
  timer_stays_off s s' -> rx_polling_active s' = 0.
Proof. now intros (Hoff & _). Qed.

Lemma tso_emit (s : lprf_local) (e : event) :
  rx_polling_active s = 0 -> is_timer_start e = false ->
  timer_stays_off s (emit e s).
Proof.
  intros Hoff He. apply (tso_make s _ [e]); [exact Hoff|reflexivity|].
  cbn [forallb]. now rewrite He.
Qed.

Lemma polling_timer_off (s : lprf_local) (interval : Z) :
  rx_polling_active s = 0 -> lprf_start_polling_timer s interval = s.
Proof.
  intros Hoff. unfold lprf_start_polling_timer. now rewrite Hoff.
Qed.

Lemma tso_dispatch (s : lprf_local) :
  rx_polling_active s = 0 ->
  timer_stays_off s (snd (spi_async_state_change_message s)).
Proof.
  intros Hoff.
  apply (tso_make s _
           [spi_async_state_change
              (take (Z.to_nat (spi_transfer_len s)) (tx_buf s))
              (spi_message_complete s) (hd 0 (spi_async_rets s))]);
    [exact Hoff|reflexivity|reflexivity].
Qed.

Lemma tso_stop_polling (s : lprf_local) (rc : Z) :
  exists evs,
    rx_polling_active (lprf_stop_polling (emit (dev_err rc) s)) = 0
    /\ trace (lprf_stop_polling (emit (dev_err rc) s)) = trace s ++ evs
    /\ forallb (fun e => negb (is_timer_start e)) evs = true.
Proof.
  exists [dev_err rc; hrtimer_cancel].
  destruct (error_facts s rc) as (Ht & Hoff & _).
  split; [exact Hoff|]. split; [exact Ht|reflexivity].
Qed.

(** A register write started with polling off, whatever the dispatches
    return. *)
Lemma tso_write_register_from (rets : list Z) (s : lprf_local)
    (address value : Z) (complete : callback) :
  rx_polling_active s = 0 ->
  timer_stays_off s
    (lprf_async_write_register_from rets s address value complete).
Proof.
  revert s address value complete.
  induction rets as [|r rets IH]; intros s address value complete Hoff.
  - rewrite write_register_from_nil.
    apply (tso_trans _ (tx_buf_regw s address value complete)).
    + apply tso_same; [exact Hoff|reflexivity].
    + apply tso_dispatch. exact Hoff.
  - rewrite write_register_from_cons. cbv zeta.
    assert (Hd : timer_stays_off s
                   (snd (spi_async_state_change_message
                           (tx_buf_regw s address value complete)))).
    { apply (tso_trans _ (tx_buf_regw s address value complete)).
      - apply tso_same; [exact Hoff|reflexivity].
      - apply tso_dispatch. exact Hoff. }
    destruct (fst _ =? 0); [exact Hd|].
    remember (snd (spi_async_state_change_message
                     (tx_buf_regw s address value complete))) as s0.
    remember (fst (spi_async_state_change_message
                     (tx_buf_regw s address value complete))) as rc.
    destruct (tso_stop_polling s0 rc) as (evs & Hoff' & Ht & Hf).
    apply (tso_trans _ s0); [exact Hd|].
    apply (tso_trans _ (lprf_stop_polling (emit (dev_err rc) s0))).
    + now apply (tso_make _ _ evs).
    + apply IH. exact Hoff'.
Qed.

Lemma tso_write_register (s : lprf_local) (address value : Z)
    (complete : callback) :
  rx_polling_active s = 0 ->
  timer_stays_off s (lprf_async_write_register s address value complete).
Proof. apply tso_write_register_from. Qed.

Lemma tso_write_subreg (s : lprf_local) (cached_val : Z) (sr : subreg)
    (data : Z) (complete : callback) :
  rx_polling_active s = 0 ->
  timer_stays_off s (lprf_async_write_subreg s cached_val sr data complete).
Proof. destruct sr as [[addr mask] shift]. apply tso_write_register. Qed.

(** The error path switches polling off itself. *)
Lemma tso_async_error (s : lprf_local) (rc : Z) :
  timer_stays_off s (lprf_async_error s rc).
Proof.
  unfold lprf_async_error. cbv zeta.
  destruct (tso_stop_polling s rc) as (evs & Hoff' & Ht & Hf).
  apply (tso_trans _ (lprf_stop_polling (emit (dev_err rc) s))).
  - now apply (tso_make _ _ evs).
  - apply tso_write_register. exact Hoff'.
Qed.

Lemma tso_phy_status_async (s : lprf_local) :
  rx_polling_active s = 0 ->
  timer_stays_off s (snd (lprf_phy_status_async s)).
Proof.
  intros Hoff. unfold lprf_phy_status_async. cbv zeta.
  destruct (negb (phy_status_is_active _ =? 1)).
  - cbn [snd]. apply tso_same; [exact Hoff|reflexivity].
  - remember (hd 0 (spi_async_rets
                      (set_phy_status_is_active
                         (atomic_inc (phy_status_is_active s)) s))) as ret.
    remember (emit (spi_async_phy_status ret) _) as s1 eqn:E1.
    assert (H1 : timer_stays_off s s1).
    { rewrite E1.
      apply (tso_make s _ [spi_async_phy_status ret]);
        [exact Hoff|reflexivity|reflexivity]. }
    destruct (negb (ret =? 0)); cbn [snd]; [|exact H1].
    apply (tso_trans _ s1); [exact H1|apply tso_async_error].
Qed.

Lemma tso_tx_complete (s : lprf_local) :
  rx_polling_active s = 0 -> timer_stays_off s (lprf_tx_complete s).
Proof.
  intros Hoff. unfold lprf_tx_complete. cbv zeta.
  change (free_skb (set_tx_skb None s)) with (free_skb s).
  destruct (free_skb s).
  - apply (tso_make s _ [kfree_skb (tx_skb s); wake_up wait_for_tx_ready]);
      [exact Hoff| |reflexivity].
    change (trace s ++ [kfree_skb (tx_skb s); wake_up wait_for_tx_ready])
      with (trace s ++ [kfree_skb (tx_skb s)]
            ++ [wake_up wait_for_tx_ready]).
    rewrite app_assoc. reflexivity.
  - apply (tso_make s _ [ieee802154_xmit_complete (tx_skb s);
                         wake_up wait_for_tx_ready]);
      [exact Hoff| |reflexivity].
    change (trace s ++ [ieee802154_xmit_complete (tx_skb s);
                        wake_up wait_for_tx_ready])
      with (trace s ++ [ieee802154_xmit_complete (tx_skb s)]
            ++ [wake_up wait_for_tx_ready]).
    rewrite app_assoc. reflexivity.
Qed.

Lemma tso_tx_change_complete (s : lprf_local) :
  rx_polling_active s = 0 -> timer_stays_off s (lprf_tx_change_complete s).
Proof.
  intros Hoff. unfold lprf_tx_change_complete. cbv zeta.
  rewrite polling_timer_off by exact Hoff.
  apply tso_same; [exact Hoff|reflexivity].
Qed.

Lemma tso_rx_change_complete (s : lprf_local) :
  rx_polling_active s = 0 -> timer_stays_off s (lprf_rx_change_complete s).
Proof.
  intros Hoff. unfold lprf_rx_change_complete. cbv zeta.
  rewrite polling_timer_off by exact Hoff.
  apply tso_same; [exact Hoff|reflexivity].
Qed.

Lemma tso_start_frame_write (s s' : lprf_local) :
  rx_polling_active s = 0 -> lprf_start_frame_write s = Some s' ->
  timer_stays_off s s'.
Proof.
  intros Hoff Hrun. unfold lprf_start_frame_write in Hrun.
  destruct (tx_skb s) as [skb|]; [|discriminate].
  cbn [mbind option_bind] in Hrun. cbv zeta in Hrun.
  destruct (wr (tx_buf s) 0 _) as [b1|]; [|discriminate].
  cbn [mbind option_bind] in Hrun.
  destruct (wr b1 1 _) as [b2|]; [|discriminate].
  cbn [mbind option_bind] in Hrun.
  destruct (write_range b2 2 _) as [b3|]; [|discriminate].
  cbn [mbind option_bind] in Hrun.
  destruct (wr b3 _ _) as [b4|]; [|discriminate].
  cbn [mbind option_bind] in Hrun.
  destruct (write_range b4 _ _) as [b5|]; [|discriminate].
  cbn [mbind option_bind] in Hrun.
  destruct (reverse_loop _ _ b5) as [b6|]; [|discriminate].
  cbn [mbind option_bind] in Hrun.
  remember (set_spi_transfer_len _ _) as s1 eqn:E1.
  assert (H1 : timer_stays_off s s1).
  { rewrite E1. apply tso_same; [exact Hoff|reflexivity]. }
  destruct (spi_async_state_change_message s1) as [ret s2] eqn:E2.
  injection Hrun as <-.
  apply (tso_trans _ s1); [exact H1|].
  replace s2 with (snd (spi_async_state_change_message s1))
    by (now rewrite E2).
  apply tso_dispatch. exact (tso_off _ _ H1).
Qed.

Lemma tso_read_lprf_fifo (s : lprf_local) :
  rx_polling_active s = 0 -> timer_stays_off s (read_lprf_fifo s).
Proof.
  intros Hoff. unfold read_lprf_fifo. cbv zeta.
  remember (set_tx_buf (<[0%nat := u8 FRMR]> _) _) as s1 eqn:E1.
  assert (H1 : timer_stays_off s s1).
  { rewrite E1. apply tso_same; [exact Hoff|reflexivity]. }
  assert (H2 : timer_stays_off s (snd (spi_async_state_change_message s1))).
  { apply (tso_trans _ s1); [exact H1|].
    apply tso_dispatch. exact (tso_off _ _ H1). }
  destruct (spi_async_state_change_message s1) as [ret s2].
  cbn [snd] in H2.
  destruct (negb (ret =? 0)); [|exact H2].
  apply (tso_trans _ s2); [exact H2|apply tso_async_error].
Qed.

End TimerOff.

Section TimerOffCallbacks.
Context `{lprf_registers_h} `{linux_ieee802154_h}.

(** The cases of [lprf_rx_resets], for any value of the step counter. *)
Lemma rx_resets_elim (P : option lprf_local -> Prop) (s : lprf_local) :
  (forall w, w = lprf_async_write_register s RG_SM_MAIN 0x05
                   lprf_rx_resets_cb ->
     P (Some (set_reset_counter (s32 (reset_counter w + 1)) w))) ->
  (forall w, w = lprf_async_write_register s RG_SM_MAIN 0x0F
                   lprf_rx_resets_cb ->
     P (Some (set_reset_counter (s32 (reset_counter w + 1)) w))) ->
  (forall w, w = lprf_async_write_subreg s (dem_main_value s) SR_DEM_RESETB
                   0 lprf_rx_resets_cb ->
     P (Some (set_reset_counter (s32 (reset_counter w + 1)) w))) ->
  (forall w, w = lprf_async_write_subreg s (dem_main_value s) SR_DEM_RESETB
                   1 lprf_rx_resets_cb ->
     P (Some (set_reset_counter (s32 (reset_counter w + 1)) w))) ->
  (to_state s = STATE_CMD_TX ->
   P (w ← lprf_start_frame_write s; Some (set_reset_counter 0 w))) ->
  (forall w, to_state s <> STATE_CMD_TX ->
     w = lprf_async_write_subreg s (sm_main_value s) SR_SM_COMMAND
           STATE_CMD_RX lprf_rx_resets_cb ->
     P (Some (set_reset_counter (s32 (reset_counter w + 1)) w))) ->
  (forall w, w = lprf_async_write_subreg s (sm_main_value s) SR_SM_COMMAND
                   STATE_CMD_NONE lprf_rx_change_complete_cb ->
     P (Some (set_reset_counter 0 w))) ->
  (~ 0 <= reset_counter s <= 5 -> P (Some s)) ->
  P (lprf_rx_resets s).
Proof.
  intros C0 C1 C2 C3 C4t C4r C5 Cd.
  unfold lprf_rx_resets.
  destruct (reset_counter s) as [|p|p] eqn:E.
  - cbv beta iota zeta. now apply C0.
  - destruct p as [p|p|].
    + destruct p as [p|p|].
      * cbv beta iota zeta. apply Cd. lia.
      * destruct p as [p|p|]; cbv beta iota zeta;
          [apply Cd; lia|apply Cd; lia|now apply C5].
      * cbv beta iota zeta. now apply C3.
    + destruct p as [p|p|].
      * cbv beta iota zeta. apply Cd. lia.
      * destruct p as [p|p|]; cbv beta iota zeta;
          [apply Cd; lia|apply Cd; lia|].
        destruct (to_state s =? STATE_CMD_TX) eqn:Et; zbool.
        -- now apply C4t.
        -- now apply C4r.
      * cbv beta iota zeta. now apply C2.
    + cbv beta iota zeta. now apply C1.
  - cbv beta iota zeta. apply Cd. lia.
Qed.

Lemma tso_then_counter (s w : lprf_local) (v : Z) :
  timer_stays_off s w -> timer_stays_off s (set_reset_counter v w).
Proof.
  intros Hw. apply (tso_trans _ w); [exact Hw|].
  apply tso_same; [exact (tso_off _ _ Hw)|reflexivity].
Qed.

Lemma tso_rx_resets (s s' : lprf_local) :
  rx_polling_active s = 0 -> lprf_rx_resets s = Some s' ->
  timer_stays_off s s'.
Proof.
  intros Hoff.
  apply (rx_resets_elim
           (fun r => r = Some s' -> timer_stays_off s s') s).
  - intros w -> [= <-]. apply tso_then_counter.
    now apply tso_write_register.
  - intros w -> [= <-]. apply tso_then_counter.
    now apply tso_write_register.
  - intros w -> [= <-]. apply tso_then_counter.
    now apply tso_write_subreg.
  - intros w -> [= <-]. apply tso_then_counter.
    now apply tso_write_subreg.
  - intros _ Hrun.
    destruct (lprf_start_frame_write s) as [w|] eqn:E; [|discriminate].
    cbn [mbind option_bind] in Hrun. injection Hrun as <-.
    apply tso_then_counter. now apply tso_start_frame_write.
  - intros w _ -> [= <-]. apply tso_then_counter.
    now apply tso_write_subreg.
  - intros w -> [= <-]. apply tso_then_counter.
    now apply tso_write_subreg.
  - intros _ [= <-]. apply tso_same; [exact Hoff|reflexivity].
Qed.

Lemma tso_async_state_change (s s' : lprf_local) (state : Z) :
  rx_polling_active s = 0 -> lprf_async_state_change s state = Some s' ->
  timer_stays_off s s'.
Proof.
  intros Hoff Hrun. unfold lprf_async_state_change in Hrun.
  cbv zeta in Hrun.
  remember (set_to_state (u8 state) s) as s1 eqn:E1.
  assert (H1 : timer_stays_off s s1).
  { rewrite E1. apply tso_same; [exact Hoff|reflexivity]. }
  apply (tso_trans _ s1); [exact H1|].
  destruct (u8 state =? STATE_CMD_RX).
  - apply tso_rx_resets; [exact (tso_off _ _ H1)|exact Hrun].
  - destruct (u8 state =? STATE_CMD_TX); injection Hrun as <-.
    + apply tso_write_subreg. exact (tso_off _ _ H1).
    + apply tso_same; [exact (tso_off _ _ H1)|reflexivity].
Qed.

Lemma tso_evaluate_phy_status (s s' : lprf_local) (phy_status : Z) :
  rx_polling_active s = 0 -> lprf_evaluate_phy_status s phy_status = Some s' ->
  timer_stays_off s s'.
Proof.
  intros Hoff Hrun. unfold lprf_evaluate_phy_status in Hrun.
  cbv zeta in Hrun.
  remember (set_transition_in_progress
              (atomic_inc (transition_in_progress s)) s) as s1 eqn:E1.
  assert (H1 : timer_stays_off s s1).
  { rewrite E1. apply tso_same; [exact Hoff|reflexivity]. }
  clear E1.
  destruct (negb (transition_in_progress s1 =? 1)).
  { injection Hrun as <-. apply (tso_trans _ s1); [exact H1|].
    apply tso_same; [exact (tso_off _ _ H1)|reflexivity]. }
  remember (if negb (PHY_SM_STATUS (u8 phy_status) =? PHY_SM_SENDING)
               && tx_complete s1
            then lprf_tx_complete s1 else s1) as s2 eqn:E2.
  assert (H2 : timer_stays_off s s2).
  { rewrite E2. destruct (_ && _); [|exact H1].
    apply (tso_trans _ s1); [exact H1|].
    apply tso_tx_complete. exact (tso_off _ _ H1). }
  clear E2.
  apply (tso_trans _ s2); [exact H2|].
  pose proof (tso_off _ _ H2) as Hoff2.
  destruct (_ && _).
  { injection Hrun as <-. now apply tso_read_lprf_fifo. }
  destruct (_ && _).
  { now apply (tso_async_state_change s2 s' STATE_CMD_TX). }
  destruct (_ && _).
  { now apply (tso_async_state_change s2 s' STATE_CMD_RX). }
  remember (set_transition_in_progress _ s2) as s3 eqn:E3.
  assert (Hoff3 : rx_polling_active s3 = 0) by (rewrite E3; exact Hoff2).
  assert (H3 : timer_stays_off s2 s3).
  { rewrite E3. apply tso_same; [exact Hoff2|reflexivity]. }
  rewrite !polling_timer_off in Hrun by exact Hoff3.
  destruct (_ =? _); [destruct (negb _)|]; injection Hrun as <-; exact H3.
Qed.

Lemma tso_phy_status_complete (s s' : lprf_local) :
  rx_polling_active s = 0 -> lprf_phy_status_complete s = Some s' ->
  timer_stays_off s s'.
Proof.
  intros Hoff Hrun. unfold lprf_phy_status_complete in Hrun.
  cbv zeta in Hrun.
  remember (set_phy_status_is_active _ s) as s1 eqn:E1.
  assert (H1 : timer_stays_off s s1).
  { rewrite E1. apply tso_same; [exact Hoff|reflexivity]. }
  apply (tso_trans _ s1); [exact H1|].
  apply (tso_evaluate_phy_status s1 s' _ (tso_off _ _ H1) Hrun).
Qed.

Lemma tso_write_data_to_char_driver (s : lprf_local) (data : list Z) :
  rx_polling_active s = 0 ->
  timer_stays_off s (write_data_to_char_driver s data).
Proof.
  intros Hoff. unfold write_data_to_char_driver.
  destruct (_ =? 0).
  - apply tso_same; [exact Hoff|reflexivity].
  - now apply tso_emit.
Qed.

Lemma tso_read_frame_complete (s s' : lprf_local) :
  rx_polling_active s = 0 -> __lprf_read_frame_complete s = Some s' ->
  timer_stays_off s s'.
Proof.
  intros Hoff Hrun. unfold __lprf_read_frame_complete in Hrun.
  cbv zeta in Hrun.
  destruct (rd (rx_buf s) 0) as [st|]; [|discriminate].
  cbn [mbind option_bind] in Hrun.
  destruct (rd (rx_buf s) 1) as [len|]; [|discriminate].
  cbn [mbind option_bind] in Hrun.
  destruct (preprocess_received_data _ len) as [buf|]; [|discriminate].
  cbn [mbind option_bind] in Hrun.
  destruct (read_range buf 0 len) as [data|]; [|discriminate].
  cbn [mbind option_bind] in Hrun.
  remember (set_rx_buf (take 2 (rx_buf s) ++ buf) s) as s1 eqn:E1.
  assert (H1 : timer_stays_off s s1).
  { rewrite E1. apply tso_same; [exact Hoff|reflexivity]. }
  clear E1.
  remember (write_data_to_char_driver s1 data) as s2 eqn:E2.
  assert (H2 : timer_stays_off s s2).
  { rewrite E2. apply (tso_trans _ s1); [exact H1|].
    apply tso_write_data_to_char_driver. exact (tso_off _ _ H1). }
  clear E2.
  remember (emit (wake_up wait_for_rx_data) s2) as s3 eqn:E3.
  assert (H3 : timer_stays_off s s3).
  { rewrite E3. apply (tso_trans _ s2); [exact H2|].
    apply tso_emit; [exact (tso_off _ _ H2)|reflexivity]. }
  clear E3.
  destruct (lprf_receive_ieee802154_data _ buf len)
    as [[[rc buf'] delivered]|]; [|discriminate].
  cbn [mbind option_bind] in Hrun.
  remember (set_rx_buf (take 2 (rx_buf s3) ++ buf') s3) as s4 eqn:E4.
  assert (H4 : timer_stays_off s s4).
  { rewrite E4. apply (tso_trans _ s3); [exact H3|].
    apply tso_same; [exact (tso_off _ _ H3)|reflexivity]. }
  clear E4.
  remember (match delivered with
            | Some skb => emit (ieee802154_rx_irqsafe skb 0) s4
            | None => s4
            end) as s5 eqn:E5.
  assert (H5 : timer_stays_off s s5).
  { rewrite E5. destruct delivered; [|exact H4].
    apply (tso_trans _ s4); [exact H4|].
    apply tso_emit; [exact (tso_off _ _ H4)|reflexivity]. }
  clear E5.
  remember (set_transition_in_progress _ s5) as s6 eqn:E6.
  assert (H6 : timer_stays_off s s6).
  { rewrite E6. apply (tso_trans _ s5); [exact H5|].
    apply tso_same; [exact (tso_off _ _ H5)|reflexivity]. }
  clear E6.
  injection Hrun as <-.
  apply (tso_trans _ s6); [exact H6|].
  apply tso_phy_status_async. exact (tso_off _ _ H6).
Qed.

(** X17 (lprf_stop_polling, lprf_start_polling_timer and the completion
    callbacks).  Once polling has been switched off, as
    [lprf_stop_ieee802154] does before it writes to the chip, the steps of
    the driver that are still under way finish without starting the timer:
    the timer callback, a transmit request and every completion callback
    other than the one that ends an error recovery leave polling off and
    add no timer start to the trace, whatever the dispatches return. *)
Theorem stopped_polling_stays_off `{lprf_registers_h_more}
    (s0 : lprf_local) (st : regmap_state) :
  rx_polling_active (fst (lprf_stop_ieee802154 s0 st)) = 0
  /\ (forall s s' cb,
        rx_polling_active s = 0 ->
        cb <> lprf_async_error_recover_callback_cb ->
        run_callback cb s = Some s' -> timer_stays_off s s')
  /\ (forall s, rx_polling_active s = 0 ->
        timer_stays_off s (lprf_start_poll s))
  /\ (forall s skb, rx_polling_active s = 0 ->
        timer_stays_off s (snd (lprf_xmit_ieee802154_async s skb))).
Proof.
  split; [reflexivity|]. split; [|split].
  - intros s s' cb Hoff Hcb Hrun.
    destruct cb; cbn [run_callback] in Hrun.
    + now apply tso_phy_status_complete.
    + congruence.
    + injection Hrun as <-. unfold lprf_async_error_recover.
      now apply tso_write_register.
    + injection Hrun as <-. now apply tso_tx_change_complete.
    + injection Hrun as <-. unfold __lprf_frame_write_complete.
      now apply tso_write_subreg.
    + injection Hrun as <-. now apply tso_rx_change_complete.
    + now apply tso_read_frame_complete.
    + now apply tso_rx_resets.
  - intros s Hoff. now apply tso_phy_status_async.
  - intros s skb Hoff. unfold lprf_xmit_ieee802154_async.
    destruct (bool_decide _); cbn [snd].
    + apply tso_same; [exact Hoff|reflexivity].
    + apply (tso_trans _ (set_tx_skb (Some skb) s)).
      * apply tso_same; [exact Hoff|reflexivity].
      * now apply tso_phy_status_async.
Qed.

End TimerOffCallbacks.

Lemma stopped_polling_stays_off_witness :
  timer_stays_off (set_rx_polling_active 0 idle_state)
    (lprf_rx_change_complete (set_rx_polling_active 0 idle_state)).
Proof.
  destruct (@stopped_polling_stays_off sample_registers linux_ieee802154
              sample_registers_more idle_state ([], []))
    as (_ & Hcb & _).
  apply (Hcb _ _ lprf_rx_change_complete_cb).
  - reflexivity.
  - discriminate.
  - reflexivity.
Defined.

(** ** Completion of a frame read *)

Section ReadFrame.
Context `{lprf_registers_h} `{linux_ieee802154_h}.

Lemma receive_frame_total (alloc_ok : bool) (buffer : list Z) (n b0 : Z) :
  n < Z.of_nat (length buffer) -> rd buffer 0 = Some b0 -> 0 <= b0 ->
  0 <= IEEE802154_MTU ->
  exists rc delivered,
    receive_frame alloc_ok buffer n = Some (rc, buffer, delivered).
Proof.
  intros Hn Hb0 Hpos Hmtu. unfold receive_frame. rewrite Hb0.
  cbn [mbind option_bind].
  set (fl := if ieee802154_is_valid_psdu_len (u8 b0) then b0
             else IEEE802154_MTU).
  assert (Hfl : 0 <= fl).
  { unfold fl. destruct (ieee802154_is_valid_psdu_len (u8 b0)); lia. }
  destruct (n <? fl) eqn:E1; [eauto|]. zbool.
  destruct (negb alloc_ok); [eauto|].
  unfold read_range.
  destruct (0 <=? 1) eqn:E2; [|discriminate].
  destruct (0 <=? fl) eqn:E3; [|zbool; lia].
  destruct (1 + fl <=? Z.of_nat (length buffer)) eqn:E4; [|zbool; lia].
  cbn [andb mbind option_bind]. eauto.
Qed.

(** [lprf_receive_ieee802154_data] never leaves the 256 bytes behind the
    two header bytes of the receive buffer, whatever they hold. *)
Lemma receive_data_total (alloc_ok : bool) (buf : list Z) (len : Z) :
  length buf = 256%nat -> Forall is_byte buf -> 0 <= len <= 255 ->
  0 <= IEEE802154_MTU ->
  exists rc buf' delivered,
    lprf_receive_ieee802154_data alloc_ok buf len
    = Some (rc, buf', delivered)
    /\ length buf' = 256%nat.
Proof.
  intros Hlen Hbytes Hl Hmtu.
  unfold lprf_receive_ieee802154_data.
  assert (Hrd : forall i, 0 <= i < 256 ->
            exists v, rd buf i = Some v /\ 0 <= v).
  { intros i Hi. destruct (rd_in_range buf i) as [v Hv]; [lia|].
    exists v. split; [exact Hv|].
    rewrite rd_lookup in Hv by lia.
    rewrite Forall_lookup in Hbytes.
    specialize (Hbytes _ _ Hv). unfold is_byte in Hbytes. lia. }
  destruct (Z_lt_le_dec len 5) as [Hshort|Hlong].
  - (* the search gives up with -EFAULT, which the caller takes for found *)
    assert (Hfind : find_SFD_and_shift_data buf len 0xe5 4
                    = Some (- EFAULT, buf, len)).
    { unfold find_SFD_and_shift_data.
      change (s32 (s32 (4 - 1) + 2)) with 5.
      destruct (len <? 5) eqn:E; [reflexivity|zbool; lia]. }
    rewrite Hfind. cbn [mbind option_bind].
    change (- EFAULT =? 0) with false. cbv iota.
    destruct (Hrd 0) as (b0 & Hb0 & Hpos); [lia|].
    destruct (receive_frame_total alloc_ok buf len b0) as (rc & d & Hr);
      [lia|exact Hb0|exact Hpos|exact Hmtu|].
    exists rc, buf, d. split; [exact Hr|exact Hlen].
  - destruct (Hrd 3) as (d0 & Hd0 & _); [lia|].
    destruct (Hrd 4) as (d1 & Hd1 & _); [lia|].
    rewrite (find_SFD_long_buffer buf len 0xe5 4 d0 d1);
      [|unfold is_int; lia|lia|lia|exact Hd0|exact Hd1].
    cbv zeta.
    destruct (_ && _).
    { cbn [mbind option_bind]. change (0 =? 0) with true. cbv iota.
      exists (- EINVAL), buf, None. split; [reflexivity|exact Hlen]. }
    set (sh := chosen_shift _ _).
    destruct (find_SFD_copy buf len 4 sh) as (buf' & Hrun & Hl' & Hcopy);
      [lia|lia|lia|].
    rewrite Hrun. cbn [mbind option_bind].
    assert (Hsh : sh = 7 \/ sh = 6 \/ sh = 8).
    { unfold sh, chosen_shift.
      destruct (7 <=? _); [auto|]. destruct (7 <=? _); auto. }
    destruct (sh =? 0) eqn:E0; [zbool; lia|].
    destruct (Hrd 4) as (hi & Hhi & _); [lia|].
    destruct (Hrd 5) as (lo & Hlo & _); [lia|].
    assert (Hb0 : rd buf' 0 = Some (u8 (window hi lo sh))).
    { apply (Hcopy 0 hi lo); [lia|exact Hhi|exact Hlo]. }
    destruct (receive_frame_total alloc_ok buf' (len - 4)
                (u8 (window hi lo sh))) as (rc & d & Hr);
      [lia|exact Hb0|pose proof (u8_byte (window hi lo sh)) as Hu;
                     unfold is_byte in Hu; lia|exact Hmtu|].
    exists rc, buf', d. split; [exact Hr|]. now rewrite Hl'.
Qed.

Lemma write_register_from_rx_buf (rets : list Z) (s : lprf_local)
    (address value : Z) (complete : callback) :
  rx_buf (lprf_async_write_register_from rets s address value complete)
  = rx_buf s.
Proof.
  revert s address value complete.
  induction rets as [|r rets IH]; intros s address value complete.
  - rewrite write_register_from_nil. reflexivity.
  - rewrite write_register_from_cons. cbv zeta.
    destruct (fst _ =? 0); [reflexivity|].
    rewrite IH. reflexivity.
Qed.

Lemma error_rx_buf (s : lprf_local) (rc : Z) :
  rx_buf (lprf_async_error s rc) = rx_buf s.
Proof.
  unfold lprf_async_error, lprf_async_write_register. cbv zeta.
  rewrite write_register_from_rx_buf. reflexivity.
Qed.

Lemma kept_write_data_to_char_driver (s : lprf_local) (data : list Z) :
  kept_by_register_write (write_data_to_char_driver s data)
  = kept_by_register_write s
  /\ rx_buf (write_data_to_char_driver s data) = rx_buf s
  /\ dev_alloc_skb_ok (write_data_to_char_driver s data)
     = dev_alloc_skb_ok s.
Proof.
  unfold write_data_to_char_driver. destruct (_ =? 0); repeat split.
Qed.

Lemma poll_fields (s : lprf_local) :
  kept_by_register_write (snd (lprf_phy_status_async s))
  = kept_by_register_write s
  /\ rx_buf (snd (lprf_phy_status_async s)) = rx_buf s.
Proof.
  split; [apply phy_status_async_kept|].
  unfold lprf_phy_status_async. cbv zeta.
  destruct (negb (phy_status_is_active _ =? 1)); [reflexivity|].
  remember (hd 0 _) as ret.
  remember (emit (spi_async_phy_status ret) _) as s1 eqn:E1.
  assert (B1 : rx_buf s1 = rx_buf s) by (rewrite E1; reflexivity).
  clear E1.
  destruct (negb (ret =? 0)); cbn [snd]; [|exact B1].
  rewrite <- B1. apply error_rx_buf.
Qed.

(** X18 (__lprf_read_frame_complete, lprf_receive_ieee802154_data).
    Whatever 258 bytes the chip has put into the receive buffer, the
    completion of a frame read stays within the buffer, releases the
    transition guard exactly once and leaves the step counter and the
    pending transmit frame alone. *)
Theorem read_frame_complete_safe (s : lprf_local) :
  length (rx_buf s) = 258%nat -> Forall is_byte (rx_buf s) ->
  0 <= IEEE802154_MTU ->
  exists s',
    __lprf_read_frame_complete s = Some s'
    /\ transition_in_progress s'
       = atomic_dec (transition_in_progress s)
    /\ length (rx_buf s') = 258%nat
    /\ reset_counter s' = reset_counter s
    /\ tx_skb s' = tx_skb s.
Proof.
  intros Hlen Hbytes Hmtu.
  destruct (rx_buf s) as [|st [|len data]] eqn:Ebuf;
    [discriminate|discriminate|].
  assert (Hd : length data = 256%nat) by (simpl in Hlen; lia).
  assert (Hlb : is_byte len).
  { inversion Hbytes as [|? ? _ Hb1]; subst.
    now inversion Hb1. }
  assert (Hdb : Forall is_byte data).
  { inversion Hbytes as [|? ? _ Hb1]; subst.
    now inversion Hb1. }
  unfold is_byte in Hlb.
  unfold __lprf_read_frame_complete. cbv zeta. rewrite Ebuf.
  change (rd (st :: len :: data) 0) with (Some st).
  change (rd (st :: len :: data) 1) with (Some len).
  cbn [mbind option_bind].
  change (drop 2 (st :: len :: data)) with data.
  change (take 2 (st :: len :: data)) with [st; len].
  (* pre-processing *)
  set (n := Z.to_nat len).
  set (f := fun b => not8 (reverse_bit_order b)).
  assert (Hpre : preprocess_received_data data len
                 = Some (map f (take n data) ++ drop n data)).
  { rewrite <- (take_drop n data) at 1.
    replace len with (Z.of_nat (length (take n data)))
      by (rewrite length_take; lia).
    apply preprocess_received_data_spec. }
  rewrite Hpre. cbn [mbind option_bind].
  set (buf := map f (take n data) ++ drop n data).
  assert (Hbl : length buf = 256%nat).
  { unfold buf. rewrite length_app, length_map, <- length_app, take_drop.
    exact Hd. }
  assert (Hbb : Forall is_byte buf).
  { unfold buf. apply Forall_app. split.
    - apply Forall_map. apply Forall_true. intros b. apply u8_byte.
    - now apply Forall_drop. }
  assert (Hread : read_range buf 0 len = Some (take n buf)).
  { unfold read_range.
    destruct (0 <=? 0) eqn:E1; [|discriminate].
    destruct (0 <=? len) eqn:E2; [|zbool; lia].
    destruct (0 + len <=? Z.of_nat (length buf)) eqn:E3; [|zbool; lia].
    reflexivity. }
  rewrite Hread. cbn [mbind option_bind].
  remember (set_rx_buf ([st; len] ++ buf) s) as s1 eqn:E1.
  assert (K1 : kept_by_register_write s1 = kept_by_register_write s
               /\ rx_buf s1 = [st; len] ++ buf)
    by (rewrite E1; split; reflexivity).
  clear E1.
  destruct (kept_write_data_to_char_driver s1 (take n buf))
    as (K2 & B2 & A2).
  remember (write_data_to_char_driver s1 (take n buf)) as s2 eqn:E2.
  clear E2.
  remember (emit (wake_up wait_for_rx_data) s2) as s3 eqn:E3.
  assert (K3 : kept_by_register_write s3 = kept_by_register_write s2
               /\ rx_buf s3 = rx_buf s2)
    by (rewrite E3; split; reflexivity).
  assert (A3 : dev_alloc_skb_ok s3 = dev_alloc_skb_ok s2)
    by (rewrite E3; reflexivity).
  clear E3.
  destruct (receive_data_total (dev_alloc_skb_ok s3) buf len Hbl Hbb)
    as (rc & buf' & delivered & Hrecv & Hbl'); [lia|exact Hmtu|].
  rewrite Hrecv. cbn [mbind option_bind].
  destruct K3 as (K3 & B3). destruct K1 as (K1 & B1).
  rewrite B3, B2, B1.
  change (take 2 ([st; len] ++ buf)) with [st; len].
  remember (set_rx_buf ([st; len] ++ buf') s3) as s4 eqn:E4.
  assert (K4 : kept_by_register_write s4 = kept_by_register_write s3
               /\ rx_buf s4 = [st; len] ++ buf')
    by (rewrite E4; split; reflexivity).
  clear E4. destruct K4 as (K4 & B4).
  remember (match delivered with
            | Some skb => emit (ieee802154_rx_irqsafe skb 0) s4
            | None => s4
            end) as s5 eqn:E5.
  assert (K5 : kept_by_register_write s5 = kept_by_register_write s4
               /\ rx_buf s5 = rx_buf s4)
    by (rewrite E5; destruct delivered; split; reflexivity).
  clear E5. destruct K5 as (K5 & B5).
  remember (set_transition_in_progress
              (atomic_dec (transition_in_progress s5)) s5) as s6 eqn:E6.
  assert (K6 : reset_counter s6 = reset_counter s5
               /\ tx_skb s6 = tx_skb s5
               /\ transition_in_progress s6
                  = atomic_dec (transition_in_progress s5)
               /\ rx_buf s6 = rx_buf s5)
    by (rewrite E6; repeat split).
  clear E6. destruct K6 as (C6 & S6 & T6 & B6).
  destruct (poll_fields s6) as (Kp & Bp).
  eexists. split; [reflexivity|].
  assert (K : kept_by_register_write s5 = kept_by_register_write s)
    by congruence.
  unfold kept_by_register_write in K, Kp.
  split; [|split; [|split]].
  - transitivity (transition_in_progress s6); [congruence|].
    rewrite T6. congruence.
  - rewrite Bp, B6, B5, B4. simpl length. now rewrite Hbl'.
  - transitivity (reset_counter s6); congruence.
  - transitivity (tx_skb s6); congruence.
Qed.

End ReadFrame.

Lemma shift_loop_length (n : nat) (i ds shift : Z) (data data' : list Z) :
  shift_loop n i ds shift data = Some data' -> length data' = length data.
Proof.
  revert i data. induction n as [|n IH]; intros i data Hrun.
  - injection Hrun as <-. reflexivity.
  - cbn [shift_loop] in Hrun. unfold mbind, option_bind in Hrun.
    destruct (rd data (i + ds)) as [hi|]; [|discriminate].
    destruct (rd data (i + ds + 1)) as [lo|]; [|discriminate].
    unfold wr in Hrun.
    destruct (_ && _); [|discriminate].
    apply IH in Hrun. now rewrite length_insert in Hrun.
Qed.

Lemma find_SFD_length (data : list Z) (n sfd p r n' : Z) (out : list Z) :
  find_SFD_and_shift_data data n sfd p = Some (r, out, n') ->
  length out = length data.
Proof.
  unfold find_SFD_and_shift_data. cbv zeta.
  destruct (n <? _); [intros [= _ <- _]; reflexivity|].
  unfold mbind, option_bind.
  destruct (rd data _) as [d0|]; [|discriminate].
  destruct (rd data _) as [d1|]; [|discriminate].
  destruct (_ && _); [intros [= _ <- _]; reflexivity|].
  destruct (shift_loop _ _ _ _ _) as [out'|] eqn:Eloop; [|discriminate].
  intros [= _ <- _]. now apply shift_loop_length in Eloop.
Qed.

Lemma read_frame_complete_safe_witness :
  exists s',
    @__lprf_read_frame_complete sample_registers linux_ieee802154 idle_state
    = Some s'
    /\ transition_in_progress s' = atomic_dec 0
    /\ length (rx_buf s') = 258%nat
    /\ reset_counter s' = 0
    /\ tx_skb s' = None.
Proof.
  apply (@read_frame_complete_safe sample_registers linux_ieee802154
           idle_state).
  - reflexivity.
  - apply Forall_replicate. unfold is_byte. lia.
  - simpl. lia.
Defined.

Section ReadFrameDelivery.
Context `{lprf_registers_h} `{linux_ieee802154_h}.

(** The receive path on a frame that arrives aligned: three preamble bytes,
    the delimiter, the length byte and the payload. *)
Lemma receive_data_delivers (p0 p1 p2 : Z) (payload slack : list Z) :
  is_byte p0 -> is_byte p1 -> is_byte p2 ->
  Forall is_byte payload -> Forall is_byte slack -> slack <> [] ->
  Z.of_nat (length payload) < 256 ->
  ieee802154_is_valid_psdu_len (Z.of_nat (length payload)) = true ->
  let L := Z.of_nat (length payload) in
  let frame := [p0; p1; p2; 0xe5] ++ L :: payload in
  exists buffer,
    lprf_receive_ieee802154_data true (frame ++ slack) (5 + L)
    = Some (0, buffer, Some payload)
    /\ length buffer = length (frame ++ slack).
Proof.
  intros Hp0 Hp1 Hp2 Hpay Hslack Hsne Hlt Hvalid L frame.
  assert (HL : is_byte L) by (unfold is_byte, L; lia).
  destruct (recover_unshifted p0 p1 p2 0 (L :: payload) slack)
    as (out & Hfind & Htake); try assumption.
  { unfold is_byte. lia. }
  { apply Forall_cons. split; assumption. }
  { discriminate. }
  { simpl length. fold L. unfold L in *. lia. }
  replace (Z.of_nat (length (L :: payload))) with (L + 1) in Hfind
    by (simpl length; unfold L; lia).
  assert (Hlen : length out = length (frame ++ slack))
    by (exact (find_SFD_length _ _ _ _ _ _ _ Hfind)).
  exists out. split; [|exact Hlen].
  unfold lprf_receive_ieee802154_data.
  replace (5 + L) with (4 + (L + 1)) by lia.
  fold frame in Hfind. rewrite Hfind.
  unfold mbind, option_bind. cbv beta iota.
  change (8 =? 0) with false. cbv iota.
  apply (receive_frame_spec out payload (drop (length (L :: payload)) out));
    [exact Hlt|exact Hvalid|].
  rewrite <- (take_drop (length (L :: payload)) out) at 1.
  now rewrite Htake.
Qed.

End ReadFrameDelivery.

Section ReadFrameTrace.
Context `{lprf_registers_h} `{linux_ieee802154_h}.

Lemma write_data_to_char_driver_fields (s : lprf_local) (data : list Z) :
  let s' := write_data_to_char_driver s data in
  trace s' = trace s ++ (if char_driver_is_ready s =? 0 then []
                         else [kfifo_in data])
  /\ (phy_status_is_active s', spi_async_rets s', dev_alloc_skb_ok s',
      rx_buf s', transition_in_progress s')
     = (phy_status_is_active s, spi_async_rets s, dev_alloc_skb_ok s,
        rx_buf s, transition_in_progress s).
Proof.
  unfold write_data_to_char_driver.
  destruct (char_driver_is_ready s =? 0); cbv zeta.
  - split; [now rewrite app_nil_r|reflexivity].
  - split; reflexivity.
Qed.

(** X19 (__lprf_read_frame_complete).  When the chip hands back a frame
    that carries a valid length byte behind three preamble bytes and the
    delimiter, inverted and bit-reversed, the completion of the frame read
    passes the corrected bytes to the character device if that is open,
    wakes its reader, delivers exactly the payload to the 802.15.4 stack,
    releases the transition guard and starts the next status poll. *)
Theorem read_frame_complete_delivers (s : lprf_local) (st p0 p1 p2 : Z)
    (payload slack : list Z) :
  is_byte p0 -> is_byte p1 -> is_byte p2 ->
  Forall is_byte payload -> Forall is_byte slack -> slack <> [] ->
  let L := Z.of_nat (length payload) in
  let frame := [p0; p1; p2; 0xe5] ++ L :: payload in
  5 + L < 256 ->
  ieee802154_is_valid_psdu_len L = true ->
  rx_buf s
  = [st; 5 + L] ++ map not8 (map reverse_bit_order frame) ++ slack ->
  dev_alloc_skb_ok s = true ->
  phy_status_is_active s = 0 -> spi_async_rets s = [] ->
  exists s',
    __lprf_read_frame_complete s = Some s'
    /\ trace s'
       = trace s
         ++ (if char_driver_is_ready s =? 0 then [] else [kfifo_in frame])
         ++ [wake_up wait_for_rx_data; ieee802154_rx_irqsafe payload 0;
             spi_async_phy_status 0]
    /\ transition_in_progress s' = atomic_dec (transition_in_progress s).
Proof.
  intros Hp0 Hp1 Hp2 Hpay Hslack Hsne L frame Hlt Hvalid Hbuf Halloc Hact
         Hrets.
  assert (HL : is_byte L) by (unfold is_byte, L; lia).
  assert (Hfb : Forall is_byte frame).
  { unfold frame.
    repeat (apply Forall_cons; split; [assumption || (unfold is_byte; lia)|]).
    exact Hpay. }
  assert (Hfl : Z.of_nat (length frame) = 5 + L).
  { unfold frame. simpl length. unfold L. lia. }
  set (raw := map not8 (map reverse_bit_order frame)) in *.
  assert (Hrl : Z.of_nat (length raw) = 5 + L).
  { unfold raw. now rewrite !length_map. }
  unfold __lprf_read_frame_complete. cbv zeta. rewrite Hbuf.
  change (rd ([st; 5 + L] ++ raw ++ slack) 0) with (Some st).
  change (rd ([st; 5 + L] ++ raw ++ slack) 1) with (Some (5 + L)).
  cbn [mbind option_bind].
  change (drop 2 ([st; 5 + L] ++ raw ++ slack)) with (raw ++ slack).
  change (take 2 ([st; 5 + L] ++ raw ++ slack)) with [st; 5 + L].
  assert (Hpre : preprocess_received_data (raw ++ slack) (5 + L)
                 = Some (frame ++ slack)).
  { rewrite <- Hrl, preprocess_received_data_spec. unfold raw.
    now rewrite correct_inverted_reversed_list. }
  rewrite Hpre. cbn [mbind option_bind].
  assert (Hread : read_range (frame ++ slack) 0 (5 + L) = Some frame).
  { unfold read_range.
    destruct (0 <=? 0) eqn:E1; [|discriminate].
    destruct (0 <=? 5 + L) eqn:E2; [|zbool; lia].
    destruct (0 + (5 + L) <=? Z.of_nat (length (frame ++ slack))) eqn:E3.
    2:{ zbool. rewrite length_app in E3. lia. }
    cbn [andb]. rewrite <- Hfl, Nat2Z.id.
    change (drop (Z.to_nat 0) (frame ++ slack)) with (frame ++ slack).
    now rewrite take_app_length. }
  rewrite Hread. cbn [mbind option_bind].
  remember (set_rx_buf ([st; 5 + L] ++ frame ++ slack) s) as s1 eqn:E1.
  assert (F1 : trace s1 = trace s
               /\ char_driver_is_ready s1 = char_driver_is_ready s
               /\ (phy_status_is_active s1, spi_async_rets s1,
                   dev_alloc_skb_ok s1, transition_in_progress s1)
                  = (phy_status_is_active s, spi_async_rets s,
                     dev_alloc_skb_ok s, transition_in_progress s)
               /\ rx_buf s1 = [st; 5 + L] ++ frame ++ slack)
    by (rewrite E1; repeat split).
  clear E1. destruct F1 as (T1 & R1 & F1 & B1).
  destruct (write_data_to_char_driver_fields s1 frame) as (T2 & F2).
  remember (write_data_to_char_driver s1 frame) as s2 eqn:E2. clear E2.
  rewrite T1, R1 in T2.
  remember (emit (wake_up wait_for_rx_data) s2) as s3 eqn:E3.
  assert (F3 : trace s3 = trace s2 ++ [wake_up wait_for_rx_data]
               /\ (phy_status_is_active s3, spi_async_rets s3,
                   dev_alloc_skb_ok s3, rx_buf s3,
                   transition_in_progress s3)
                  = (phy_status_is_active s2, spi_async_rets s2,
                     dev_alloc_skb_ok s2, rx_buf s2,
                     transition_in_progress s2))
    by (rewrite E3; split; reflexivity).
  clear E3. destruct F3 as (T3 & F3).
  assert (A3 : dev_alloc_skb_ok s3 = true) by congruence.
  assert (B3 : rx_buf s3 = [st; 5 + L] ++ frame ++ slack) by congruence.
  destruct (receive_data_delivers p0 p1 p2 payload slack)
    as (buffer & Hrecv & _); try assumption; [unfold L in *; lia|].
  fold L in Hrecv. fold frame in Hrecv.
  rewrite A3, Hrecv. cbn [mbind option_bind].
  rewrite B3. change (take 2 ([st; 5 + L] ++ frame ++ slack))
    with [st; 5 + L].
  remember (set_rx_buf ([st; 5 + L] ++ buffer) s3) as s4 eqn:E4.
  remember (emit (ieee802154_rx_irqsafe payload 0) s4) as s5 eqn:E5.
  remember (set_transition_in_progress
              (atomic_dec (transition_in_progress s5)) s5) as s6 eqn:E6.
  assert (F6 : trace s6 = trace s3 ++ [ieee802154_rx_irqsafe payload 0]
               /\ phy_status_is_active s6 = phy_status_is_active s3
               /\ spi_async_rets s6 = spi_async_rets s3
               /\ transition_in_progress s6
                  = atomic_dec (transition_in_progress s3))
    by (rewrite E6, E5, E4; repeat split).
  clear E4 E5 E6. destruct F6 as (T6 & A6 & R6 & G6).
  destruct (poll_ok s6) as (_ & T7 & _ & _ & _ & _ & _ & _ & _ & K7);
    [congruence|congruence|].
  eexists. split; [reflexivity|]. split.
  - rewrite T7, T6, T3, T2. rewrite <- !app_assoc. reflexivity.
  - unfold kept_by_register_write in K7.
    transitivity (transition_in_progress s6); [congruence|].
    rewrite G6. congruence.
Qed.

End ReadFrameTrace.

Lemma read_frame_complete_delivers_witness :
  let raw := map not8 (map reverse_bit_order
                         [0x55; 0x55; 0x55; 0xe5; 5; 1; 2; 3; 4; 5]) in
  exists s',
    @__lprf_read_frame_complete sample_registers linux_ieee802154
       (set_rx_buf ([0x40; 10] ++ raw ++ [0]) idle_state) = Some s'
    /\ trace s'
       = [wake_up wait_for_rx_data; ieee802154_rx_irqsafe [1; 2; 3; 4; 5] 0;
          spi_async_phy_status 0]
    /\ transition_in_progress s' = atomic_dec 0.
Proof.
  intros raw.
  assert (B : forall x, 0 <= x < 256 -> is_byte x) by (intros; assumption).
  apply (@read_frame_complete_delivers sample_registers linux_ieee802154
           (set_rx_buf ([0x40; 10] ++ raw ++ [0]) idle_state)
           0x40 0x55 0x55 0x55 [1; 2; 3; 4; 5] [0]);
    try (apply B; lia); try reflexivity.
  - repeat constructor; apply B; lia.
  - repeat constructor; apply B; lia.
  - discriminate.
Defined.

(** ** A transmission from request to completion *)

Section Transmit.
Context `{lprf_registers_h} `{linux_ieee802154_h}.

Lemma start_frame_write_untouched (s s' : lprf_local) :
  lprf_start_frame_write s = Some s' ->
  untouched_by_dispatch s' = untouched_by_dispatch s
  /\ spi_async_rets s' = tl (spi_async_rets s).
Proof.
  intros Hrun. unfold lprf_start_frame_write in Hrun.
  destruct (tx_skb s) as [skb|]; [|discriminate].
  cbn [mbind option_bind] in Hrun. cbv zeta in Hrun.
  destruct (wr (tx_buf s) 0 _) as [b1|]; [|discriminate].
  cbn [mbind option_bind] in Hrun.
  destruct (wr b1 1 _) as [b2|]; [|discriminate].
  cbn [mbind option_bind] in Hrun.
  destruct (write_range b2 2 _) as [b3|]; [|discriminate].
  cbn [mbind option_bind] in Hrun.
  destruct (wr b3 _ _) as [b4|]; [|discriminate].
  cbn [mbind option_bind] in Hrun.
  destruct (write_range b4 _ _) as [b5|]; [|discriminate].
  cbn [mbind option_bind] in Hrun.
  destruct (reverse_loop _ _ b5) as [b6|]; [|discriminate].
  cbn [mbind option_bind] in Hrun.
  remember (set_spi_transfer_len _ _) as s1 eqn:E1.
  assert (U1 : untouched_by_dispatch s1 = untouched_by_dispatch s
               /\ spi_async_rets s1 = spi_async_rets s)
    by (rewrite E1; split; reflexivity).
  clear E1. destruct U1 as (U1 & R1).
  assert (U2 : untouched_by_dispatch
                 (snd (spi_async_state_change_message s1))
               = untouched_by_dispatch s1
               /\ spi_async_rets (snd (spi_async_state_change_message s1))
                  = tl (spi_async_rets s1)) by (split; reflexivity).
  destruct (spi_async_state_change_message s1) as [ret s2].
  cbn [snd] in U2. destruct U2 as (U2 & R2).
  injection Hrun as <-. split; congruence.
Qed.

Lemma tx_buf_dispatch (s : lprf_local) :
  tx_buf (snd (spi_async_state_change_message s)) = tx_buf s.
Proof. reflexivity. Qed.

Lemma tx_buf_set_len (v : Z) (s : lprf_local) :
  tx_buf (set_spi_transfer_len v s) = tx_buf s.
Proof. reflexivity. Qed.

Lemma tx_buf_set_complete (v : option callback) (s : lprf_local) :
  tx_buf (set_spi_message_complete v s) = tx_buf s.
Proof. reflexivity. Qed.

Lemma tx_buf_set_tx_buf (b : list Z) (s : lprf_local) :
  tx_buf (set_tx_buf b s) = b.
Proof. reflexivity. Qed.

Lemma start_frame_write_fields (s : lprf_local) (skb : list Z) :
  tx_skb s = Some skb -> PHY_HEADER_LENGTH = 1 ->
  (2 + length SYNC_HEADER + 1 + length skb <= length (tx_buf s))%nat ->
  Z.of_nat (length (tx_buf s)) < 2147483648 ->
  let message :=
    [u8 FRMW;
     u8 (Z.of_nat (length SYNC_HEADER) + 1 + Z.of_nat (length skb))]
    ++ map reverse_bit_order
         (SYNC_HEADER ++ [u8 (Z.of_nat (length skb))] ++ skb) in
  exists s',
    lprf_start_frame_write s = Some s'
    /\ trace s'
       = trace s ++ [spi_async_state_change message
                       (Some lprf_frame_write_complete_cb)
                       (hd 0 (spi_async_rets s))]
    /\ spi_message_complete s' = Some lprf_frame_write_complete_cb
    /\ spi_async_rets s' = tl (spi_async_rets s)
    /\ length (tx_buf s') = length (tx_buf s)
    /\ untouched_by_dispatch s' = untouched_by_dispatch s.
Proof.
  intros Hskb Hphy Hfit Hint message.
  destruct (start_frame_write_ok s skb Hskb Hphy Hfit Hint)
    as (s' & Hrun & Ht & Hcb & _).
  destruct (start_frame_write_untouched s s' Hrun) as (Hu & Hr).
  exists s'. split; [exact Hrun|]. split; [exact Ht|].
  split; [exact Hcb|]. split; [exact Hr|]. split; [|exact Hu].
  pose proof (start_frame_write_spec s skb Hskb Hphy Hfit Hint) as Hspec.
  cbv zeta in Hspec.
  assert (Hb : option_map (fun x => length (tx_buf x))
                 (lprf_start_frame_write s)
               = Some (length (tx_buf s))).
  { rewrite Hspec. cbn [option_map]. f_equal.
    rewrite tx_buf_dispatch, tx_buf_set_len, tx_buf_set_complete,
            tx_buf_set_tx_buf.
    rewrite length_app, length_drop. cbn [length app].
    rewrite length_map, !length_app. cbn [length]. lia. }
  rewrite Hrun in Hb. cbn [option_map] in Hb. now injection Hb.
Qed.

Lemma untouched_dispatch_all (s s' : lprf_local) :
  untouched_by_dispatch s' = untouched_by_dispatch s ->
  rx_polling_active s' = rx_polling_active s
  /\ phy_status_is_active s' = phy_status_is_active s
  /\ to_state s' = to_state s
  /\ transition_in_progress s' = transition_in_progress s
  /\ tx_complete s' = tx_complete s
  /\ sm_main_value s' = sm_main_value s
  /\ dem_main_value s' = dem_main_value s
  /\ tx_skb s' = tx_skb s
  /\ free_skb s' = free_skb s
  /\ reset_counter s' = reset_counter s.
Proof.
  intros Hu.
  destruct (untouched_dispatch_fields _ _ Hu) as (Hp & He).
  destruct (untouched_error_fields _ _ He)
    as (A1 & _ & _ & A4 & A5 & A6 & A7 & A8 & A9 & A10 & A11 & _).
  repeat split; assumption.
Qed.

Lemma write_subreg_ok_full (s : lprf_local) (cached_val : Z) (sr : subreg)
    (data : Z) (complete : callback) :
  spi_async_rets s = [] -> (3 <= length (tx_buf s))%nat ->
  let s' := lprf_async_write_subreg s cached_val sr data complete in
  trace s' = trace s ++ [subreg_write cached_val sr data complete]
  /\ spi_message_complete s' = Some complete
  /\ spi_async_rets s' = []
  /\ length (tx_buf s') = length (tx_buf s)
  /\ untouched_by_dispatch s' = untouched_by_dispatch s.
Proof.
  intros Hrets Hlen. destruct sr as [[addr mask] shift].
  exact (write_register_ok_full s (u8 addr)
           (subreg_reg_val cached_val mask shift data) complete Hrets Hlen).
Qed.

(** The flags that a step of the reset sequence leaves alone. *)
Lemma rx_resets_flags (s s' : lprf_local) :
  lprf_rx_resets s = Some s' ->
  tx_complete s' = tx_complete s /\ free_skb s' = free_skb s.
Proof.
  assert (Hk : forall w, kept_by_register_write w = kept_by_register_write s ->
                 forall v, tx_complete (set_reset_counter v w) = tx_complete s
                           /\ free_skb (set_reset_counter v w) = free_skb s).
  { intros w Hw v.
    change (tx_complete (set_reset_counter v w)) with (tx_complete w).
    change (free_skb (set_reset_counter v w)) with (free_skb w).
    unfold kept_by_register_write in Hw. split; congruence. }
  apply (rx_resets_elim
           (fun r => r = Some s' ->
                     tx_complete s' = tx_complete s
                     /\ free_skb s' = free_skb s) s).
  - intros w -> [= <-]. apply Hk, write_register_kept.
  - intros w -> [= <-]. apply Hk, write_register_kept.
  - intros w -> [= <-]. apply Hk, write_subreg_kept.
  - intros w -> [= <-]. apply Hk, write_subreg_kept.
  - intros _ Hrun.
    destruct (lprf_start_frame_write s) as [w|] eqn:E; [|discriminate].
    cbn [mbind option_bind] in Hrun. injection Hrun as <-.
    destruct (start_frame_write_untouched s w E) as (Hu & _).
    destruct (untouched_dispatch_all _ _ Hu)
      as (_ & _ & _ & _ & A5 & _ & _ & _ & A9 & _).
    split; [exact A5|exact A9].
  - intros w _ -> [= <-]. apply Hk, write_subreg_kept.
  - intros w -> [= <-]. apply Hk, write_subreg_kept.
  - intros _ [= <-]. split; reflexivity.
Qed.

End Transmit.

Section TransmitRun.
Context `{lprf_registers_h} `{linux_ieee802154_h}.

(** The evaluation that finds a pending frame and an empty FIFO starts the
    transition to TX: the guard is taken and the chip is sent to sleep. *)
Lemma evaluate_starts_tx (s : lprf_local) (skb : list Z) (phy_status : Z) :
  transition_in_progress s = 0 -> tx_complete s = false ->
  tx_skb s = Some skb -> spi_async_rets s = [] ->
  (3 <= length (tx_buf s))%nat ->
  is_byte STATE_CMD_TX -> STATE_CMD_TX <> STATE_CMD_RX ->
  PHY_FIFO_EMPTY (u8 phy_status) <> 0 ->
  exists s1,
    lprf_evaluate_phy_status s phy_status = Some s1
    /\ trace s1
       = trace s ++ [subreg_write (sm_main_value s) SR_SM_COMMAND
                       STATE_CMD_SLEEP lprf_rx_resets_cb]
    /\ spi_message_complete s1 = Some lprf_rx_resets_cb
    /\ spi_async_rets s1 = []
    /\ length (tx_buf s1) = length (tx_buf s)
    /\ to_state s1 = STATE_CMD_TX
    /\ transition_in_progress s1 = 1
    /\ (rx_polling_active s1, tx_complete s1, sm_main_value s1,
        dem_main_value s1, tx_skb s1, free_skb s1, reset_counter s1)
       = (rx_polling_active s, tx_complete s, sm_main_value s,
          dem_main_value s, tx_skb s, free_skb s, reset_counter s).
Proof.
  intros Hfree Hdone Hskb Hrets Hlen Hbyte Hne Hfifo.
  unfold lprf_evaluate_phy_status. cbv zeta.
  change (transition_in_progress
            (set_transition_in_progress
               (atomic_inc (transition_in_progress s)) s))
    with (atomic_inc (transition_in_progress s)).
  rewrite Hfree. change (atomic_inc 0 =? 1) with true.
  cbn [negb]. cbv iota.
  change (tx_complete (set_transition_in_progress (atomic_inc 0) s))
    with (tx_complete s).
  rewrite Hdone, andb_false_r.
  destruct (PHY_FIFO_EMPTY (u8 phy_status) =? 0) eqn:E; [zbool; lia|].
  rewrite andb_false_r.
  change (tx_skb (set_transition_in_progress (atomic_inc 0) s))
    with (tx_skb s).
  rewrite Hskb.
  rewrite bool_decide_eq_true_2 by eauto.
  cbn [negb andb].
  unfold lprf_async_state_change. cbv zeta.
  rewrite (u8_id STATE_CMD_TX Hbyte).
  destruct (STATE_CMD_TX =? STATE_CMD_RX) eqn:E1; [zbool; lia|].
  rewrite Z.eqb_refl.
  remember (set_to_state STATE_CMD_TX
              (set_transition_in_progress (atomic_inc 0) s)) as s0 eqn:E0.
  assert (F0 : trace s0 = trace s /\ spi_async_rets s0 = spi_async_rets s
               /\ tx_buf s0 = tx_buf s /\ to_state s0 = STATE_CMD_TX
               /\ transition_in_progress s0 = 1
               /\ (rx_polling_active s0, tx_complete s0, sm_main_value s0,
                   dem_main_value s0, tx_skb s0, free_skb s0,
                   reset_counter s0)
                  = (rx_polling_active s, tx_complete s, sm_main_value s,
                     dem_main_value s, tx_skb s, free_skb s,
                     reset_counter s))
    by (rewrite E0; repeat split).
  clear E0. destruct F0 as (T0 & R0 & B0 & S0 & G0 & U0).
  assert (Hsm : sm_main_value s0 = sm_main_value s) by congruence.
  destruct (write_subreg_ok_full s0 (sm_main_value s0) SR_SM_COMMAND
              STATE_CMD_SLEEP lprf_rx_resets_cb)
    as (T1 & C1 & R1 & L1 & U1).
  { congruence. }
  { rewrite B0. exact Hlen. }
  destruct (untouched_dispatch_all _ _ U1)
    as (A1 & _ & A3 & A4 & A5 & A6 & A7 & A8 & A9 & A10).
  eexists. split; [reflexivity|].
  split; [rewrite T1, T0, Hsm; reflexivity|].
  split; [exact C1|]. split; [exact R1|].
  split; [rewrite L1, B0; reflexivity|].
  split; [congruence|]. split; [congruence|].
  injection U0 as V1 V2 V3 V4 V5 V6 V7. congruence.
Qed.

(** The evaluation that follows a completed transmission, the chip being
    neither sending nor asleep: the frame is handed back and the driver
    polls on. *)
Lemma evaluate_finishes_tx (s : lprf_local) (phy_status : Z) :
  transition_in_progress s = 0 -> tx_complete s = true ->
  PHY_SM_STATUS (u8 phy_status) <> PHY_SM_SENDING ->
  PHY_SM_STATUS (u8 phy_status) <> PHY_SM_SLEEP ->
  exists s',
    lprf_evaluate_phy_status s phy_status = Some s'
    /\ trace s'
       = trace s
         ++ [if free_skb s then kfree_skb (tx_skb s)
             else ieee802154_xmit_complete (tx_skb s);
             wake_up wait_for_tx_ready]
         ++ (if rx_polling_active s =? 0 then []
             else [hrtimer_start
                     (if (PHY_SM_STATUS (u8 phy_status) =? PHY_SM_RECEIVING)
                         && negb (PHY_FIFO_EMPTY (u8 phy_status) =? 0)
                      then RX_POLLING_INTERVAL else RETRY_INTERVAL)])
    /\ tx_skb s' = None /\ tx_complete s' = false /\ free_skb s' = false
    /\ transition_in_progress s' = 0.
Proof.
  intros Hfree Hdone Hsend Hsleep.
  unfold lprf_evaluate_phy_status. cbv zeta.
  change (transition_in_progress
            (set_transition_in_progress
               (atomic_inc (transition_in_progress s)) s))
    with (atomic_inc (transition_in_progress s)).
  rewrite Hfree. change (atomic_inc 0 =? 1) with true.
  cbn [negb]. cbv iota.
  change (tx_complete (set_transition_in_progress (atomic_inc 0) s))
    with (tx_complete s).
  rewrite Hdone.
  destruct (PHY_SM_STATUS (u8 phy_status) =? PHY_SM_SENDING) eqn:E1;
    [zbool; lia|].
  destruct (PHY_SM_STATUS (u8 phy_status) =? PHY_SM_SLEEP) eqn:E2;
    [zbool; lia|].
  cbn [negb andb]. cbv iota.
  remember (lprf_tx_complete
              (set_transition_in_progress (atomic_inc 0) s)) as s1 eqn:E.
  assert (F1 : trace s1
               = trace s ++ [if free_skb s then kfree_skb (tx_skb s)
                             else ieee802154_xmit_complete (tx_skb s);
                             wake_up wait_for_tx_ready]
               /\ tx_skb s1 = None /\ tx_complete s1 = false
               /\ free_skb s1 = false
               /\ rx_polling_active s1 = rx_polling_active s
               /\ transition_in_progress s1 = 1).
  { rewrite E. unfold lprf_tx_complete. cbv zeta.
    change (free_skb (set_tx_skb None
                        (set_transition_in_progress (atomic_inc 0) s)))
      with (free_skb s).
    destruct (free_skb s); (split; [|repeat split]).
    - change (trace s ++ [kfree_skb (tx_skb s); wake_up wait_for_tx_ready])
        with (trace s ++ [kfree_skb (tx_skb s)]
              ++ [wake_up wait_for_tx_ready]).
      rewrite app_assoc. reflexivity.
    - change (trace s ++ [ieee802154_xmit_complete (tx_skb s);
                          wake_up wait_for_tx_ready])
        with (trace s ++ [ieee802154_xmit_complete (tx_skb s)]
              ++ [wake_up wait_for_tx_ready]).
      rewrite app_assoc. reflexivity. }
  clear E. destruct F1 as (T1 & K1 & D1 & R1 & P1 & G1).
  rewrite K1.
  rewrite bool_decide_eq_false_2 by (intros [x Hx]; discriminate).
  cbn [andb]. cbv iota.
  remember (set_transition_in_progress
              (atomic_dec (transition_in_progress s1)) s1) as s2 eqn:E.
  assert (F2 : trace s2 = trace s1 /\ tx_skb s2 = tx_skb s1
               /\ tx_complete s2 = tx_complete s1
               /\ free_skb s2 = free_skb s1
               /\ rx_polling_active s2 = rx_polling_active s1
               /\ transition_in_progress s2 = 0).
  { rewrite E. repeat split.
    change (atomic_dec (transition_in_progress s1) = 0).
    now rewrite G1. }
  clear E. destruct F2 as (T2 & K2 & D2 & R2 & P2 & G2).
  assert (Htimer : forall i,
            let s3 := lprf_start_polling_timer s2 i in
            trace s3 = trace s2 ++ (if rx_polling_active s =? 0 then []
                                    else [hrtimer_start i])
            /\ tx_skb s3 = None /\ tx_complete s3 = false
            /\ free_skb s3 = false /\ transition_in_progress s3 = 0).
  { intros i. unfold lprf_start_polling_timer.
    rewrite P2, P1. destruct (rx_polling_active s =? 0); cbn [negb];
      cbv iota.
    - rewrite app_nil_r. repeat split; congruence.
    - split; [reflexivity|].
      change (tx_skb s2 = None /\ tx_complete s2 = false
              /\ free_skb s2 = false /\ transition_in_progress s2 = 0).
      repeat split; congruence. }
  destruct (PHY_SM_STATUS (u8 phy_status) =? PHY_SM_RECEIVING).
  - destruct (negb (PHY_FIFO_EMPTY (u8 phy_status) =? 0)); cbn [andb];
      eexists; (split; [reflexivity|]);
      destruct (Htimer RX_POLLING_INTERVAL) as (Ta & Ra);
      destruct (Htimer RETRY_INTERVAL) as (Tb & Rb);
      (split; [|assumption]).
    + rewrite Ta, T2, T1. now rewrite <- app_assoc.
    + rewrite Tb, T2, T1. now rewrite <- app_assoc.
  - cbn [andb]. eexists. split; [reflexivity|].
    destruct (Htimer RETRY_INTERVAL) as (Tb & Rb).
    split; [|assumption].
    rewrite Tb, T2, T1. now rewrite <- app_assoc.
Qed.

End TransmitRun.

Section TransmitTheorem.
Context `{lprf_registers_h} `{linux_ieee802154_h}.

Lemma rx_resets_run_flags (s s' : lprf_local) :
  spi_message_complete s = Some lprf_rx_resets_cb ->
  state_change_complete s = Some s' ->
  tx_complete s' = tx_complete s /\ free_skb s' = free_skb s.
Proof.
  intros Hcb Hrun.
  rewrite (state_change_complete_callback s _ Hcb) in Hrun.
  now apply rx_resets_flags.
Qed.

(** X20 (lprf_evaluate_phy_status, lprf_async_state_change,
    lprf_rx_resets, lprf_start_frame_write, __lprf_frame_write_complete,
    lprf_tx_change_complete, lprf_tx_complete).  A pending frame is sent in
    one run of completions: the evaluation that sees an empty FIFO takes the
    guard and puts the chip to sleep, four reset writes follow, the frame is
    written once, the chip is switched to TX, and the completion of that
    command releases the guard and marks the transmission.  The next
    evaluation that finds the chip neither sending nor asleep hands the
    frame back exactly once, freed if it came from the character device
    and reported to the stack otherwise, and leaves no frame pending. *)
Theorem transmit_run (s : lprf_local) (skb : list Z)
    (phy_status phy_status' : Z) :
  transition_in_progress s = 0 -> tx_complete s = false ->
  tx_skb s = Some skb -> reset_counter s = 0 -> spi_async_rets s = [] ->
  PHY_HEADER_LENGTH = 1 ->
  (2 + length SYNC_HEADER + 1 + length skb <= length (tx_buf s))%nat ->
  Z.of_nat (length (tx_buf s)) < 2147483648 ->
  is_byte STATE_CMD_TX -> STATE_CMD_TX <> STATE_CMD_RX ->
  PHY_FIFO_EMPTY (u8 phy_status) <> 0 ->
  PHY_SM_STATUS (u8 phy_status') <> PHY_SM_SENDING ->
  PHY_SM_STATUS (u8 phy_status') <> PHY_SM_SLEEP ->
  let timer i := if rx_polling_active s =? 0 then [] else [hrtimer_start i] in
  exists s1 s2 s3 s4 s5 s6 s7 s8 s9,
    lprf_evaluate_phy_status s phy_status = Some s1
    /\ state_change_complete s1 = Some s2
    /\ state_change_complete s2 = Some s3
    /\ state_change_complete s3 = Some s4
    /\ state_change_complete s4 = Some s5
    /\ state_change_complete s5 = Some s6
    /\ state_change_complete s6 = Some s7
    /\ state_change_complete s7 = Some s8
    /\ trace s8
       = trace s
         ++ [subreg_write (sm_main_value s) SR_SM_COMMAND STATE_CMD_SLEEP
               lprf_rx_resets_cb]
         ++ map (reset_step_write s) [0; 1; 2; 3]
         ++ [frame_write_event skb;
             subreg_write (sm_main_value s) SR_SM_COMMAND STATE_CMD_TX
               lprf_tx_change_complete_cb]
         ++ timer TX_RX_INTERVAL
    /\ transition_in_progress s8 = 0 /\ tx_complete s8 = true
    /\ tx_skb s8 = Some skb /\ reset_counter s8 = 0
    /\ lprf_evaluate_phy_status s8 phy_status' = Some s9
    /\ trace s9
       = trace s8
         ++ [if free_skb s then kfree_skb (Some skb)
             else ieee802154_xmit_complete (Some skb);
             wake_up wait_for_tx_ready]
         ++ timer (if (PHY_SM_STATUS (u8 phy_status') =? PHY_SM_RECEIVING)
                      && negb (PHY_FIFO_EMPTY (u8 phy_status') =? 0)
                   then RX_POLLING_INTERVAL else RETRY_INTERVAL)
    /\ tx_skb s9 = None /\ tx_complete s9 = false
    /\ transition_in_progress s9 = 0.
Proof.
  intros Hfree Hdone Hskb Hcnt Hrets Hphy Hfit Hint Hbyte Hne Hfifo
         Hsend Hsleep timer.
  assert (Hlen : (3 <= length (tx_buf s))%nat) by lia.
  (* the evaluation that starts the transition *)
  destruct (evaluate_starts_tx s skb phy_status Hfree Hdone Hskb Hrets Hlen
              Hbyte Hne Hfifo)
    as (s1 & R1 & T1 & C1 & O1 & L1 & S1 & G1 & U1).
  injection U1 as P1 D1 M1 E1 K1 F1 N1.
  assert (Hlen1 : (3 <= length (tx_buf s1))%nat) by lia.
  (* steps 0 to 3 of the reset sequence *)
  destruct (rx_resets_step_ok s1 0) as (s2 & R2 & T2 & Q2);
    [congruence|lia|lia|exact O1|exact Hlen1|].
  assert (R2' : state_change_complete s1 = Some s2)
    by (rewrite (state_change_complete_callback s1 _ C1); exact R2).
  clear R2. rename R2' into R2.
  destruct (rx_resets_run_flags s1 s2 C1 R2) as (D2 & F2).
  destruct (rx_resets_next s1 s2 1 Q2) as (s3 & R3 & T3 & Q3);
    [lia|lia|exact Hlen1|].
  destruct (rx_resets_run_flags s2 s3 (proj1 (proj2 Q2)) R3) as (D3 & F3).
  destruct (rx_resets_next s1 s3 2 Q3) as (s4 & R4 & T4 & Q4);
    [lia|lia|exact Hlen1|].
  destruct (rx_resets_run_flags s3 s4 (proj1 (proj2 Q3)) R4) as (D4 & F4).
  destruct (rx_resets_next s1 s4 3 Q4) as (s5 & R5 & T5 & Q5);
    [lia|lia|exact Hlen1|].
  destruct (rx_resets_run_flags s4 s5 (proj1 (proj2 Q4)) R5) as (D5 & F5).
  change (if 0 =? 5 then 0 else 0 + 1) with 1 in Q2.
  change (if 1 =? 5 then 0 else 1 + 1) with 2 in Q3.
  change (if 2 =? 5 then 0 else 2 + 1) with 3 in Q4.
  change (if 3 =? 5 then 0 else 3 + 1) with 4 in Q5.
  change (if 3 =? 5 then lprf_rx_change_complete_cb else lprf_rx_resets_cb)
    with lprf_rx_resets_cb in Q5.
  rewrite !(reset_step_write_same s s1 _ M1 E1) in *.
  (* step 4: the frame write *)
  destruct Q5 as (Hc5 & Hcb5 & Hr5 & Hl5 & Hp5 & Hto5 & Htip5 & Hsm5 & Hdem5
                  & Hskb5).
  destruct (start_frame_write_fields s5 skb)
    as (w & Rw & Tw & Cw & Ow & Lw & Uw);
    [congruence|exact Hphy|lia|lia|].
  destruct (untouched_dispatch_all _ _ Uw)
    as (Pw & _ & _ & Gw & Dw & Mw & _ & Kw & Fw & _).
  remember (set_reset_counter 0 w) as s6 eqn:E6.
  assert (F6 : trace s6 = trace w /\ spi_message_complete s6
                                     = spi_message_complete w
               /\ spi_async_rets s6 = spi_async_rets w
               /\ tx_buf s6 = tx_buf w /\ reset_counter s6 = 0
               /\ (rx_polling_active s6, transition_in_progress s6,
                   tx_complete s6, sm_main_value s6, tx_skb s6, free_skb s6)
                  = (rx_polling_active w, transition_in_progress w,
                     tx_complete w, sm_main_value w, tx_skb w, free_skb w))
    by (rewrite E6; repeat split).
  destruct F6 as (T6 & C6 & O6 & B6 & N6 & U6).
  injection U6 as P6 G6 D6 M6 K6 F6.
  assert (R6 : state_change_complete s5 = Some s6).
  { rewrite (state_change_complete_callback s5 _ Hcb5).
    change (run_callback lprf_rx_resets_cb s5) with (lprf_rx_resets s5).
    unfold lprf_rx_resets. rewrite Hc5. cbv beta iota zeta.
    rewrite Hto5, S1, Z.eqb_refl, Rw. cbn [mbind option_bind].
    now rewrite E6. }
  clear E6.
  rewrite Hr5 in Tw, Ow. cbn [hd tl] in Tw, Ow.
  (* the command TX *)
  destruct (write_subreg_ok_full s6 (sm_main_value s6) SR_SM_COMMAND
              STATE_CMD_TX lprf_tx_change_complete_cb)
    as (T7 & C7 & O7 & L7 & U7).
  { congruence. }
  { rewrite B6, Lw, Hl5. exact Hlen1. }
  remember (lprf_async_write_subreg s6 (sm_main_value s6) SR_SM_COMMAND
              STATE_CMD_TX lprf_tx_change_complete_cb) as s7 eqn:E7.
  assert (R7 : state_change_complete s6 = Some s7).
  { rewrite (state_change_complete_callback s6 lprf_frame_write_complete_cb)
      by congruence.
    cbn [run_callback]. unfold __lprf_frame_write_complete.
    now rewrite E7. }
  clear E7.
  destruct (untouched_dispatch_all _ _ U7)
    as (P7 & _ & _ & G7 & D7 & M7 & _ & K7 & F7 & N7).
  (* its completion *)
  remember (lprf_tx_change_complete s7) as s8 eqn:E8.
  assert (R8 : state_change_complete s7 = Some s8).
  { rewrite (state_change_complete_callback s7 _ C7).
    cbn [run_callback]. now rewrite E8. }
  assert (F8 : trace s8 = trace s7 ++ timer TX_RX_INTERVAL
               /\ transition_in_progress s8
                  = atomic_dec (transition_in_progress s7)
               /\ tx_complete s8 = true /\ tx_skb s8 = tx_skb s7
               /\ reset_counter s8 = reset_counter s7
               /\ free_skb s8 = free_skb s7
               /\ rx_polling_active s8 = rx_polling_active s7).
  { rewrite E8. unfold lprf_tx_change_complete, lprf_start_polling_timer.
    cbv zeta.
    change (rx_polling_active
              (set_transition_in_progress
                 (atomic_dec
                    (transition_in_progress (set_tx_complete true s7)))
                 (set_tx_complete true s7)))
      with (rx_polling_active s7).
    assert (Hp : rx_polling_active s7 = rx_polling_active s) by congruence.
    unfold timer. rewrite Hp.
    destruct (rx_polling_active s =? 0); cbn [negb]; cbv iota.
    - rewrite app_nil_r. repeat split. exact Hp.
    - repeat split. exact Hp. }
  clear E8. destruct F8 as (T8 & G8 & D8 & K8 & N8 & F8 & P8).
  assert (G8' : transition_in_progress s8 = 0).
  { rewrite G8.
    replace (transition_in_progress s7) with 1 by congruence.
    reflexivity. }
  (* the evaluation that follows the transmission *)
  destruct (evaluate_finishes_tx s8 phy_status' G8' D8 Hsend Hsleep)
    as (s9 & R9 & T9 & K9 & D9 & _ & G9).
  exists s1, s2, s3, s4, s5, s6, s7, s8, s9.
  split; [exact R1|]. split; [exact R2|]. split; [exact R3|].
  split; [exact R4|]. split; [exact R5|]. split; [exact R6|].
  split; [exact R7|]. split; [exact R8|].
  split.
  { rewrite T8, T7, T6, Tw, T5, T4, T3, T2, T1.
    unfold frame_write_event, map.
    replace (sm_main_value s6) with (sm_main_value s) by congruence.
    rewrite <- !app_assoc. reflexivity. }
  split; [exact G8'|]. split; [exact D8|].
  split; [congruence|]. split; [congruence|].
  split; [exact R9|].
  split.
  { rewrite T9.
    replace (free_skb s8) with (free_skb s) by congruence.
    replace (tx_skb s8) with (Some skb) by congruence.
    replace (rx_polling_active s8) with (rx_polling_active s) by congruence.
    reflexivity. }
  split; [exact K9|]. split; [exact D9|exact G9].
Qed.

End TransmitTheorem.

Lemma transmit_run_witness :
  let s := set_tx_skb (Some [1; 2; 3]) idle_state in
  exists s1 s8 s9,
    @lprf_evaluate_phy_status sample_registers s 0x48 = Some s1
    /\ trace s1
       = [spi_async_state_change [0xc0; 0x80; 0x1f]
            (Some lprf_rx_resets_cb) 0]
    /\ @lprf_evaluate_phy_status sample_registers s8 0xc8 = Some s9
    /\ trace s9
       = trace s8 ++ [ieee802154_xmit_complete (Some [1; 2; 3]);
                      wake_up wait_for_tx_ready; hrtimer_start 500000]
    /\ tx_skb s9 = None.
Proof.
  intros s.
  destruct (@transmit_run sample_registers linux_ieee802154 s [1; 2; 3]
              0x48 0xc8)
    as (s1 & s2 & s3 & s4 & s5 & s6 & s7 & s8 & s9 & R1 & _ & _ & _ & _ & _
        & _ & R8 & T8 & _ & _ & _ & _ & R9 & T9 & K9 & _);
    try reflexivity.
  - vm_compute. lia.
  - vm_compute. split; [discriminate|reflexivity].
  - vm_compute. discriminate.
  - vm_compute. discriminate.
  - vm_compute. discriminate.
  - vm_compute. discriminate.
  - exists s1, s8, s9.
    split; [exact R1|]. split.
    { assert (E : @lprf_evaluate_phy_status sample_registers s 0x48
                  = Some (@lprf_async_write_subreg sample_registers
                            (set_to_state 2 (set_transition_in_progress 1 s))
                            0x0f (0x80, 0x70, 4) 1 lprf_rx_resets_cb))
        by (vm_compute; reflexivity).
      rewrite E in R1. injection R1 as <-. vm_compute. reflexivity. }
    split; [exact R9|]. split; [exact T9|exact K9].
Defined.

(** ** Results of the delimiter search and of the frame extraction *)

Lemma find_SFD_result_cases (data : list Z)
    (data_length sfd preamble_length : Z)
    (r : Z) (out : list Z) (data_length' : Z) :
  find_SFD_and_shift_data data data_length sfd preamble_length
  = Some (r, out, data_length') ->
  ((r = - EFAULT \/ r = 0) /\ out = data /\ data_length' = data_length)
  \/ ((r = 6 \/ r = 7 \/ r = 8)
      /\ s32 (s32 (preamble_length - 1) + 2) <= data_length
      /\ data_length'
         = s32 (data_length - s32 (s32 (preamble_length - 1) + 1))).
Proof.
  intros Hrun.
  unfold find_SFD_and_shift_data in Hrun. cbv zeta in Hrun.
  destruct (data_length <? _) eqn:Eshort.
  { injection Hrun as <- <- <-. left. auto. }
  zbool.
  unfold mbind, option_bind in Hrun.
  destruct (rd data _) as [d0|]; [|discriminate].
  destruct (rd data _) as [d1|]; [|discriminate].
  destruct (_ && _).
  { injection Hrun as <- <- <-. left. auto. }
  destruct (shift_loop _ _ _ _ _) as [out'|]; [|discriminate].
  injection Hrun as <- _ <-. right.
  split; [|split; [exact Eshort|reflexivity]].
  destruct (7 <=? _); [lia|]. destruct (7 <=? _); lia.
Qed.

Lemma find_SFD_fault_short (data : list Z)
    (data_length sfd preamble_length : Z) (out : list Z) (data_length' : Z) :
  find_SFD_and_shift_data data data_length sfd preamble_length
  = Some (- EFAULT, out, data_length') ->
  data_length < s32 (s32 (preamble_length - 1) + 2).
Proof.
  intros Hrun.
  unfold find_SFD_and_shift_data in Hrun. cbv zeta in Hrun.
  destruct (data_length <? _) eqn:Eshort; [zbool; exact Eshort|].
  exfalso.
  unfold mbind, option_bind in Hrun.
  destruct (rd data _) as [d0|]; [|discriminate].
  destruct (rd data _) as [d1|]; [|discriminate].
  destruct (_ && _); [discriminate|].
  destruct (shift_loop _ _ _ _ _) as [out'|]; [|discriminate].
  destruct (7 <=? _); [discriminate|]. destruct (7 <=? _); discriminate.
Qed.

(** X21 (find_SFD_and_shift_data).  Whenever the search returns, its result
    is -EFAULT, 0 or one of the shifts 6, 7 and 8.  With -EFAULT or 0 the
    buffer and the length are those of the caller; with a shift the length
    has been reduced by the preamble length.  The storage of the buffer
    never changes its size. *)
Theorem find_SFD_results (data : list Z) (data_length sfd preamble_length : Z)
    (r : Z) (out : list Z) (data_length' : Z) :
  find_SFD_and_shift_data data data_length sfd preamble_length
  = Some (r, out, data_length') ->
  length out = length data
  /\ (((r = - EFAULT \/ r = 0) /\ out = data /\ data_length' = data_length)
      \/ ((r = 6 \/ r = 7 \/ r = 8)
          /\ s32 (s32 (preamble_length - 1) + 2) <= data_length
          /\ data_length'
             = s32 (data_length - s32 (s32 (preamble_length - 1) + 1)))).
Proof.
  intros Hrun. split.
  - exact (find_SFD_length _ _ _ _ _ _ _ Hrun).
  - exact (find_SFD_result_cases _ _ _ _ _ _ _ Hrun).
Qed.

Lemma find_SFD_results_witness :
  length [0x55; 0x55; 0xe5; 0x01] = 4%nat
  /\ (((-14 = - EFAULT \/ -14 = 0)
       /\ [0x55; 0x55; 0xe5; 0x01] = [0x55; 0x55; 0xe5; 0x01] /\ 4 = 4)
      \/ ((-14 = 6 \/ -14 = 7 \/ -14 = 8)
          /\ s32 (s32 (4 - 1) + 2) <= 4
          /\ 4 = s32 (4 - s32 (s32 (4 - 1) + 1)))).
Proof.
  apply (find_SFD_results [0x55; 0x55; 0xe5; 0x01] 4 0xe5 4).
  reflexivity.
Defined.

Section ReceiveResults.
Context `{linux_ieee802154_h}.

Lemma receive_frame_delivery (alloc_ok : bool) (buffer : list Z)
    (buffer_length rc : Z) (buffer' skb : list Z) :
  receive_frame alloc_ok buffer buffer_length
  = Some (rc, buffer', Some skb) ->
  rc = 0 /\ alloc_ok = true
  /\ Z.of_nat (length skb) <= buffer_length
  /\ skb = take (length skb) (drop 1 buffer)
  /\ (ieee802154_is_valid_psdu_len (u8 (Z.of_nat (length skb))) = true
      \/ Z.of_nat (length skb) = IEEE802154_MTU).
Proof.
  unfold receive_frame. unfold mbind, option_bind.
  destruct (rd buffer 0) as [b0|]; [|discriminate].
  set (fl := if ieee802154_is_valid_psdu_len (u8 b0) then b0
             else IEEE802154_MTU).
  assert (Hfl : ieee802154_is_valid_psdu_len (u8 fl) = true
                \/ fl = IEEE802154_MTU).
  { unfold fl. destruct (ieee802154_is_valid_psdu_len (u8 b0)) eqn:E; auto. }
  destruct (buffer_length <? fl) eqn:E1; [discriminate|]. zbool.
  destruct alloc_ok; cbn [negb]; [|discriminate].
  unfold read_range.
  destruct (_ && _) eqn:E2; [|discriminate].
  intros [= <- _ <-].
  apply andb_prop in E2. destruct E2 as (E2 & E4).
  apply andb_prop in E2. destruct E2 as (_ & E3). zbool.
  assert (Hlen : Z.of_nat (length (take (Z.to_nat fl)
                                     (drop (Z.to_nat 1) buffer))) = fl).
  { rewrite length_take, length_drop. lia. }
  split; [reflexivity|]. split; [reflexivity|].
  split; [lia|]. split.
  - change (Z.to_nat 1) with 1%nat in *.
    rewrite length_take, length_drop. f_equal.
    rewrite length_take, length_drop in Hlen. lia.
  - now rewrite Hlen.
Qed.

(** X22 (lprf_receive_ieee802154_data).  A frame reaches the 802.15.4
    stack only together with the return value 0 and only if the socket
    buffer could be allocated.  Its length is a valid PSDU length or the
    MTU, and it is not longer than the length that the delimiter search
    reports: the length given by the caller less the four bytes of preamble
    and delimiter when the search found the delimiter, the length given by
    the caller when the buffer was too short to be searched.  Its bytes are
    those that follow the length byte in the buffer as the search left it.
    When the delimiter is not found the result is -EINVAL and nothing is
    delivered. *)
Theorem receive_delivers_valid_frame (alloc_ok : bool) (buffer : list Z)
    (buffer_length rc : Z) (buffer' : list Z) (delivered : option (list Z)) :
  is_int buffer_length ->
  lprf_receive_ieee802154_data alloc_ok buffer buffer_length
  = Some (rc, buffer', delivered) ->
  (forall skb, delivered = Some skb ->
     rc = 0 /\ alloc_ok = true
     /\ (exists found remaining,
           find_SFD_and_shift_data buffer buffer_length 0xe5 4
           = Some (found, buffer', remaining)
           /\ (((found = 6 \/ found = 7 \/ found = 8)
                /\ 5 <= buffer_length /\ remaining = buffer_length - 4)
               \/ (found = - EFAULT
                   /\ buffer_length < 5 /\ remaining = buffer_length))
           /\ Z.of_nat (length skb) <= remaining)
     /\ skb = take (length skb) (drop 1 buffer')
     /\ (ieee802154_is_valid_psdu_len (u8 (Z.of_nat (length skb))) = true
         \/ Z.of_nat (length skb) = IEEE802154_MTU))
  /\ (forall r, find_SFD_and_shift_data buffer buffer_length 0xe5 4
                = Some (0, buffer, r) ->
        rc = - EINVAL /\ delivered = None).
Proof.
  intros Hint Hrun. unfold lprf_receive_ieee802154_data in Hrun.
  destruct (find_SFD_and_shift_data buffer buffer_length 0xe5 4)
    as [[[found buf1] n1]|] eqn:Efind; [|discriminate].
  cbn [mbind option_bind] in Hrun.
  pose proof (find_SFD_result_cases _ _ _ _ _ _ _ Efind) as Hres.
  split.
  - intros skb ->.
    destruct (found =? 0) eqn:E0; [discriminate|]. zbool.
    assert (Hb : buffer' = buf1).
    { unfold receive_frame in Hrun. unfold mbind, option_bind in Hrun.
      destruct (rd buf1 0); [|discriminate].
      destruct (_ <? _); [discriminate|].
      destruct (negb alloc_ok); [discriminate|].
      destruct (read_range _ _ _); [|discriminate].
      now injection Hrun as _ <- _. }
    subst buffer'.
    destruct (receive_frame_delivery _ _ _ _ _ _ Hrun)
      as (A1 & A2 & A3 & A4 & A5).
    split; [exact A1|]. split; [exact A2|].
    split; [|split; assumption].
    exists found, n1. split; [reflexivity|]. split; [|exact A3].
    change (s32 (s32 (4 - 1) + 1)) with 4 in Hres.
    change (s32 (s32 (4 - 1) + 2)) with 5 in Hres.
    destruct Hres as [([Hf|Hf] & _ & Hn)|(Hsh & Hlong & Hn)].
    + right. subst found.
      pose proof (find_SFD_fault_short _ _ _ _ _ _ Efind) as Hshort.
      change (s32 (s32 (4 - 1) + 2)) with 5 in Hshort.
      split; [reflexivity|]. split; [exact Hshort|exact Hn].
    + contradiction.
    + left. split; [exact Hsh|]. split; [exact Hlong|].
      rewrite Hn. apply s32_id. unfold is_int in *. lia.
  - intros r Hr. injection Hr as E1 E2 E3.
    subst found. change (0 =? 0) with true in Hrun. cbv iota in Hrun.
    injection Hrun as E4 _ E5. now subst.
Qed.

End ReceiveResults.

Lemma receive_delivers_valid_frame_witness :
  0 = 0 /\ true = true
  /\ (exists found remaining,
        find_SFD_and_shift_data
          [0x55; 0x55; 0x55; 0xe5; 5; 1; 2; 3; 4; 5; 0] 10 0xe5 4
        = Some (found, [5; 1; 2; 3; 4; 5; 2; 3; 4; 5; 0], remaining)
        /\ (((found = 6 \/ found = 7 \/ found = 8)
             /\ 5 <= 10 /\ remaining = 10 - 4)
            \/ (found = - EFAULT /\ 10 < 5 /\ remaining = 10))
        /\ Z.of_nat (length [1; 2; 3; 4; 5]) <= remaining)
  /\ [1; 2; 3; 4; 5]
     = take (length [1; 2; 3; 4; 5])
         (drop 1 [5; 1; 2; 3; 4; 5; 2; 3; 4; 5; 0])
  /\ (@ieee802154_is_valid_psdu_len linux_ieee802154
        (u8 (Z.of_nat (length [1; 2; 3; 4; 5]))) = true
      \/ Z.of_nat (length [1; 2; 3; 4; 5]) = @IEEE802154_MTU linux_ieee802154).
Proof.
  destruct (@receive_delivers_valid_frame linux_ieee802154 true
              [0x55; 0x55; 0x55; 0xe5; 5; 1; 2; 3; 4; 5; 0] 10 0
              [5; 1; 2; 3; 4; 5; 2; 3; 4; 5; 0] (Some [1; 2; 3; 4; 5]))
    as [H _].
  - vm_compute. split; [discriminate|reflexivity].
  - vm_compute. reflexivity.
  - exact (H [1; 2; 3; 4; 5] eq_refl).
Defined.

(** ** Start of the device *)

Section StartStop.
Context `{lprf_registers_h}.

(** X24 (lprf_start_ieee802154).  Starting the device switches polling on
    and dispatches one status poll; it returns 0.  Started again while that
    poll is in flight, it returns 0 without a second dispatch and leaves the
    state as it is. *)
Theorem start_polls_once (s : lprf_local) :
  phy_status_is_active s = 0 -> spi_async_rets s = [] ->
  let s1 := snd (lprf_start_ieee802154 s) in
  fst (lprf_start_ieee802154 s) = 0
  /\ rx_polling_active s1 = 1
  /\ phy_status_is_active s1 = 1
  /\ trace s1 = trace s ++ [spi_async_phy_status 0]
  /\ lprf_start_ieee802154 s1 = (0, s1).
Proof.
  intros Hact Hrets.
  unfold lprf_start_ieee802154. cbv zeta. cbn [fst snd].
  destruct (poll_ok (set_rx_polling_active 1 s) Hact Hrets)
    as (_ & T1 & A1 & R1 & P1 & _).
  split; [reflexivity|]. split; [exact P1|]. split; [exact A1|].
  split; [exact T1|].
  f_equal.
  assert (Hs1 : snd (lprf_phy_status_async (set_rx_polling_active 1 s))
                = emit (spi_async_phy_status 0)
                    (set_spi_async_rets []
                       (set_phy_status_is_active 1
                          (set_rx_polling_active 1 s)))).
  { unfold lprf_phy_status_async. cbv zeta.
    change (phy_status_is_active
              (set_phy_status_is_active
                 (atomic_inc (phy_status_is_active
                                (set_rx_polling_active 1 s)))
                 (set_rx_polling_active 1 s)))
      with (atomic_inc (phy_status_is_active s)).
    change (phy_status_is_active (set_rx_polling_active 1 s))
      with (phy_status_is_active s).
    rewrite Hact. change (atomic_inc 0 =? 1) with true.
    cbn [negb]. cbv iota.
    change (spi_async_rets
              (set_phy_status_is_active (atomic_inc 0)
                 (set_rx_polling_active 1 s)))
      with (spi_async_rets s).
    rewrite Hrets. reflexivity. }
  rewrite Hs1.
  change (set_rx_polling_active 1
            (emit (spi_async_phy_status 0)
               (set_spi_async_rets []
                  (set_phy_status_is_active 1
                     (set_rx_polling_active 1 s)))))
    with (emit (spi_async_phy_status 0)
            (set_spi_async_rets []
               (set_phy_status_is_active 1 (set_rx_polling_active 1 s)))).
  rewrite poll_guard_busy; [reflexivity| |].
  - cbn. unfold is_int. lia.
  - cbn. lia.
Qed.

End StartStop.

Lemma start_polls_once_witness :
  @lprf_start_ieee802154 sample_registers idle_state
  = (0, emit (spi_async_phy_status 0)
          (set_phy_status_is_active 1 idle_state))
  /\ @lprf_start_ieee802154 sample_registers
       (snd (@lprf_start_ieee802154 sample_registers idle_state))
     = (0, snd (@lprf_start_ieee802154 sample_registers idle_state)).
Proof.
  destruct (@start_polls_once sample_registers idle_state)
    as (_ & _ & _ & _ & H); [reflexivity|reflexivity|].
  split; [reflexivity|exact H].
Defined.

(** ** A frame write that is not accepted *)

Section FrameWriteFailure.
Context `{lprf_registers_h}.

(** X25 (lprf_start_frame_write, lprf_rx_resets).  The result of the
    dispatch of a frame write is not acted upon.  When the dispatch fails
    at step 4 of a sequence towards TX, the step counter returns to 0 as
    after a frame that was sent, no error is reported and no recovery is
    started: polling, the transition guard and the pending frame stay as
    they are, with no message under way that could release the guard. *)
Theorem frame_write_failure_ignored (s : lprf_local) (skb rest : list Z)
    (rc : Z) :
  tx_skb s = Some skb -> PHY_HEADER_LENGTH = 1 ->
  (2 + length SYNC_HEADER + 1 + length skb <= length (tx_buf s))%nat ->
  Z.of_nat (length (tx_buf s)) < 2147483648 ->
  spi_async_rets s = rc :: rest ->
  reset_counter s = 4 -> to_state s = STATE_CMD_TX ->
  exists s',
    lprf_rx_resets s = Some s'
    /\ reset_counter s' = 0
    /\ trace s'
       = trace s
         ++ [spi_async_state_change
               ([u8 FRMW;
                 u8 (Z.of_nat (length SYNC_HEADER) + 1
                     + Z.of_nat (length skb))]
                ++ map reverse_bit_order
                     (SYNC_HEADER ++ [u8 (Z.of_nat (length skb))] ++ skb))
               (Some lprf_frame_write_complete_cb) rc]
    /\ spi_async_rets s' = rest
    /\ rx_polling_active s' = rx_polling_active s
    /\ transition_in_progress s' = transition_in_progress s
    /\ tx_skb s' = Some skb
    /\ tx_complete s' = tx_complete s.
Proof.
  intros Hskb Hphy Hfit Hint Hrets Hcnt Hto.
  destruct (start_frame_write_fields s skb Hskb Hphy Hfit Hint)
    as (w & Rw & Tw & _ & Ow & _ & Uw).
  destruct (untouched_dispatch_all _ _ Uw)
    as (Pw & _ & _ & Gw & Dw & _ & _ & Kw & _ & _).
  rewrite Hrets in Tw, Ow. cbn [hd tl] in Tw, Ow.
  exists (set_reset_counter 0 w).
  split.
  { unfold lprf_rx_resets. rewrite Hcnt. cbv beta iota zeta.
    rewrite Hto, Z.eqb_refl, Rw. reflexivity. }
  split; [reflexivity|]. split; [exact Tw|]. split; [exact Ow|].
  split; [exact Pw|]. split; [exact Gw|].
  split; [rewrite <- Hskb; exact Kw|exact Dw].
Qed.

End FrameWriteFailure.

Lemma frame_write_failure_ignored_witness :
  let s := set_spi_async_rets [-5]
             (set_reset_counter 4
                (set_to_state 2
                   (set_transition_in_progress 1
                      (set_tx_skb (Some [1; 2; 3]) idle_state)))) in
  exists s',
    @lprf_rx_resets sample_registers s = Some s'
    /\ reset_counter s' = 0
    /\ trace s'
       = [spi_async_state_change
            [0x60; 9; 0xaa; 0xaa; 0xaa; 0xaa; 0xa7; 0xc0; 0x80; 0x40; 0xc0]
            (Some lprf_frame_write_complete_cb) (-5)]
    /\ spi_async_rets s' = []
    /\ rx_polling_active s' = 1
    /\ transition_in_progress s' = 1
    /\ tx_skb s' = Some [1; 2; 3]
    /\ tx_complete s' = false.
Proof.
  intros s.
  apply (@frame_write_failure_ignored sample_registers s [1; 2; 3] [] (-5));
    try reflexivity.
  - vm_compute. lia.
Defined.

(** ** The polling cycle and the return to RX *)

Section PollingCycle.
Context `{lprf_registers_h} `{linux_ieee802154_h}.

(** X26 (lprf_start_poll, lprf_phy_status_complete,
    lprf_evaluate_phy_status).  One tick of the polling timer with nothing
    to do: the status poll is dispatched under the poll guard, and when the
    chip reports a state other than SLEEP its completion releases both
    guards again and starts the timer once if polling is on.  The guards,
    the step counter and the frame fields are then as before the tick, so
    the cycle can repeat. *)
Theorem poll_cycle (s : lprf_local) (phy_status : Z) :
  phy_status_is_active s = 0 -> transition_in_progress s = 0 ->
  spi_async_rets s = [] -> tx_complete s = false -> tx_skb s = None ->
  PHY_SM_STATUS (u8 phy_status) <> PHY_SM_SLEEP ->
  let s1 := lprf_start_poll s in
  exists s2,
    trace s1 = trace s ++ [spi_async_phy_status 0]
    /\ phy_status_is_active s1 = 1
    /\ lprf_phy_status_complete (set_phy_status_rx_buf phy_status s1)
       = Some s2
    /\ trace s2
       = trace s1
         ++ (if rx_polling_active s =? 0 then []
             else [hrtimer_start
                     (if (PHY_SM_STATUS (u8 phy_status) =? PHY_SM_RECEIVING)
                         && negb (PHY_FIFO_EMPTY (u8 phy_status) =? 0)
                      then RX_POLLING_INTERVAL else RETRY_INTERVAL)])
    /\ phy_status_is_active s2 = 0
    /\ spi_async_rets s2 = []
    /\ kept_by_register_write s2 = kept_by_register_write s
    /\ rx_polling_active s2 = rx_polling_active s.
Proof.
  intros Hact Hfree Hrets Hdone Hskb Hsleep s1.
  destruct (poll_ok s Hact Hrets)
    as (_ & T1 & A1 & R1 & P1 & _ & _ & _ & _ & K1).
  fold (lprf_start_poll s) in T1, A1, R1, P1, K1. fold s1 in T1, A1, R1, P1, K1.
  clearbody s1.
  unfold kept_by_register_write in K1.
  injection K1 as K1c K1t K1g K1d K1m K1e K1k K1f.
  unfold lprf_phy_status_complete. cbv zeta.
  change (phy_status_rx_buf (set_phy_status_rx_buf phy_status s1))
    with phy_status.
  change (phy_status_is_active (set_phy_status_rx_buf phy_status s1))
    with (phy_status_is_active s1).
  rewrite A1. change (atomic_dec 1) with 0.
  remember (set_phy_status_is_active 0
              (set_phy_status_rx_buf phy_status s1)) as s1' eqn:E1.
  assert (F1 : trace s1' = trace s1 /\ phy_status_is_active s1' = 0
               /\ spi_async_rets s1' = spi_async_rets s1
               /\ kept_by_register_write s1' = kept_by_register_write s1
               /\ rx_polling_active s1' = rx_polling_active s1)
    by (rewrite E1; repeat split).
  clear E1. destruct F1 as (T1' & A1' & R1' & K1' & P1').
  unfold kept_by_register_write in K1'.
  injection K1' as K2c K2t K2g K2d K2m K2e K2k K2f.
  unfold lprf_evaluate_phy_status. cbv zeta.
  change (transition_in_progress
            (set_transition_in_progress
               (atomic_inc (transition_in_progress s1')) s1'))
    with (atomic_inc (transition_in_progress s1')).
  replace (transition_in_progress s1') with 0 by congruence.
  change (atomic_inc 0 =? 1) with true. cbn [negb]. cbv iota.
  change (tx_complete (set_transition_in_progress (atomic_inc 0) s1'))
    with (tx_complete s1').
  replace (tx_complete s1') with false by congruence.
  rewrite andb_false_r.
  destruct (PHY_SM_STATUS (u8 phy_status) =? PHY_SM_SLEEP) eqn:E2;
    [zbool; lia|].
  cbn [andb]. cbv iota.
  change (tx_skb (set_transition_in_progress (atomic_inc 0) s1'))
    with (tx_skb s1').
  replace (tx_skb s1') with (@None (list Z)) by congruence.
  rewrite bool_decide_eq_false_2 by (intros [x Hx]; discriminate).
  cbn [andb]. cbv iota.
  change (transition_in_progress
            (set_transition_in_progress (atomic_inc 0) s1'))
    with (atomic_inc 0).
  change (atomic_dec (atomic_inc 0)) with 0.
  remember (set_transition_in_progress 0
              (set_transition_in_progress (atomic_inc 0) s1')) as s1''
    eqn:E3.
  assert (F3 : trace s1'' = trace s1' /\ phy_status_is_active s1'' = 0
               /\ spi_async_rets s1'' = spi_async_rets s1'
               /\ kept_by_register_write s1''
                  = (reset_counter s1', to_state s1', 0, tx_complete s1',
                     sm_main_value s1', dem_main_value s1', tx_skb s1',
                     free_skb s1')
               /\ rx_polling_active s1'' = rx_polling_active s1').
  { rewrite E3. repeat split. exact A1'. }
  clear E3. destruct F3 as (T3 & A3 & R3 & K3 & P3).
  assert (Hk : kept_by_register_write s1'' = kept_by_register_write s).
  { rewrite K3. unfold kept_by_register_write. congruence. }
  assert (Htimer : forall i,
            let s3 := lprf_start_polling_timer s1'' i in
            trace s3 = trace s1 ++ (if rx_polling_active s =? 0 then []
                                    else [hrtimer_start i])
            /\ phy_status_is_active s3 = 0
            /\ spi_async_rets s3 = []
            /\ kept_by_register_write s3 = kept_by_register_write s
            /\ rx_polling_active s3 = rx_polling_active s).
  { intros i. unfold lprf_start_polling_timer.
    replace (rx_polling_active s1'') with (rx_polling_active s)
      by congruence.
    destruct (rx_polling_active s =? 0) eqn:Ep; cbn [negb]; cbv iota.
    - rewrite app_nil_r. repeat split; congruence.
    - change (trace s1'' ++ [hrtimer_start i]
              = trace s1 ++ [hrtimer_start i]
              /\ phy_status_is_active s1'' = 0
              /\ spi_async_rets s1'' = []
              /\ kept_by_register_write s1'' = kept_by_register_write s
              /\ rx_polling_active s1'' = rx_polling_active s).
      repeat split; congruence. }
  destruct (PHY_SM_STATUS (u8 phy_status) =? PHY_SM_RECEIVING).
  - destruct (negb (PHY_FIFO_EMPTY (u8 phy_status) =? 0)); cbn [andb];
      eexists; (split; [exact T1|]); (split; [reflexivity|]);
      (split; [reflexivity|]);
      [apply (Htimer RX_POLLING_INTERVAL)|apply (Htimer RETRY_INTERVAL)].
  - cbn [andb]. eexists. split; [exact T1|]. split; [reflexivity|].
    split; [reflexivity|]. apply (Htimer RETRY_INTERVAL).
Qed.

(** X27 (lprf_evaluate_phy_status, lprf_async_state_change,
    lprf_rx_resets, lprf_rx_change_complete).  An idle chip is put back
    into RX in one run: the evaluation that finds it asleep with an empty
    FIFO and no frame pending takes the transition guard and issues the
    first reset write, five completions issue the other writes of the
    sequence, and the completion of the last one releases the guard and
    starts the timer if polling is on. *)
Theorem receive_restart_run (s : lprf_local) (phy_status : Z) :
  transition_in_progress s = 0 -> tx_complete s = false ->
  tx_skb s = None -> reset_counter s = 0 -> spi_async_rets s = [] ->
  (3 <= length (tx_buf s))%nat ->
  is_byte STATE_CMD_RX -> STATE_CMD_RX <> STATE_CMD_TX ->
  PHY_SM_STATUS (u8 phy_status) = PHY_SM_SLEEP ->
  PHY_FIFO_EMPTY (u8 phy_status) <> 0 ->
  exists s1 s2 s3 s4 s5 s6 s7,
    lprf_evaluate_phy_status s phy_status = Some s1
    /\ transition_in_progress s1 = 1
    /\ state_change_complete s1 = Some s2
    /\ state_change_complete s2 = Some s3
    /\ state_change_complete s3 = Some s4
    /\ state_change_complete s4 = Some s5
    /\ state_change_complete s5 = Some s6
    /\ state_change_complete s6 = Some s7
    /\ trace s7
       = trace s ++ map (reset_step_write s) [0; 1; 2; 3; 4; 5]
         ++ (if rx_polling_active s =? 0 then []
             else [hrtimer_start RX_RX_INTERVAL])
    /\ transition_in_progress s7 = 0
    /\ reset_counter s7 = 0.
Proof.
  intros Hfree Hdone Hskb Hcnt Hrets Hlen Hbyte Hne Hsleep Hfifo.
  remember (set_to_state STATE_CMD_RX
              (set_transition_in_progress (atomic_inc 0) s)) as s0 eqn:E0.
  assert (F0 : trace s0 = trace s /\ spi_async_rets s0 = []
               /\ tx_buf s0 = tx_buf s /\ to_state s0 = STATE_CMD_RX
               /\ transition_in_progress s0 = 1
               /\ reset_counter s0 = 0
               /\ sm_main_value s0 = sm_main_value s
               /\ dem_main_value s0 = dem_main_value s
               /\ rx_polling_active s0 = rx_polling_active s).
  { rewrite E0. repeat split; assumption. }
  destruct F0 as (T0 & R0 & B0 & S0 & G0 & N0 & M0 & D0 & P0).
  assert (Hev : lprf_evaluate_phy_status s phy_status = lprf_rx_resets s0).
  { unfold lprf_evaluate_phy_status. cbv zeta.
    change (transition_in_progress
              (set_transition_in_progress
                 (atomic_inc (transition_in_progress s)) s))
      with (atomic_inc (transition_in_progress s)).
    rewrite Hfree. change (atomic_inc 0 =? 1) with true.
    cbn [negb]. cbv iota.
    change (tx_complete (set_transition_in_progress (atomic_inc 0) s))
      with (tx_complete s).
    rewrite Hdone, andb_false_r.
    destruct (PHY_FIFO_EMPTY (u8 phy_status) =? 0) eqn:E; [zbool; lia|].
    rewrite andb_false_r.
    change (tx_skb (set_transition_in_progress (atomic_inc 0) s))
      with (tx_skb s).
    rewrite Hskb.
    rewrite bool_decide_eq_false_2 by (intros [x Hx]; discriminate).
    rewrite Hsleep, Z.eqb_refl. cbn [negb andb]. cbv iota.
    unfold lprf_async_state_change. cbv zeta.
    rewrite (u8_id STATE_CMD_RX Hbyte), Z.eqb_refl, E0. reflexivity. }
  clear E0.
  assert (Hlen0 : (3 <= length (tx_buf s0))%nat) by (rewrite B0; exact Hlen).
  assert (Hto : to_state s0 <> STATE_CMD_TX) by congruence.
  destruct (rx_resets_step_ok s0 0) as (s1 & R1 & T1 & Q1);
    [exact N0|lia|lia|exact R0|exact Hlen0|].
  destruct (rx_resets_next s0 s1 1 Q1) as (s2 & R2 & T2 & Q2);
    [lia|lia|exact Hlen0|].
  destruct (rx_resets_next s0 s2 2 Q2) as (s3 & R3 & T3 & Q3);
    [lia|lia|exact Hlen0|].
  destruct (rx_resets_next s0 s3 3 Q3) as (s4 & R4 & T4 & Q4);
    [lia|lia|exact Hlen0|].
  destruct (rx_resets_next s0 s4 4 Q4) as (s5 & R5 & T5 & Q5);
    [lia|intros _; exact Hto|exact Hlen0|].
  destruct (rx_resets_next s0 s5 5 Q5) as (s6 & R6 & T6 & Q6);
    [lia|lia|exact Hlen0|].
  change (if 5 =? 5 then 0 else 5 + 1) with 0 in Q6.
  change (if 5 =? 5 then lprf_rx_change_complete_cb else lprf_rx_resets_cb)
    with lprf_rx_change_complete_cb in Q6.
  destruct Q6 as (Hc6 & Hcb6 & _ & _ & Hp6 & _ & Htip6 & _).
  destruct (rx_change_complete_result s6) as (C1 & C2 & C3).
  rewrite !(reset_step_write_same s s0 _ M0 D0) in *.
  exists s1, s2, s3, s4, s5, s6, (lprf_rx_change_complete s6).
  split; [now rewrite Hev|].
  split.
  { destruct Q1 as (_ & _ & _ & _ & _ & _ & Htip1 & _). congruence. }
  split; [exact R2|]. split; [exact R3|]. split; [exact R4|].
  split; [exact R5|]. split; [exact R6|].
  split; [now rewrite (state_change_complete_callback s6 _ Hcb6)|].
  split.
  { rewrite C3, T6, T5, T4, T3, T2, T1, T0, Hp6, P0. unfold map.
    rewrite <- !app_assoc. reflexivity. }
  split; [rewrite C2, Htip6, G0; reflexivity|].
  rewrite C1. exact Hc6.
Qed.

End PollingCycle.

Lemma poll_cycle_witness :
  exists s2,
    @lprf_phy_status_complete sample_registers
       (set_phy_status_rx_buf 0xe8 (@lprf_start_poll sample_registers
                                      idle_state)) = Some s2
    /\ trace s2 = [spi_async_phy_status 0; hrtimer_start 5000000]
    /\ phy_status_is_active s2 = 0
    /\ transition_in_progress s2 = 0.
Proof.
  destruct (@poll_cycle sample_registers idle_state 0xe8)
    as (s2 & _ & _ & R2 & T2 & A2 & _ & K2 & _); try reflexivity.
  - vm_compute. discriminate.
  - exists s2. split; [exact R2|]. split; [exact T2|]. split; [exact A2|].
    unfold kept_by_register_write in K2.
    injection K2 as _ _ G _ _ _ _ _. exact G.
Defined.

Lemma receive_restart_run_witness :
  exists s1 s2 s3 s4 s5 s6 s7,
    @lprf_evaluate_phy_status sample_registers idle_state 0x48 = Some s1
    /\ transition_in_progress s1 = 1
    /\ @state_change_complete sample_registers linux_ieee802154 s1 = Some s2
    /\ @state_change_complete sample_registers linux_ieee802154 s2 = Some s3
    /\ @state_change_complete sample_registers linux_ieee802154 s3 = Some s4
    /\ @state_change_complete sample_registers linux_ieee802154 s4 = Some s5
    /\ @state_change_complete sample_registers linux_ieee802154 s5 = Some s6
    /\ @state_change_complete sample_registers linux_ieee802154 s6 = Some s7
    /\ trace s7
       = map (@reset_step_write sample_registers idle_state)
           [0; 1; 2; 3; 4; 5] ++ [hrtimer_start 500000]
    /\ transition_in_progress s7 = 0
    /\ reset_counter s7 = 0.
Proof.
  apply (@receive_restart_run sample_registers linux_ieee802154 idle_state
           0x48); try reflexivity.
  - vm_compute. lia.
  - vm_compute. split; [discriminate|reflexivity].
  - vm_compute. discriminate.
  - vm_compute. discriminate.
Defined.
